(** * Class scheduler: recurrence expansion, conflict detection, exceptions

    A shallow embedding of
      - [src/utils/schedule-generator.util.ts]: the recurrence expander
        [generateAllClassSessions] and its helper
        [createValidClassSessionFromDateAndTimes];
      - [src/controllers/class.controller.ts]: the conflict finder
        [findDetailedSchedulingConflict] in its two variants (one query for
        room OR instructor; one query for each), the bulk update
        [updateEntireClassSeries] with its exception reconciliation, the
        single-instance update / detach [updateSingleInstance], and the
        handlers [createClassSeries], [cancelSingleInstance] and
        [deleteEntireClassSeries], and [updateClassSeries] of the file's
        first version;
      - the checks of the route's schema [classScheduleSchema] on the
        fields of a recurrence rule;
      - the schema of the model [ClassScheduleSchema], as far as the
        handlers meet it: the [trim] setter of the title, the validation
        that [save()] and [create()] run, and the keys that
        [findByIdAndUpdate] leaves alone;
    together with the parts of the JavaScript [Date] object and of
    [date-fns] that the expander calls.

    Modelling choices.
      - Instants are JavaScript time values: integer milliseconds since
        the epoch, kept in [Z] (the range limit of [Date] and the 53 bits
        of a Number are far from the dates a schedule holds).  An Invalid
        Date is a value of its own.
      - Local calendar fields are read in one civil zone at a fixed offset
        from UTC (the deployment pins Asia/Kathmandu, which has no
        daylight saving); the offset is a parameter of every definition
        that reads the local clock.
      - [throw] is a [Throw] result; [try]/[catch] is a match on it.  The
        reading of the clock, [new Date()], is an argument [now].
      - The document store is a list of documents in the order [findOne]
        scans it, with the tables [populate] resolves references in and a
        counter for fresh identifiers; handlers return their response and
        the store they leave behind.
      - [while] loops recurse on a fuel computed from their boundaries;
        [visitedDays_fuel_enough] and its corollaries show that the fuel
        is never what ends a walk.

    The file has the definitions first (calendar, [Date], expander,
    store, finders, handlers, sample data, schema, further handlers)
    and then the theorems. *)

From Stdlib Require Import ZArith List Bool String Ascii Lia.
Import ListNotations.
Local Open Scope Z_scope.

(* ================================================================== *)
(** ** The proleptic Gregorian calendar on day numbers                  *)
(* ================================================================== *)

(** Day numbers count days from 1970-01-01 (day 0), as ECMAScript's
    [Day(t)].  Years are counted from March 1st internally, so that the
    leap day is the last day of such a shifted year; 400 shifted years
    are one era of 146097 days. *)
Module Calendar.

Definition msPerSecond : Z := 1000.
Definition msPerMinute : Z := 60000.
Definition msPerHour   : Z := 3600000.
Definition msPerDay    : Z := 86400000.

Definition daysPerEra  : Z := 146097.
Definition epochShift  : Z := 719468.

Definition isLeapYear (y : Z) : bool :=
  ((y mod 4 =? 0) && negb (y mod 100 =? 0)) || (y mod 400 =? 0).

(** Month numbers are those of JavaScript: 0 = January .. 11 = December. *)
Definition daysInMonth (y m : Z) : Z :=
  if m =? 1 then (if isLeapYear y then 29 else 28)
  else if (m =? 3) || (m =? 5) || (m =? 8) || (m =? 10) then 30
  else 31.

(** Position of a month in the shifted year (March = 0 .. February = 11). *)
Definition shiftedMonth (m : Z) : Z := if 2 <=? m then m - 2 else m + 10.

Definition unshiftedMonth (mp : Z) : Z := if mp <? 10 then mp + 2 else mp - 10.

(** January and February of a shifted year lie in the next calendar year. *)
Definition carry (mp : Z) : Z := if unshiftedMonth mp <=? 1 then 1 else 0.

(** Days before the first day of shifted month [mp] within its year. *)
Definition daysBeforeMonth (mp : Z) : Z := (153 * mp + 2) / 5.

(** Day of era of day [d] of shifted month [mp] in year-of-era [yoe]. *)
Definition dayOfEra (yoe mp d : Z) : Z :=
  yoe * 365 + yoe / 4 - yoe / 100 + daysBeforeMonth mp + d - 1.

(** Day number of year [y], month [m] (0..11), day of month [d]. *)
Definition daysFromCivil (y m d : Z) : Z :=
  let y' := if m <=? 1 then y - 1 else y in
  let era := y' / 400 in
  let yoe := y' - era * 400 in
  era * daysPerEra + dayOfEra yoe (shiftedMonth m) d - epochShift.

(** A day of era is split into its century (36524 days, the fourth one
    a day longer), the four-year cycle within the century (1461 days,
    the last one of a short century a day shorter), the year within
    the cycle (365 days, the fourth one a day longer) and the day within
    that year. *)
Definition centuryOfEra (doe : Z) : Z := Z.min (doe / 36524) 3.

Definition cycleOfCentury (doe : Z) : Z :=
  (doe - centuryOfEra doe * 36524) / 1461.

Definition yearOfCycle (doe : Z) : Z :=
  Z.min ((doe - centuryOfEra doe * 36524 - cycleOfCentury doe * 1461) / 365) 3.

Definition yearOfEra (doe : Z) : Z :=
  100 * centuryOfEra doe + 4 * cycleOfCentury doe + yearOfCycle doe.

Definition dayOfYear (doe : Z) : Z :=
  doe - centuryOfEra doe * 36524 - cycleOfCentury doe * 1461
      - yearOfCycle doe * 365.

Definition monthOfDayOfYear (doy : Z) : Z := (5 * doy + 2) / 153.

(** Year, month (0..11) and day of month (1..31) of a day number. *)
Definition civilFromDays (z : Z) : Z * Z * Z :=
  let z' := z + epochShift in
  let era := z' / daysPerEra in
  let doe := z' - era * daysPerEra in
  let yoe := yearOfEra doe in
  let doy := dayOfYear doe in
  let mp := monthOfDayOfYear doy in
  let d := doy - daysBeforeMonth mp + 1 in
  let m := unshiftedMonth mp in
  (yoe + era * 400 + carry mp, m, d).

Definition YearFromDay (z : Z) : Z := fst (fst (civilFromDays z)).
Definition MonthFromDay (z : Z) : Z := snd (fst (civilFromDays z)).
Definition DateFromDay (z : Z) : Z := snd (civilFromDays z).

(** ECMAScript [WeekDay]: 0 = Sunday; 1970-01-01 was a Thursday. *)
Definition WeekDay (z : Z) : Z := (z + 4) mod 7.

(** ECMAScript [MakeDay]: the month may lie outside 0..11 and carries
    into the year; the day of month is an offset from the first. *)
Definition MakeDay (year month date : Z) : Z :=
  let ym := year + month / 12 in
  let mn := month mod 12 in
  daysFromCivil ym mn 1 + date - 1.

End Calendar.

(* ================================================================== *)
(** ** JavaScript [Date] in a fixed-offset zone, and [date-fns]         *)
(* ================================================================== *)

(** A [Date] object either holds a time value or is an Invalid Date
    (its time value is NaN). *)
Inductive JsDate : Type :=
| Instant (t : Z)
| InvalidDate.

Module JsTime.
Import Calendar.

Section Zone.
(** Minutes that local civil time is ahead of UTC. *)
Variable utcOffsetMinutes : Z.

Definition LocalTime (t : Z) : Z := t + utcOffsetMinutes * msPerMinute.
Definition UTC (t : Z) : Z := t - utcOffsetMinutes * msPerMinute.

Definition Day (t : Z) : Z := t / msPerDay.
Definition TimeWithinDay (t : Z) : Z := t mod msPerDay.

Definition MakeTime (h m s ms : Z) : Z :=
  h * msPerHour + m * msPerMinute + s * msPerSecond + ms.
Definition MakeDate (day time : Z) : Z := day * msPerDay + time.

Definition getFullYear (t : Z) : Z := YearFromDay (Day (LocalTime t)).
Definition getMonth (t : Z) : Z := MonthFromDay (Day (LocalTime t)).
Definition getDate (t : Z) : Z := DateFromDay (Day (LocalTime t)).
Definition getDay (t : Z) : Z := WeekDay (Day (LocalTime t)).

(** [d.setHours(h, m, s, ms)] *)
Definition setHours (t h m s ms : Z) : Z :=
  UTC (MakeDate (Day (LocalTime t)) (MakeTime h m s ms)).

(** [d.setDate(date)] *)
Definition setDate (t date : Z) : Z :=
  let lt := LocalTime t in
  UTC (MakeDate (MakeDay (YearFromDay (Day lt)) (MonthFromDay (Day lt)) date)
                (TimeWithinDay lt)).

(** [d.setFullYear(y, m, date)] *)
Definition setFullYear (t y m date : Z) : Z :=
  UTC (MakeDate (MakeDay y m date) (TimeWithinDay (LocalTime t))).

(** *** date-fns *)

Definition addMinutes (t amount : Z) : Z := t + amount * msPerMinute.

Definition addDays (t amount : Z) : Z := setDate t (getDate t + amount).

Definition startOfDay (t : Z) : Z := setHours t 0 0 0 0.
Definition endOfDay (t : Z) : Z := setHours t 23 59 59 999.

Definition endOfMonth (t : Z) : Z :=
  let month := getMonth t in
  let t' := setFullYear t (getFullYear t) (month + 1) 0 in
  setHours t' 23 59 59 999.

Definition isLastDayOfMonth (t : Z) : bool := endOfDay t =? endOfMonth t.

Definition lastDayOfMonth (t : Z) : Z :=
  let month := getMonth t in
  let t' := setFullYear t (getFullYear t) (month + 1) 0 in
  setHours t' 0 0 0 0.

(** The zone offset is constant, so the two offsets that date-fns
    subtracts before dividing cancel. *)
Definition differenceInCalendarDays (later earlier : Z) : Z :=
  (LocalTime (startOfDay later) - LocalTime (startOfDay earlier)) / msPerDay.

(** date-fns compares year, month, day, hour, minute, second and
    millisecond in turn; in a fixed-offset zone that lexicographic
    order is the order of the instants. *)
Definition compareLocalAsc (later earlier : Z) : Z := Z.sgn (later - earlier).

Definition differenceInDays (later earlier : Z) : Z :=
  let sign := compareLocalAsc later earlier in
  let difference := Z.abs (differenceInCalendarDays later earlier) in
  let later' := setDate later (getDate later - sign * difference) in
  let isLastDayNotFull :=
    if compareLocalAsc later' earlier =? - sign then 1 else 0 in
  sign * (difference - isLastDayNotFull).

Definition getHours (t : Z) : Z := TimeWithinDay (LocalTime t) / msPerHour.
Definition getMinutes (t : Z) : Z :=
  (TimeWithinDay (LocalTime t) mod msPerHour) / msPerMinute.

Definition digitChar (d : Z) : ascii := ascii_of_nat (48 + Z.to_nat d).
Definition twoDigits (n : Z) : string :=
  String (digitChar (n / 10)) (String (digitChar (n mod 10)) EmptyString).

(** [format(t, "HH:mm")] *)
Definition formatHHmm (t : Z) : string :=
  (twoDigits (getHours t) ++ String ":"%char (twoDigits (getMinutes t)))%string.

(** Rounds towards zero ([Math.trunc]). *)
Definition differenceInWeeks (later earlier : Z) : Z :=
  Z.quot (differenceInDays later earlier) 7.

End Zone.
End JsTime.

(* ================================================================== *)
(** ** Results of code that may throw                                   *)
(* ================================================================== *)

Inductive Result (E A : Type) : Type :=
| Ok (a : A)
| Throw (e : E).
Arguments Ok {E A} a.
Arguments Throw {E A} e.

(* ================================================================== *)
(** ** [schedule-generator.util.ts]                                     *)
(* ================================================================== *)

Definition ObjectId : Type := N.

(** [interface ClassSession]; a session embedded in a stored series also
    carries the [_id] that the store assigned to it. *)
Record ClassSession : Type := mkSession {
  session_id : option ObjectId;
  sessionStartDateTime : Z;
  sessionEndDateTime : Z
}.

Record TimeSlot : Type := mkSlot {
  startTime24h : string;
  endTime24h : string
}.

(** [enum RecurrenceStrategy]; the generator compares against the string
    values "none", "daily", "weekly", "monthly" and "custom". *)
Inductive RecurrenceStrategy : Type :=
| SINGLE_INSTANCE   (* "none" *)
| DAILY
| WEEKLY
| MONTHLY
| CUSTOM.

(** The fields that [generateAllClassSessions] destructures from its
    payload, after the defaults of the destructuring ([[]] for the lists,
    1 for the interval).  Dates arrive as [Date] objects from the route
    validator (or are [undefined]: [None]); an entry that does not denote
    a date is an Invalid Date. *)
Record SchedulePayload : Type := mkPayload {
  seriesStartDate : option JsDate;
  seriesEndDate : option JsDate;
  recurrenceType : RecurrenceStrategy;
  dailyTimeSlots : list TimeSlot;
  selectedWeekdays : list Z;
  selectedMonthDays : list Z;
  repeatEveryXWeeksOrDays : Z;
  manuallyChosenDates : list JsDate
}.

(** One constructor per [throw new Error(...)], with the data that the
    message interpolates. *)
Inductive GeneratorError : Type :=
| InvalidTimeFormat (startTime endTime : string)
| InvalidTimeRange (startTime endTime : string) (baseDate : Z)
| DurationTooShort (minimumMinutes receivedMinutes : Z) (startTime endTime : string)
| TimeSlotRequired
| CustomPatternNeedsBothDates
| CustomPatternInvalidDate
| StartAfterEnd
| NoValidCustomSessions
| InvalidSeriesStartDate (given : option JsDate)
| NoFutureSessions.

Module Generator.
Import Calendar.

(** [s.split(":")] *)
Fixpoint splitColon (s : string) : list string :=
  match s with
  | EmptyString => [EmptyString]
  | String c rest =>
      if Ascii.eqb c ":"%char then EmptyString :: splitColon rest
      else match splitColon rest with
           | piece :: pieces => String c piece :: pieces
           | [] => [String c EmptyString]
           end
  end.

Definition digitValue (c : ascii) : option Z :=
  let n := Z.of_nat (nat_of_ascii c) in
  if (48 <=? n) && (n <=? 57) then Some (n - 48) else None.

Fixpoint digitsValue (acc : Z) (s : string) : option Z :=
  match s with
  | EmptyString => Some acc
  | String c rest =>
      match digitValue c with
      | Some d => digitsValue (10 * acc + d) rest
      | None => None
      end
  end.

(** [Number(s)] on the strings the time fields consist of: a run of
    decimal digits is its value and the empty string is 0; [None] is
    NaN.  Signs, blanks, fractions, exponents and radix prefixes do not
    occur in an "HH:mm" field and read as NaN here. *)
Definition Number (s : string) : option Z := digitsValue 0 s.

(** [const [hour, minute] = time.split(":").map(Number)]; a component
    that is missing is [undefined], which [isNaN] reports like NaN. *)
Definition parseHourMinute (time : string) : option Z * option Z :=
  match map Number (splitColon time) with
  | hour :: minute :: _ => (hour, minute)
  | [hour] => (hour, None)
  | [] => (None, None)
  end.

Definition MINIMUM_ALLOWED_DURATION_MINUTES : Z := 30.

Section Zone.
Variable tz : Z.

Definition createValidClassSessionFromDateAndTimes
    (baseDate : Z) (startTime endTime : string)
  : Result GeneratorError ClassSession :=
  match parseHourMinute startTime, parseHourMinute endTime with
  | (Some startHour, Some startMinute), (Some endHour, Some endMinute) =>
      let sessionStart := JsTime.setHours tz baseDate startHour startMinute 0 0 in
      let sessionEnd := JsTime.setHours tz baseDate endHour endMinute 0 0 in
      if sessionEnd <=? sessionStart then
        Throw (InvalidTimeRange startTime endTime baseDate)
      else
        (* actualDurationMinutes = (end - start) / 60000 is compared
           with the minimum; both sides are scaled by 60000 here. *)
        if sessionEnd - sessionStart <? MINIMUM_ALLOWED_DURATION_MINUTES * msPerMinute then
          Throw (DurationTooShort MINIMUM_ALLOWED_DURATION_MINUTES
                   ((sessionEnd - sessionStart) / msPerMinute) startTime endTime)
        else
          Ok (mkSession None sessionStart sessionEnd)
  | _, _ => Throw (InvalidTimeFormat startTime endTime)
  end.

(** Body of [dailyTimeSlots.forEach]: the session is pushed when it
    starts at or after the buffer; a throw of the helper is caught
    and logged, and the slot is skipped. *)
Definition pushSlotSession (earliestAllowedStart baseDate : Z)
    (generatedSessions : list ClassSession) (slot : TimeSlot)
  : list ClassSession :=
  match createValidClassSessionFromDateAndTimes
          baseDate (startTime24h slot) (endTime24h slot) with
  | Ok session =>
      if earliestAllowedStart <=? sessionStartDateTime session
      then generatedSessions ++ [session]
      else generatedSessions
  | Throw _ => generatedSessions
  end.

Definition forEachSlot (slots : list TimeSlot) (earliestAllowedStart baseDate : Z)
    (generatedSessions : list ClassSession) : list ClassSession :=
  fold_left (pushSlotSession earliestAllowedStart baseDate) slots generatedSessions.

(** [new Date(x)] for [x] a [Date] or [undefined]. *)
Definition newDate (x : option JsDate) : JsDate :=
  match x with
  | Some d => d
  | None => InvalidDate
  end.

(** [cursor <= boundary]: false when the boundary is an Invalid Date. *)
Definition dateLe (cursor : Z) (boundary : JsDate) : bool :=
  match boundary with
  | Instant b => cursor <=? b
  | InvalidDate => false
  end.

Definition includes (xs : list Z) (x : Z) : bool := existsb (Z.eqb x) xs.

(** [a % n === 0]: the remainder by zero is NaN. *)
Definition remainderIsZero (a n : Z) : bool :=
  if n =? 0 then false else Z.rem a n =? 0.

(** Number of passes of a day-by-day walk from [start] that the test
    [cursor <= boundary] admits. *)
Definition walkFuel (start : Z) (boundary : JsDate) : nat :=
  match boundary with
  | Instant b => Z.to_nat ((b - start) / msPerDay + 1)
  | InvalidDate => O
  end.

(** *** Custom recurrence, mode 1: manually chosen dates *)
Definition pushManualDate (slots : list TimeSlot) (earliestAllowedStart : Z)
    (generatedSessions : list ClassSession) (manualDate : JsDate)
  : list ClassSession :=
  match manualDate with
  | InvalidDate => generatedSessions    (* warned about and skipped *)
  | Instant baseDate =>
      forEachSlot slots earliestAllowedStart baseDate generatedSessions
  end.

Definition manualDateSessions (payload : SchedulePayload) (earliestAllowedStart : Z)
  : list ClassSession :=
  fold_left (pushManualDate (dailyTimeSlots payload) earliestAllowedStart)
            (manuallyChosenDates payload) [].

(** *** Custom recurrence, mode 2: interval pattern *)
Definition isMatchingPatternDay (payload : SchedulePayload)
    (patternStart currentDate : Z) : bool :=
  let weeksSincePatternStart :=
    JsTime.differenceInWeeks tz currentDate patternStart in
  let intervalWeeks :=
    Z.max 1 (if repeatEveryXWeeksOrDays payload =? 0 then 1
             else repeatEveryXWeeksOrDays payload) in
  let isMatchingInterval := Z.rem weeksSincePatternStart intervalWeeks =? 0 in
  let isMatchingWeekday :=
    (Nat.eqb (List.length (selectedWeekdays payload)) 0)
    || includes (selectedWeekdays payload) (JsTime.getDay tz currentDate) in
  isMatchingInterval && isMatchingWeekday.

(** The [while (currentDate <= patternEndDate)] loop; [fuel] bounds
    the number of passes. *)
Fixpoint customPatternWalk (fuel : nat) (payload : SchedulePayload)
    (earliestAllowedStart patternStart : Z) (patternEndDate : JsDate)
    (currentDate : Z) (generatedSessions : list ClassSession)
  : list ClassSession :=
  match fuel with
  | O => generatedSessions
  | S fuel' =>
      if dateLe currentDate patternEndDate then
        let generatedSessions' :=
          if isMatchingPatternDay payload patternStart currentDate
          then forEachSlot (dailyTimeSlots payload) earliestAllowedStart
                           currentDate generatedSessions
          else generatedSessions in
        customPatternWalk fuel' payload earliestAllowedStart patternStart
          patternEndDate (JsTime.addDays tz currentDate 1) generatedSessions'
      else generatedSessions
  end.

Definition customPatternSessions (payload : SchedulePayload) (earliestAllowedStart : Z)
  : Result GeneratorError (list ClassSession) :=
  match seriesStartDate payload, seriesEndDate payload with
  | Some startDate, Some endDate =>
      match startDate, endDate with
      | Instant currentDate, Instant patternEnd =>
          if currentDate >? patternEnd then Throw StartAfterEnd
          else Ok (customPatternWalk (walkFuel currentDate endDate) payload
                     earliestAllowedStart currentDate endDate currentDate [])
      | _, _ => Throw CustomPatternInvalidDate
      end
  | _, _ => Throw CustomPatternNeedsBothDates
  end.

(** *** Standard recurrence types *)
Definition shouldIncludeThisDay (payload : SchedulePayload)
    (seriesStart currentDateCursor : Z) : bool :=
  match recurrenceType payload with
  | DAILY =>
      let daysSinceStart :=
        JsTime.differenceInDays tz currentDateCursor seriesStart in
      remainderIsZero daysSinceStart (repeatEveryXWeeksOrDays payload)
  | WEEKLY =>
      let weeksSinceStart :=
        JsTime.differenceInWeeks tz currentDateCursor seriesStart in
      remainderIsZero weeksSinceStart (repeatEveryXWeeksOrDays payload)
      && includes (selectedWeekdays payload) (JsTime.getDay tz currentDateCursor)
  | MONTHLY =>
      let currentDayOfMonth := JsTime.getDate tz currentDateCursor in
      let isLastDayOfCurrentMonth := JsTime.isLastDayOfMonth tz currentDateCursor in
      includes (selectedMonthDays payload) currentDayOfMonth
      || (isLastDayOfCurrentMonth
          && existsb (fun d => d >? JsTime.getDate tz
                                      (JsTime.lastDayOfMonth tz currentDateCursor))
                     (selectedMonthDays payload))
  | SINGLE_INSTANCE => true
  | CUSTOM => false
  end.

Definition isNone (r : RecurrenceStrategy) : bool :=
  match r with
  | SINGLE_INSTANCE => true
  | _ => false
  end.

(** The [while (currentDateCursor <= recurrenceEndBoundary)] loop, with
    its [break] for "none". *)
Fixpoint standardWalk (fuel : nat) (payload : SchedulePayload)
    (earliestAllowedStart seriesStart : Z) (recurrenceEndBoundary : JsDate)
    (currentDateCursor : Z) (generatedSessions : list ClassSession)
  : list ClassSession :=
  match fuel with
  | O => generatedSessions
  | S fuel' =>
      if dateLe currentDateCursor recurrenceEndBoundary then
        let generatedSessions' :=
          if shouldIncludeThisDay payload seriesStart currentDateCursor
          then forEachSlot (dailyTimeSlots payload) earliestAllowedStart
                           currentDateCursor generatedSessions
          else generatedSessions in
        if isNone (recurrenceType payload) then generatedSessions'
        else standardWalk fuel' payload earliestAllowedStart seriesStart
               recurrenceEndBoundary (JsTime.addDays tz currentDateCursor 1)
               generatedSessions'
      else generatedSessions
  end.

Definition standardSessions (payload : SchedulePayload) (earliestAllowedStart : Z)
  : Result GeneratorError (list ClassSession) :=
  match newDate (seriesStartDate payload) with
  | InvalidDate => Throw (InvalidSeriesStartDate (seriesStartDate payload))
  | Instant currentDateCursor =>
      let recurrenceEndBoundary :=
        match seriesEndDate payload with
        | Some endDate => endDate
        | None => Instant currentDateCursor
        end in
      Ok (standardWalk (walkFuel currentDateCursor recurrenceEndBoundary) payload
            earliestAllowedStart currentDateCursor recurrenceEndBoundary
            currentDateCursor [])
  end.

(** The sessions accumulated in [generatedSessions] when control
    reaches a final "safety net", or the error thrown before. *)
Definition collectSessions (now : Z) (payload : SchedulePayload)
  : Result GeneratorError (list ClassSession) :=
  match dailyTimeSlots payload with
  | [] => Throw TimeSlotRequired
  | _ :: _ =>
      let earliestAllowedStart := JsTime.addMinutes now 30 in
      match recurrenceType payload with
      | CUSTOM =>
          match manuallyChosenDates payload with
          | _ :: _ => Ok (manualDateSessions payload earliestAllowedStart)
          | [] => customPatternSessions payload earliestAllowedStart
          end
      | _ => standardSessions payload earliestAllowedStart
      end
  end.

Definition emptyScheduleError (r : RecurrenceStrategy) : GeneratorError :=
  match r with
  | CUSTOM => NoValidCustomSessions
  | _ => NoFutureSessions
  end.

(** [generateAllClassSessions(payload)], with the clock reading
    [new Date()] passed as [now]. *)
Definition generateAllClassSessions (now : Z) (payload : SchedulePayload)
  : Result GeneratorError (list ClassSession) :=
  match collectSessions now payload with
  | Throw e => Throw e
  | Ok [] => Throw (emptyScheduleError (recurrenceType payload))
  | Ok generatedSessions => Ok generatedSessions
  end.


(** *** The walk described by its days

    The definitions below are not in the source: they name the
    cursor days a walk visits, the days it emits sessions for, and
    the sessions it would emit without the buffer test, so that the
    loops above can be stated against them. *)

(** Cursor values of the passes of a walk; a walk that breaks after
    its first pass ([single]) has at most one. *)
Fixpoint visitedDays (single : bool) (fuel : nat) (cursor : Z) (boundary : JsDate)
  : list Z :=
  match fuel with
  | O => []
  | S fuel' =>
      if dateLe cursor boundary then
        cursor :: (if single then []
                   else visitedDays single fuel' (JsTime.addDays tz cursor 1) boundary)
      else []
  end.

Definition slotOccurrence (baseDate : Z) (slot : TimeSlot) : list ClassSession :=
  match createValidClassSessionFromDateAndTimes
          baseDate (startTime24h slot) (endTime24h slot) with
  | Ok session => [session]
  | Throw _ => []
  end.

Definition dayOccurrences (slots : list TimeSlot) (baseDate : Z) : list ClassSession :=
  flat_map (slotOccurrence baseDate) slots.

Definition validInstants (dates : list JsDate) : list Z :=
  flat_map (fun d => match d with Instant t => [t] | InvalidDate => [] end) dates.

(** The days for which the generator runs its slot loop. *)
Definition matchedDays (payload : SchedulePayload) : list Z :=
  match recurrenceType payload with
  | CUSTOM =>
      match manuallyChosenDates payload with
      | _ :: _ => validInstants (manuallyChosenDates payload)
      | [] =>
          match seriesStartDate payload, seriesEndDate payload with
          | Some (Instant start), Some (Instant finish) =>
              if start >? finish then []
              else filter (isMatchingPatternDay payload start)
                     (visitedDays false (walkFuel start (Instant finish))
                        start (Instant finish))
          | _, _ => []
          end
      end
  | kind =>
      match newDate (seriesStartDate payload) with
      | InvalidDate => []
      | Instant start =>
          let boundary :=
            match seriesEndDate payload with
            | Some endDate => endDate
            | None => Instant start
            end in
          filter (shouldIncludeThisDay payload start)
            (visitedDays (isNone kind) (walkFuel start boundary) start boundary)
      end
  end.

(** Every occurrence of the rule: one session per matched day and
    valid slot, whether or not it lies far enough in the future. *)
Definition occurrences (payload : SchedulePayload) : list ClassSession :=
  flat_map (dayOccurrences (dailyTimeSlots payload)) (matchedDays payload).

(** A slot whose start is a clock time of the day it is placed on, as
    the "HH:mm" format of the route guarantees. *)
Definition startsWithinDay (slot : TimeSlot) : Prop :=
  exists h m,
    parseHourMinute (startTime24h slot) = (Some h, Some m) /\
    0 <= h * 60 + m < 1440.

(** The future-buffer test of the slot loop. *)
Definition startsAfterBuffer (now : Z) (session : ClassSession) : bool :=
  JsTime.addMinutes now 30 <=? sessionStartDateTime session.

End Zone.
End Generator.

(* ================================================================== *)
(** ** [class.controller.ts]: stored documents                          *)
(* ================================================================== *)

Inductive ExceptionStatus : Type :=
| modified
| cancelled.

Record ExceptionRecord : Type := mkException {
  originalStart : Z;
  status : ExceptionStatus;
  reason : string;
  newStart : option Z;
  newEnd : option Z
}.

(** A [ClassSchedule] document.  The recurrence fields of the request
    body are stored with the document; they are grouped here as the
    payload they were sent as. *)
Record ClassDoc : Type := mkClass {
  doc_id : ObjectId;
  classTitle : string;
  assignedInstructor : ObjectId;
  assignedRoom : ObjectId;
  schedule : SchedulePayload;
  preGeneratedClassSessions : list ClassSession;
  exceptions : list ExceptionRecord
}.

(** The collections the controller reads.  [classSchedules] is kept in
    the order in which [findOne] scans it; [nextObjectId] is the next
    identifier the store hands out. *)
Record Database : Type := mkDb {
  classSchedules : list ClassDoc;
  instructors : list (ObjectId * string);
  physicalRooms : list (ObjectId * string);
  nextObjectId : ObjectId
}.

Inductive ConflictField : Type :=
| FieldAssignedInstructor    (* "assignedInstructor" *)
| FieldAssignedRoom.         (* "assignedRoom" *)

Inductive OccupiedEntity : Type :=
| InstructorAndRoom (teacher room : string)
| InstructorAlone (teacher : string)
| RoomAlone (room : string).

(** The three message templates, with the values they interpolate; the
    day and time texts are kept as the instants they are formatted from. *)
Inductive ConflictMessage : Type :=
| InstructorAlreadyTeaching (instructorName title : string) (sessionStart sessionEnd : Z)
| RoomAlreadyReserved (roomName title : string) (sessionStart sessionEnd : Z)
| ConflictDetected (entity : OccupiedEntity) (sessionStart sessionEnd : Z).

Record ConflictReport : Type := mkConflict {
  field : ConflictField;
  message : ConflictMessage
}.




(** What a handler can catch: a failure of the expander, a property
    read or written on [undefined], and a document or an update that
    the schema of the model refuses (a failed validator or cast). *)
Inductive ControllerError : Type :=
| GeneratorFailed (e : GeneratorError)
| TypeError
| ValidationFailed.

Module Store.

(** *** The schema of the model ([ClassScheduleSchema]) *)

(** White space that [trim] removes, among the characters of one byte. *)
Definition isWhiteSpace (c : ascii) : bool :=
  let n := nat_of_ascii c in
  ((9 <=? n)%nat && (n <=? 13)%nat) || (n =? 32)%nat.

Fixpoint trimStart (s : string) : string :=
  match s with
  | EmptyString => EmptyString
  | String c rest => if isWhiteSpace c then trimStart rest else s
  end.

Fixpoint trimEnd (s : string) : string :=
  match s with
  | EmptyString => EmptyString
  | String c rest =>
      match trimEnd rest with
      | EmptyString => if isWhiteSpace c then EmptyString else String c EmptyString
      | kept => String c kept
      end
  end.

(** The setter of [classTitle] ([trim: true]); it runs when the path is
    assigned, when a document is created and when an update is cast. *)
Definition trim (s : string) : string := trimEnd (trimStart s).

Definition isEmpty (s : string) : bool :=
  match s with
  | EmptyString => true
  | String _ _ => false
  end.

(** A date path holds a date that reads, or nothing. *)
Definition castsToDate (d : option JsDate) : bool :=
  match d with
  | Some InvalidDate => false
  | _ => true
  end.

(** The validation that [save()] and [create()] run: the paths marked
    [required] are present (a required string is not empty), and a date
    path holds a date that reads. *)
Definition validates (doc : ClassDoc) : bool :=
  negb (isEmpty (classTitle doc))
  && match seriesStartDate (schedule doc) with
     | Some (Instant _) => true
     | _ => false
     end
  && castsToDate (seriesEndDate (schedule doc))
  && forallb (fun slot => negb (isEmpty (startTime24h slot))
                          && negb (isEmpty (endTime24h slot)))
             (dailyTimeSlots (schedule doc)).

(** [findByIdAndUpdate(id, { ...req.body, ... })] leaves a key out of
    the update when its value is [undefined]: the stored boundary is
    kept when the request gives none. *)
Definition setIfDefined (stored given : option JsDate) : option JsDate :=
  match given with
  | Some d => Some d
  | None => stored
  end.

Definition updatedRule (stored requested : SchedulePayload) : SchedulePayload :=
  mkPayload (setIfDefined (seriesStartDate stored) (seriesStartDate requested))
            (setIfDefined (seriesEndDate stored) (seriesEndDate requested))
            (recurrenceType requested) (dailyTimeSlots requested)
            (selectedWeekdays requested) (selectedMonthDays requested)
            (repeatEveryXWeeksOrDays requested) (manuallyChosenDates requested).

(** *** Queries *)

Definition findOne (query : ClassDoc -> bool) (db : Database) : option ClassDoc :=
  find query (classSchedules db).

Definition findById (db : Database) (id : ObjectId) : option ClassDoc :=
  findOne (fun doc => N.eqb (doc_id doc) id) db.

(** The name that [populate] finds for a reference, if it resolves. *)
Definition lookupName (table : list (ObjectId * string)) (id : ObjectId)
  : option string :=
  option_map snd (find (fun entry => N.eqb (fst entry) id) table).

(** One disjunct of the [$or] under [$elemMatch]:
    [{ sessionStartDateTime: { $lt: newSession.sessionEndDateTime },
       sessionEndDateTime:   { $gt: newSession.sessionStartDateTime } }]. *)
Definition overlapCondition (newSession existing : ClassSession) : bool :=
  (sessionStartDateTime existing <? sessionEndDateTime newSession)
  && (sessionEndDateTime existing >? sessionStartDateTime newSession).

(** [preGeneratedClassSessions: { $elemMatch: { $or: [...] } }].  For
    a request of no session the [$or] has no clause and is dropped from
    the query; the [$elemMatch] that is left matches a series that has
    any session at all. *)
Definition elemMatchOverlap (requestedSessions : list ClassSession) (doc : ClassDoc)
  : bool :=
  match requestedSessions with
  | [] =>
      match preGeneratedClassSessions doc with
      | [] => false
      | _ :: _ => true
      end
  | _ :: _ =>
      existsb (fun existing =>
                 existsb (fun newSession => overlapCondition newSession existing)
                         requestedSessions)
              (preGeneratedClassSessions doc)
  end.

(** [_id: { $ne: ignoreId }], present only when an id to ignore is given. *)
Definition notIgnored (ignoreId : option ObjectId) (doc : ClassDoc) : bool :=
  match ignoreId with
  | Some id => negb (N.eqb (doc_id doc) id)
  | None => true
  end.

(** The callback of [.find(...)] that picks the session for the message:
    [proposed.start < existing.end && proposed.end > existing.start]
    for some requested session. *)
Definition overlapsSomeRequested (requestedSessions : list ClassSession)
    (existing : ClassSession) : bool :=
  existsb (fun proposed =>
             (sessionStartDateTime proposed <? sessionEndDateTime existing)
             && (sessionEndDateTime proposed >? sessionStartDateTime existing))
          requestedSessions.

(** Sub-documents without an [_id] receive the next free identifiers. *)
Fixpoint assignSessionIds (next : ObjectId) (sessions : list ClassSession)
  : list ClassSession * ObjectId :=
  match sessions with
  | [] => ([], next)
  | sess :: rest =>
      match session_id sess with
      | Some _ =>
          let (rest', next') := assignSessionIds next rest in
          (sess :: rest', next')
      | None =>
          let (rest', next') := assignSessionIds (N.succ next) rest in
          (mkSession (Some next) (sessionStartDateTime sess)
                     (sessionEndDateTime sess) :: rest', next')
      end
  end.

(** [series.save()] / [findByIdAndUpdate]: the stored document with the
    same [_id] is replaced. *)
Definition replaceDoc (doc : ClassDoc) (db : Database) : Database :=
  mkDb (map (fun old => if N.eqb (doc_id old) (doc_id doc) then doc else old)
            (classSchedules db))
       (instructors db) (physicalRooms db) (nextObjectId db).

(** [ClassSchedule.create(fields)]: the document and its sessions get
    fresh identifiers and the document is appended. *)
Definition create (title : string) (instructor room : ObjectId)
    (rule : SchedulePayload) (sessions : list ClassSession) (db : Database)
  : ClassDoc * Database :=
  let id := nextObjectId db in
  let (sessions', next) := assignSessionIds (N.succ id) sessions in
  let doc := mkClass id title instructor room rule sessions' [] in
  (doc, mkDb (classSchedules db ++ [doc]) (instructors db) (physicalRooms db) next).

(** Identifiers in use lie below the next one the store hands out. *)
Definition freshIds (db : Database) : Prop :=
  Forall (fun doc => (doc_id doc < nextObjectId db)%N) (classSchedules db).

End Store.

(* ================================================================== *)
(** ** [findDetailedSchedulingConflict], single-query variant           *)
(* ================================================================== *)

Module SingleQuery.
Import Store.

(** [conflictSearchQuery]: room OR instructor, an overlapping session,
    and not the ignored document. *)
Definition conflictSearchQuery (requestedSessionsByUser : list ClassSession)
    (targetRoomId targetInstructorId : ObjectId)
    (ignoreCurrentClassId : option ObjectId) (doc : ClassDoc) : bool :=
  (N.eqb (assignedRoom doc) targetRoomId
   || N.eqb (assignedInstructor doc) targetInstructorId)
  && elemMatchOverlap requestedSessionsByUser doc
  && notIgnored ignoreCurrentClassId doc.

Definition findDetailedSchedulingConflict (db : Database)
    (requestedSessionsByUser : list ClassSession)
    (targetRoomId targetInstructorId : ObjectId)
    (ignoreCurrentClassId : option ObjectId)
  : Result ControllerError (option ConflictReport) :=
  match findOne (conflictSearchQuery requestedSessionsByUser targetRoomId
                   targetInstructorId ignoreCurrentClassId) db with
  | None => Ok None
  | Some existingConflictingDocument =>
      match
        find (overlapsSomeRequested requestedSessionsByUser)
             (preGeneratedClassSessions existingConflictingDocument),
        lookupName (instructors db) (assignedInstructor existingConflictingDocument),
        lookupName (physicalRooms db) (assignedRoom existingConflictingDocument)
      with
      | Some exactProblematicSession,
        Some conflictingInstructorName,
        Some conflictingRoomName =>
          let isInstructorTheProblem :=
            N.eqb (assignedInstructor existingConflictingDocument)
                  targetInstructorId in
          let sessionStart := sessionStartDateTime exactProblematicSession in
          let sessionEnd := sessionEndDateTime exactProblematicSession in
          Ok (Some
            (mkConflict
               (if isInstructorTheProblem then FieldAssignedInstructor
                else FieldAssignedRoom)
               (if isInstructorTheProblem
                then InstructorAlreadyTeaching conflictingInstructorName
                       (classTitle existingConflictingDocument) sessionStart sessionEnd
                else RoomAlreadyReserved conflictingRoomName
                       (classTitle existingConflictingDocument) sessionStart sessionEnd)))
      | _, _, _ => Throw TypeError   (* a property read on undefined / null *)
      end
  end.

End SingleQuery.

(* ================================================================== *)
(** ** [findDetailedSchedulingConflict], dual-query variant, and the    *)
(** ** handlers that use it                                             *)
(* ================================================================== *)

Module DualQuery.
Import Store.

Inductive QueryField : Type :=
| ByInstructor
| ByRoom.

(** [baseQuery(field, id)] *)
Definition baseQuery (requestedSessions : list ClassSession)
    (ignoreSeriesId : option ObjectId) (queried : QueryField) (id : ObjectId)
    (doc : ClassDoc) : bool :=
  N.eqb (match queried with
         | ByInstructor => assignedInstructor doc
         | ByRoom => assignedRoom doc
         end) id
  && notIgnored ignoreSeriesId doc
  && elemMatchOverlap requestedSessions doc.

Definition findDetailedSchedulingConflict (db : Database)
    (requestedSessions : list ClassSession)
    (targetRoomId targetInstructorId : ObjectId)
    (ignoreSeriesId : option ObjectId)
  : Result ControllerError (option ConflictReport) :=
  let instructorConflict :=
    findOne (baseQuery requestedSessions ignoreSeriesId ByInstructor
               targetInstructorId) db in
  let roomConflict :=
    findOne (baseQuery requestedSessions ignoreSeriesId ByRoom targetRoomId) db in
  let conflictSource :=
    match instructorConflict with
    | Some doc => Some doc
    | None => roomConflict
    end in
  match conflictSource with
  | None => Ok None
  | Some source =>
      match find (overlapsSomeRequested requestedSessions)
                 (preGeneratedClassSessions source) with
      | None => Throw TypeError
      | Some overlappingSession =>
          let sessionStart := sessionStartDateTime overlappingSession in
          let sessionEnd := sessionEndDateTime overlappingSession in
          let teacherOf (doc : ClassDoc) :=
            lookupName (instructors db) (assignedInstructor doc) in
          let roomOf (doc : ClassDoc) :=
            lookupName (physicalRooms db) (assignedRoom doc) in
          match instructorConflict, roomConflict with
          | Some ic, Some rc =>
              match teacherOf ic, roomOf rc with
              | Some teacher, Some room =>
                  Ok (Some (mkConflict FieldAssignedInstructor
                              (ConflictDetected (InstructorAndRoom teacher room)
                                                sessionStart sessionEnd)))
              | _, _ => Throw TypeError
              end
          | Some ic, None =>
              match teacherOf ic with
              | Some teacher =>
                  Ok (Some (mkConflict FieldAssignedInstructor
                              (ConflictDetected (InstructorAlone teacher)
                                                sessionStart sessionEnd)))
              | None => Throw TypeError
              end
          | None, Some rc =>
              match roomOf rc with
              | Some room =>
                  Ok (Some (mkConflict FieldAssignedRoom
                              (ConflictDetected (RoomAlone room)
                                                sessionStart sessionEnd)))
              | None => Throw TypeError
              end
          | None, None => Ok None
          end
      end
  end.

End DualQuery.

(** The request body of the class routes: who, where, and the rule. *)
Record ClassBody : Type := mkBody {
  body_classTitle : string;
  body_assignedInstructor : ObjectId;
  body_assignedRoom : ObjectId;
  body_schedule : SchedulePayload
}.

(** The request body of the single-instance route; every field but the
    reason is optional. *)
Record InstanceBody : Type := mkInstanceBody {
  req_newStart : option Z;
  req_newEnd : option Z;
  req_reason : string;
  req_classTitle : option string;
  req_assignedInstructor : option ObjectId;
  req_assignedRoom : option ObjectId
}.

Inductive Response : Type :=
| NotFound (what : string)
| Conflict (report : ConflictReport)
| UpdateError (e : ControllerError)
| SeriesUpdated (updated : option ClassDoc)
| StandaloneUpdated (series : ClassDoc)
| DetachedSuccessfully (newClass : ClassDoc) (parentSeriesId : ObjectId).

Module Controller.
Import Store.

Definition isModified (st : ExceptionStatus) : bool :=
  match st with modified => true | cancelled => false end.
Definition isCancelled (st : ExceptionStatus) : bool :=
  match st with cancelled => true | modified => false end.

(** The [series.exceptions.find(...)] of the bulk update. *)
Definition findManualEdit (exceptions : list ExceptionRecord) (sess : ClassSession)
  : option ExceptionRecord :=
  find (fun ex => (originalStart ex =? sessionStartDateTime sess)
                  && isModified (status ex))
       exceptions.

(** Body of the [.map(...)]: a session with a manual edit takes the
    edit's [newStart!] and [newEnd!].  An exception marked modified is
    expected to carry both; when one is missing the session is left with
    an undefined date, which makes the update fail ([None]). *)
Definition applyManualEdit (exceptions : list ExceptionRecord) (sess : ClassSession)
  : option ClassSession :=
  match findManualEdit exceptions sess with
  | Some manualEdit =>
      match newStart manualEdit, newEnd manualEdit with
      | Some start, Some finish =>
          Some (mkSession (session_id sess) start finish)
      | _, _ => None
      end
  | None => Some sess
  end.

Fixpoint mapManualEdits (exceptions : list ExceptionRecord)
    (sessions : list ClassSession) : option (list ClassSession) :=
  match sessions with
  | [] => Some []
  | sess :: rest =>
      match applyManualEdit exceptions sess, mapManualEdits exceptions rest with
      | Some sess', Some rest' => Some (sess' :: rest')
      | _, _ => None
      end
  end.

(** Predicate of the [.filter(...)]: no cancelled exception is anchored
    at the start the session has at that point. *)
Definition notCancelled (exceptions : list ExceptionRecord) (sess : ClassSession)
  : bool :=
  negb (existsb (fun ex => (originalStart ex =? sessionStartDateTime sess)
                           && isCancelled (status ex))
                exceptions).

(** Step 2 of [updateEntireClassSeries]: [.map(...)] then [.filter(...)]. *)
Definition reconcileSessions (exceptions : list ExceptionRecord)
    (newSessions : list ClassSession)
  : Result ControllerError (list ClassSession) :=
  match mapManualEdits exceptions newSessions with
  | None => Throw TypeError
  | Some edited => Ok (filter (notCancelled exceptions) edited)
  end.

Section Zone.
Variable tz : Z.

Definition updateEntireClassSeries (now : Z) (db : Database)
    (id : ObjectId) (body : ClassBody) : Response * Database :=
  match findById db id with
  | None => (NotFound "Series not found", db)
  | Some series =>
      match Generator.generateAllClassSessions tz now (body_schedule body) with
      | Throw e => (UpdateError (GeneratorFailed e), db)
      | Ok generated =>
          match reconcileSessions (exceptions series) generated with
          | Throw e => (UpdateError e, db)
          | Ok newSessions =>
              match DualQuery.findDetailedSchedulingConflict db newSessions
                      (body_assignedRoom body) (body_assignedInstructor body)
                      (Some id) with
              | Throw e => (UpdateError e, db)
              | Ok (Some conflict) => (Conflict conflict, db)
              | Ok None =>
                  (* [findByIdAndUpdate] casts the update and runs the
                     setters, but no validator *)
                  if castsToDate (seriesStartDate (body_schedule body))
                     && castsToDate (seriesEndDate (body_schedule body))
                  then
                    let (stored, next) :=
                      assignSessionIds (nextObjectId db) newSessions in
                    let updated :=
                      mkClass (doc_id series) (trim (body_classTitle body))
                        (body_assignedInstructor body) (body_assignedRoom body)
                        (updatedRule (schedule series) (body_schedule body))
                        stored (exceptions series) in
                    let db' := replaceDoc updated db in
                    (SeriesUpdated (Some updated),
                     mkDb (classSchedules db') (instructors db')
                          (physicalRooms db') next)
                  else (UpdateError ValidationFailed, db)
              end
          end
      end
  end.

(** [given || fallback] on an optional, validated identifier. *)
Definition orElse {A : Type} (given : option A) (fallback : A) : A :=
  match given with
  | Some x => x
  | None => fallback
  end.

(** [given || fallback] on an optional string: the empty string is
    falsy as well. *)
Definition orElseString (given : option string) (fallback : string) : string :=
  match given with
  | Some EmptyString => fallback
  | Some x => x
  | None => fallback
  end.

(** [sessions[0].field = value], done only when a value is given; the
    assignment fails on an empty array. *)
Definition assignToFirst (given : option Z)
    (assign : Z -> ClassSession -> ClassSession)
    (sessions : list ClassSession) : option (list ClassSession) :=
  match given with
  | None => Some sessions
  | Some value =>
      match sessions with
      | [] => None
      | first :: rest => Some (assign value first :: rest)
      end
  end.

Definition withStart (value : Z) (sess : ClassSession) : ClassSession :=
  mkSession (session_id sess) value (sessionEndDateTime sess).
Definition withEnd (value : Z) (sess : ClassSession) : ClassSession :=
  mkSession (session_id sess) (sessionStartDateTime sess) value.

(** [sessions.id(sessionId)] and [sessions.pull(sessionId)] *)
Definition hasId (sessionId : ObjectId) (sess : ClassSession) : bool :=
  match session_id sess with
  | Some id => N.eqb id sessionId
  | None => false
  end.
Definition sessionById (sessions : list ClassSession) (sessionId : ObjectId)
  : option ClassSession := find (hasId sessionId) sessions.
Definition pull (sessions : list ClassSession) (sessionId : ObjectId)
  : list ClassSession := filter (fun sess => negb (hasId sessionId sess)) sessions.

(** [updateSingleInstance].  The title goes through the setter of its
    path on both paths; [series.save()] and [ClassSchedule.create]
    validate the document they write.  A detach writes twice: the new
    class is stored before the parent is saved. *)
Definition updateSingleInstance (db : Database)
    (seriesId sessionId : ObjectId) (body : InstanceBody) : Response * Database :=
  match findById db seriesId with
  | None => (NotFound "Series not found", db)
  | Some series =>
      let title := trim (orElseString (req_classTitle body) (classTitle series)) in
      let instructor :=
        orElse (req_assignedInstructor body) (assignedInstructor series) in
      let room := orElse (req_assignedRoom body) (assignedRoom series) in
      if Generator.isNone (recurrenceType (schedule series)) then
        (* a standalone class is updated in place *)
        match assignToFirst (req_newStart body) withStart
                (preGeneratedClassSessions series) with
        | None => (UpdateError TypeError, db)
        | Some sessions1 =>
            match assignToFirst (req_newEnd body) withEnd sessions1 with
            | None => (UpdateError TypeError, db)
            | Some sessions2 =>
                let series' :=
                  mkClass (doc_id series) title instructor room
                          (schedule series) sessions2 (exceptions series) in
                if validates series'
                then (StandaloneUpdated series', replaceDoc series' db)
                else (UpdateError ValidationFailed, db)
            end
        end
      else
        match sessionById (preGeneratedClassSessions series) sessionId with
        | None => (NotFound "Session instance not found", db)
        | Some session =>
            let finalStart :=
              orElse (req_newStart body) (sessionStartDateTime session) in
            let finalEnd :=
              orElse (req_newEnd body) (sessionEndDateTime session) in
            match DualQuery.findDetailedSchedulingConflict db
                    [mkSession None finalStart finalEnd] room instructor
                    (Some seriesId) with
            | Throw e => (UpdateError e, db)
            | Ok (Some conflict) => (Conflict conflict, db)
            | Ok None =>
                let (newStandaloneClass, db1) :=
                  create title instructor room
                    (mkPayload (Some (Instant finalStart)) (Some (Instant finalEnd))
                       SINGLE_INSTANCE
                       [mkSlot (JsTime.formatHHmm tz finalStart)
                               (JsTime.formatHHmm tz finalEnd)]
                       [] [] 1 [])
                    [mkSession None finalStart finalEnd] db in
                if validates newStandaloneClass then
                  let series' :=
                    mkClass (doc_id series) (classTitle series)
                      (assignedInstructor series) (assignedRoom series)
                      (schedule series)
                      (pull (preGeneratedClassSessions series) sessionId)
                      (exceptions series
                       ++ [mkException (sessionStartDateTime session) cancelled
                             (req_reason body) None None]) in
                  if validates series'
                  then (DetachedSuccessfully newStandaloneClass (doc_id series),
                        replaceDoc series' db1)
                  else (UpdateError ValidationFailed, db1)
                else (UpdateError ValidationFailed, db)
            end
        end
  end.
End Zone.
End Controller.

(* ================================================================== *)
(** ** Sample data for the worked examples                              *)
(* ================================================================== *)

Module Sample.
Import Calendar.

(** Asia/Kathmandu: UTC+05:45. *)
Definition kathmandu : Z := 345.

(** The instant at which the local clock of the zone shows [h]:[m] on
    the given calendar day ([month] is 0-based). *)
Definition localClock (year month day h m : Z) : Z :=
  JsTime.UTC kathmandu
    (JsTime.MakeDate (daysFromCivil year month day) (JsTime.MakeTime h m 0 0)).

Definition nineToTen : TimeSlot := mkSlot "09:00" "10:00".
Definition tenToEleven : TimeSlot := mkSlot "10:00" "11:00".
Definition tenMinutes : TimeSlot := mkSlot "09:00" "09:10".

Definition rule (kind : RecurrenceStrategy) (start : Z) (finish : option Z)
    (slots : list TimeSlot) (monthDays : list Z) : SchedulePayload :=
  mkPayload (Some (Instant start)) (option_map Instant finish) kind slots
            [] monthDays 1 [].

(** *** A small store

    Two instructors and two rooms.  "Physics 101" occupies Lab 1 with
    Dr. Rai on 3 November 2026 from 09:00 to 10:00, "Chemistry" occupies
    Lab 2 with Dr. Sen at the same time; "Algebra" is a weekly series of
    Dr. Sen in Lab 2 on two Wednesdays from 14:00 to 15:00. *)
Definition drRai : ObjectId := 1%N.
Definition drSen : ObjectId := 2%N.
Definition lab1 : ObjectId := 11%N.
Definition lab2 : ObjectId := 12%N.

Definition nov3 (h m : Z) : Z := localClock 2026 10 3 h m.

Definition physics : ClassDoc :=
  mkClass 101%N "Physics 101" drRai lab1
    (rule SINGLE_INSTANCE (nov3 0 0) None [nineToTen] [])
    [mkSession (Some 102%N) (nov3 9 0) (nov3 10 0)] [].

Definition chemistry : ClassDoc :=
  mkClass 103%N "Chemistry" drSen lab2
    (rule SINGLE_INSTANCE (nov3 0 0) None [nineToTen] [])
    [mkSession (Some 104%N) (nov3 9 0) (nov3 10 0)] [].

Definition algebra : ClassDoc :=
  mkClass 105%N "Algebra" drSen lab2
    (mkPayload (Some (Instant (localClock 2026 10 4 0 0)))
               (Some (Instant (localClock 2026 10 12 0 0)))
               WEEKLY [mkSlot "14:00" "15:00"] [3] [] 1 [])
    [mkSession (Some 106%N) (localClock 2026 10 4 14 0) (localClock 2026 10 4 15 0);
     mkSession (Some 107%N) (localClock 2026 10 11 14 0) (localClock 2026 10 11 15 0)]
    [].

Definition store : Database :=
  mkDb [physics; chemistry; algebra]
       [(drRai, "Dr. Rai"%string); (drSen, "Dr. Sen"%string)]
       [(lab1, "Lab 1"%string); (lab2, "Lab 2"%string)]
       200%N.

(** "Physics 101" after two manual changes to its session of 09:00: it
    was moved to 11:00-12:00 and, separately, cancelled. *)
Definition moved : ExceptionRecord :=
  mkException (nov3 9 0) modified "moved" (Some (nov3 11 0)) (Some (nov3 12 0)).
Definition dropped : ExceptionRecord :=
  mkException (nov3 9 0) cancelled "holiday" None None.

Definition storeWithExceptions : Database :=
  mkDb [mkClass 101%N "Physics 101" drRai lab1
          (rule SINGLE_INSTANCE (nov3 0 0) None [nineToTen] [])
          [] [moved; dropped];
        chemistry; algebra]
       (instructors store) (physicalRooms store) 200%N.

(** A request for Lab 1 with Dr. Sen on 3 November from 09:30 to
    10:30: it collides with "Physics 101" over the room and with
    "Chemistry" over the instructor. *)
Definition contestedRequest : list ClassSession :=
  [mkSession None (nov3 9 30) (nov3 10 30)].

End Sample.

(* ================================================================== *)
(** ** The route's schema ([classScheduleSchema])                       *)
(* ================================================================== *)

(** The class routes pass the request through [validate(classScheduleSchema)]
    before the handler runs.  The checks below are those the schema makes
    on the fields modelled here; identifiers are typed and need none. *)
Module Schema.

(** [/^([01]\d|2[0-3]):([0-5]\d)$/] *)
Definition matchesHHmm (s : string) : bool :=
  match s with
  | String h1 (String h2 (String colon (String m1 (String m2 EmptyString)))) =>
      match Generator.digitValue h1, Generator.digitValue h2,
            Generator.digitValue m1, Generator.digitValue m2 with
      | Some a, Some b, Some c, Some _ =>
          ((a <=? 1) || ((a =? 2) && (b <=? 3)))
          && Ascii.eqb colon ":"%char
          && (c <=? 5)
      | _, _, _, _ => false
      end
  | _ => false
  end.

Definition timeSlotSchema (slot : TimeSlot) : bool :=
  matchesHHmm (startTime24h slot) && matchesHHmm (endTime24h slot).

(** [safeDateSchema] on a boundary: a date that reads, or [undefined]. *)
Definition safeDateSchema (d : option JsDate) : bool :=
  match d with
  | Some InvalidDate => false
  | _ => true
  end.

(** The schema on the recurrence rule.  A blank entry of
    [manuallyChosenDates] passes as [undefined], which the expander
    reads as an Invalid Date and skips; the list is not constrained. *)
Definition recurrenceRuleSchema (payload : SchedulePayload) : bool :=
  safeDateSchema (seriesStartDate payload)
  && safeDateSchema (seriesEndDate payload)
  && (1 <=? repeatEveryXWeeksOrDays payload)
  && forallb (fun d => (0 <=? d) && (d <=? 6)) (selectedWeekdays payload)
  && forallb (fun d => (1 <=? d) && (d <=? 31)) (selectedMonthDays payload)
  && forallb timeSlotSchema (dailyTimeSlots payload)
  && (1 <=? Z.of_nat (List.length (dailyTimeSlots payload))).

(** The title must have three characters or more (counted here in
    bytes, which is the count of the schema for titles in ASCII). *)
Definition classScheduleSchema (body : ClassBody) : bool :=
  (3 <=? Z.of_nat (String.length (body_classTitle body)))
  && recurrenceRuleSchema (body_schedule body).

End Schema.

(* ================================================================== *)
(** ** [class.controller.ts]: create, cancel and delete                 *)
(* ================================================================== *)

Inductive CreateError : Type :=
| Thrown (e : ControllerError)
| DocumentRejected.      (* the document failed its schema in [create] *)

Inductive Reply : Type :=
| SeriesCreated (newClass : ClassDoc)
| SchedulingConflict (report : ConflictReport)
| ValidationError (e : CreateError)
| NothingFound (what : string)
| SessionCancelled (sessionId : ObjectId)
| CancellationError (e : ControllerError)
| SeriesDeleted.

Module Handlers.
Import Store.

(** What [ClassSchedule.create] validates of the document it builds
    from the request (identifiers and sessions play no part). *)
Definition documentIsValid (body : ClassBody) : bool :=
  validates (mkClass 0%N (trim (body_classTitle body))
               (body_assignedInstructor body) (body_assignedRoom body)
               (body_schedule body) [] []).

Section Zone.
Variable tz : Z.

(** [createClassSeries] of the routed controller. *)
Definition createClassSeries (now : Z) (db : Database) (body : ClassBody)
  : Reply * Database :=
  match Generator.generateAllClassSessions tz now (body_schedule body) with
  | Throw e => (ValidationError (Thrown (GeneratorFailed e)), db)
  | Ok generatedSessions =>
      match DualQuery.findDetailedSchedulingConflict db generatedSessions
              (body_assignedRoom body) (body_assignedInstructor body) None with
      | Throw e => (ValidationError (Thrown e), db)
      | Ok (Some conflict) => (SchedulingConflict conflict, db)
      | Ok None =>
          if documentIsValid body then
            let (newClass, db') :=
              create (trim (body_classTitle body)) (body_assignedInstructor body)
                     (body_assignedRoom body) (body_schedule body)
                     generatedSessions db in
            (SeriesCreated newClass, db')
          else (ValidationError DocumentRejected, db)
      end
  end.

End Zone.

(** [req.body?.reason ?? "Cancelled by user"]: only a missing reason is
    replaced, an empty one is kept. *)
Definition reasonOrDefault (given : option string) : string :=
  match given with
  | Some reason => reason
  | None => "Cancelled by user"
  end.

Definition cancelSingleInstance (db : Database) (seriesId sessionId : ObjectId)
    (reason : option string) : Reply * Database :=
  match findById db seriesId with
  | None => (NothingFound "Series not found", db)
  | Some series =>
      match Controller.sessionById (preGeneratedClassSessions series) sessionId with
      | None => (NothingFound "Session not found", db)
      | Some session =>
          let series' :=
            mkClass (doc_id series) (classTitle series)
              (assignedInstructor series) (assignedRoom series) (schedule series)
              (Controller.pull (preGeneratedClassSessions series) sessionId)
              (exceptions series
               ++ [mkException (sessionStartDateTime session) cancelled
                     (reasonOrDefault reason) None None]) in
          (* [series.save()] validates the document *)
          if validates series'
          then (SessionCancelled sessionId, replaceDoc series' db)
          else (CancellationError ValidationFailed, db)
      end
  end.

(** [findByIdAndDelete]: the first document with the id is removed. *)
Fixpoint removeById (id : ObjectId) (docs : list ClassDoc) : list ClassDoc :=
  match docs with
  | [] => []
  | doc :: rest =>
      if N.eqb (doc_id doc) id then rest else doc :: removeById id rest
  end.

Definition findByIdAndDelete (id : ObjectId) (db : Database) : Database :=
  mkDb (removeById id (classSchedules db)) (instructors db) (physicalRooms db)
       (nextObjectId db).

(** [deleteEntireClassSeries]: the reply does not depend on whether a
    document was found. *)
Definition deleteEntireClassSeries (db : Database) (id : ObjectId)
  : Reply * Database :=
  (SeriesDeleted, findByIdAndDelete id db).

End Handlers.

(* ================================================================== *)
(** ** [updateClassSeries] of the first version of the controller       *)
(* ================================================================== *)

Inductive UpdateReply : Type :=
| ClassUpdated (successfullyUpdatedDocument : ClassDoc)
| UpdateConflict (conflictDetail : ConflictReport)
| ClassNotFound
| ServerError (e : ControllerError).

Module FirstVersion.
Import Store.

Section Zone.
Variable tz : Z.

(** The sessions are generated and checked with the single-query
    finder before the document is looked up; [findByIdAndUpdate] then
    sets the fields that the request defines and the new sessions, and
    leaves the exceptions of the document alone. *)
Definition updateClassSeries (now : Z) (db : Database)
    (classIdToUpdate : ObjectId) (body : ClassBody) : UpdateReply * Database :=
  match Generator.generateAllClassSessions tz now (body_schedule body) with
  | Throw e => (ServerError (GeneratorFailed e), db)
  | Ok newRequestedSessionsList =>
      match SingleQuery.findDetailedSchedulingConflict db newRequestedSessionsList
              (body_assignedRoom body) (body_assignedInstructor body)
              (Some classIdToUpdate) with
      | Throw e => (ServerError e, db)
      | Ok (Some conflictDetail) => (UpdateConflict conflictDetail, db)
      | Ok None =>
          (* the update is cast before the document is looked for *)
          if castsToDate (seriesStartDate (body_schedule body))
             && castsToDate (seriesEndDate (body_schedule body))
          then
            match findById db classIdToUpdate with
            | None => (ClassNotFound, db)
            | Some existing =>
                let (stored, next) :=
                  assignSessionIds (nextObjectId db) newRequestedSessionsList in
                let successfullyUpdatedDocument :=
                  mkClass (doc_id existing) (trim (body_classTitle body))
                    (body_assignedInstructor body) (body_assignedRoom body)
                    (updatedRule (schedule existing) (body_schedule body))
                    stored (exceptions existing) in
                let db' := replaceDoc successfullyUpdatedDocument db in
                (ClassUpdated successfullyUpdatedDocument,
                 mkDb (classSchedules db') (instructors db') (physicalRooms db') next)
            end
          else (ServerError ValidationFailed, db)
      end
  end.

End Zone.
End FirstVersion.

(* ================================================================== *)
(** ** Double bookings                                                  *)
(* ================================================================== *)

(** The definitions below are not in the source: they say what the
    conflict check is there to prevent. *)
Module Booking.

(** The requested sessions are clear of the stored ones: no stored
    series, the ignored one apart, that has the instructor or the room
    holds a session overlapping a requested one. *)
Definition clearOf (db : Database) (requested : list ClassSession)
    (room instructor : ObjectId) (ignore : option ObjectId) : Prop :=
  forall doc,
    In doc (classSchedules db) -> Store.notIgnored ignore doc = true ->
    assignedInstructor doc = instructor \/ assignedRoom doc = room ->
    forall existing newSession,
      In existing (preGeneratedClassSessions doc) -> In newSession requested ->
      Store.overlapCondition newSession existing = false.

Definition sharesResource (a b : ClassDoc) : Prop :=
  assignedInstructor a = assignedInstructor b \/ assignedRoom a = assignedRoom b.

Definition collide (a b : ClassDoc) : Prop :=
  exists s t,
    In s (preGeneratedClassSessions a) /\ In t (preGeneratedClassSessions b) /\
    Store.overlapCondition s t = true.

(** No two stored series that share an instructor or a room have
    sessions that overlap. *)
Definition conflictFree (db : Database) : Prop :=
  forall a b,
    In a (classSchedules db) -> In b (classSchedules db) ->
    doc_id a <> doc_id b -> sharesResource a b -> ~ collide a b.

Definition uniqueIds (db : Database) : Prop :=
  NoDup (map doc_id (classSchedules db)).

End Booking.


(* ================================================================== *)
(** ** Calendar: the two conversions are inverse to each other          *)
(* ================================================================== *)

(** Linear arithmetic with division and remainder by constants. *)
Ltac divlia := Z.div_mod_to_equations; lia.

Section CalendarFacts.
Import Calendar.

Lemma era_remainder_bounds (z : Z) :
  0 <= z - z / daysPerEra * daysPerEra < daysPerEra.
Proof. unfold daysPerEra. divlia. Qed.

Lemma era_quotient (era doe : Z) :
  0 <= doe < daysPerEra -> (era * daysPerEra + doe) / daysPerEra = era.
Proof. unfold daysPerEra. intros H. divlia. Qed.

Lemma year_split (era yoe : Z) :
  0 <= yoe < 400 -> (yoe + era * 400) / 400 = era.
Proof. intros H. divlia. Qed.

(** Shape of the cascade on one era. *)
Lemma cascade_bounds (doe : Z) :
  0 <= doe < daysPerEra ->
  0 <= centuryOfEra doe <= 3 /\
  0 <= cycleOfCentury doe <= 24 /\
  0 <= yearOfCycle doe <= 3 /\
  0 <= dayOfYear doe <= 365 /\
  (dayOfYear doe = 365 ->
     yearOfCycle doe = 3 /\ (cycleOfCentury doe <= 23 \/ centuryOfEra doe = 3)).
Proof.
  unfold daysPerEra, dayOfYear, yearOfCycle, cycleOfCentury, centuryOfEra.
  intros H. divlia.
Qed.

Lemma days_before_shifted_year (c q a : Z) :
  0 <= c <= 3 -> 0 <= q <= 24 -> 0 <= a <= 3 ->
  let yoe := 100 * c + 4 * q + a in
  yoe * 365 + yoe / 4 - yoe / 100 = c * 36524 + q * 1461 + a * 365.
Proof. intros Hc Hq Ha yoe. subst yoe. divlia. Qed.

Lemma isLeapYear_periodic (y k : Z) : isLeapYear (y + k * 400) = isLeapYear y.
Proof.
  unfold isLeapYear.
  replace ((y + k * 400) mod 4) with (y mod 4) by divlia.
  replace ((y + k * 400) mod 100) with (y mod 100) by divlia.
  replace ((y + k * 400) mod 400) with (y mod 400) by divlia.
  reflexivity.
Qed.

(** The shifted year [100c + 4q + a] ends with the February of the next
    calendar year. *)
Lemma isLeapYear_shifted (c q a : Z) :
  0 <= c <= 3 -> 0 <= q <= 24 -> 0 <= a <= 3 ->
  isLeapYear (100 * c + 4 * q + a + 1) = true <->
  a = 3 /\ (q <= 23 \/ c = 3).
Proof.
  intros Hc Hq Ha. unfold isLeapYear.
  rewrite orb_true_iff, andb_true_iff, negb_true_iff, !Z.eqb_eq, Z.eqb_neq.
  divlia.
Qed.
End CalendarFacts.

Section CalendarRoundTrip.
Import Calendar.

Lemma month_cases (mp : Z) :
  0 <= mp <= 11 ->
  mp = 0 \/ mp = 1 \/ mp = 2 \/ mp = 3 \/ mp = 4 \/ mp = 5 \/
  mp = 6 \/ mp = 7 \/ mp = 8 \/ mp = 9 \/ mp = 10 \/ mp = 11.
Proof. lia. Qed.

Lemma shiftedMonth_unshifted (mp : Z) :
  0 <= mp <= 11 -> shiftedMonth (unshiftedMonth mp) = mp.
Proof.
  intros H. unfold shiftedMonth, unshiftedMonth.
  destruct (Z.ltb_spec mp 10); destruct (Z.leb_spec 2 (mp + 2));
    destruct (Z.leb_spec 2 (mp - 10)); lia.
Qed.

Lemma unshiftedMonth_shifted (m : Z) :
  0 <= m <= 11 -> unshiftedMonth (shiftedMonth m) = m /\ 0 <= shiftedMonth m <= 11.
Proof.
  intros H. unfold shiftedMonth, unshiftedMonth.
  destruct (Z.leb_spec 2 m); destruct (Z.ltb_spec (m - 2) 10);
    destruct (Z.ltb_spec (m + 10) 10); lia.
Qed.

Lemma month_of_day (doy : Z) :
  0 <= doy <= 365 ->
  0 <= monthOfDayOfYear doy <= 11 /\
  daysBeforeMonth (monthOfDayOfYear doy) <= doy
    < daysBeforeMonth (monthOfDayOfYear doy + 1).
Proof. unfold monthOfDayOfYear, daysBeforeMonth. intros H. divlia. Qed.

Lemma month_of_day_unique (mp doy : Z) :
  0 <= mp <= 11 ->
  daysBeforeMonth mp <= doy < daysBeforeMonth (mp + 1) ->
  monthOfDayOfYear doy = mp.
Proof. unfold monthOfDayOfYear, daysBeforeMonth. intros H1 H2. divlia. Qed.

(** Length of a shifted month, read off the table of days before it;
    the February of a leap year gets its 29th day from the year. *)
Lemma shifted_month_length (y mp : Z) :
  0 <= mp <= 11 ->
  daysBeforeMonth mp + daysInMonth y (unshiftedMonth mp)
  = if mp =? 11 then (if isLeapYear y then 366 else 365)
    else daysBeforeMonth (mp + 1).
Proof.
  intros H. destruct (month_cases mp H) as [E|[E|[E|[E|[E|[E|[E|[E|[E|[E|[E|E]]]]]]]]]]];
    subst mp; unfold daysInMonth; cbn; try reflexivity.
  destruct (isLeapYear y); reflexivity.
Qed.

Lemma daysFromCivil_shifted (era yoe mp d : Z) :
  0 <= yoe < 400 -> 0 <= mp <= 11 ->
  daysFromCivil (yoe + era * 400 + carry mp) (unshiftedMonth mp) d
  = era * daysPerEra + dayOfEra yoe mp d - epochShift.
Proof.
  intros Hy Hm. unfold daysFromCivil, carry.
  rewrite (shiftedMonth_unshifted mp Hm).
  replace (if unshiftedMonth mp <=? 1
           then yoe + era * 400 + (if unshiftedMonth mp <=? 1 then 1 else 0) - 1
           else yoe + era * 400 + (if unshiftedMonth mp <=? 1 then 1 else 0))
    with (yoe + era * 400) by (destruct (unshiftedMonth mp <=? 1); lia).
  rewrite (year_split era yoe Hy).
  replace (yoe + era * 400 - era * 400) with yoe by lia.
  reflexivity.
Qed.

(** Every (year, month) pair is a shifted year of some era. *)
Lemma civil_as_shifted (y m : Z) :
  0 <= m <= 11 ->
  exists era yoe mp,
    0 <= yoe < 400 /\ 0 <= mp <= 11 /\
    m = unshiftedMonth mp /\ y = yoe + era * 400 + carry mp.
Proof.
  intros Hm.
  pose (y' := if m <=? 1 then y - 1 else y).
  exists (y' / 400), (y' - y' / 400 * 400), (shiftedMonth m).
  destruct (unshiftedMonth_shifted m Hm) as [Hu Hs].
  unfold carry. rewrite Hu. repeat split; try lia; try divlia.
  subst y'. destruct (m <=? 1); lia.
Qed.

Theorem daysFromCivil_civilFromDays (z : Z) :
  daysFromCivil (YearFromDay z) (MonthFromDay z) (DateFromDay z) = z.
Proof.
  unfold YearFromDay, MonthFromDay, DateFromDay, civilFromDays. cbn [fst snd].
  set (era := (z + epochShift) / daysPerEra).
  set (doe := z + epochShift - era * daysPerEra).
  assert (Hdoe : 0 <= doe < daysPerEra) by apply era_remainder_bounds.
  destruct (cascade_bounds doe Hdoe) as (Hc & Hq & Ha & Hd & _).
  destruct (month_of_day _ Hd) as [Hmp _].
  set (mp := monthOfDayOfYear (dayOfYear doe)) in *.
  assert (Hyoe : 0 <= yearOfEra doe < 400) by (unfold yearOfEra; lia).
  rewrite (daysFromCivil_shifted era (yearOfEra doe) mp _ Hyoe Hmp).
  unfold dayOfEra, yearOfEra.
  rewrite (days_before_shifted_year _ _ _ Hc Hq Ha).
  unfold dayOfYear. subst doe. lia.
Qed.
(** The cascade finds the century, cycle and year that a day was built
    from. *)
Lemma cascade_unique (c q a doy : Z) :
  0 <= c <= 3 -> 0 <= q <= 24 -> 0 <= a <= 3 -> 0 <= doy <= 365 ->
  (doy = 365 -> a = 3 /\ (q <= 23 \/ c = 3)) ->
  let doe := c * 36524 + q * 1461 + a * 365 + doy in
  0 <= doe < daysPerEra /\
  centuryOfEra doe = c /\ cycleOfCentury doe = q /\
  yearOfCycle doe = a /\ dayOfYear doe = doy.
Proof.
  intros Hc Hq Ha Hd Hleap doe. subst doe.
  unfold daysPerEra, dayOfYear, yearOfCycle, cycleOfCentury, centuryOfEra.
  divlia.
Qed.

Lemma year_of_era_digits (yoe : Z) :
  0 <= yoe < 400 ->
  exists c q a,
    0 <= c <= 3 /\ 0 <= q <= 24 /\ 0 <= a <= 3 /\ yoe = 100 * c + 4 * q + a.
Proof.
  intros H. exists (yoe / 100), (yoe mod 100 / 4), (yoe mod 4). divlia.
Qed.

Lemma civilFromDays_shifted (era yoe mp d : Z) :
  0 <= yoe < 400 -> 0 <= mp <= 11 ->
  1 <= d <= daysInMonth (yoe + era * 400 + carry mp) (unshiftedMonth mp) ->
  civilFromDays (era * daysPerEra + dayOfEra yoe mp d - epochShift)
  = (yoe + era * 400 + carry mp, unshiftedMonth mp, d).
Proof.
  intros Hy Hm Hd.
  destruct (year_of_era_digits yoe Hy) as (c & q & a & Hc & Hq & Ha & Eyoe).
  pose proof (shifted_month_length (yoe + era * 400 + carry mp) mp Hm) as Hlen.
  pose proof (isLeapYear_shifted c q a Hc Hq Ha) as Hleap.
  pose proof (isLeapYear_periodic (100 * c + 4 * q + a + 1) era) as Hper.
  set (doy := daysBeforeMonth mp + d - 1).
  assert (Hrange : daysBeforeMonth mp <= doy < daysBeforeMonth (mp + 1) /\
                   0 <= doy <= 365 /\
                   (doy = 365 -> a = 3 /\ (q <= 23 \/ c = 3))).
  { destruct (Z.eqb_spec mp 11) as [E|NE].
    - subst mp.
      change (11 =? 11) with true in Hlen. change (carry 11) with 1 in *.
      change (daysBeforeMonth 11) with 337 in *.
      change (daysBeforeMonth (11 + 1)) with 367.
      replace (yoe + era * 400 + 1) with (100 * c + 4 * q + a + 1 + era * 400) in *
        by lia.
      rewrite Hper in Hlen.
      subst doy.
      destruct (isLeapYear (100 * c + 4 * q + a + 1)).
      + assert (a = 3 /\ (q <= 23 \/ c = 3)) by (apply Hleap; reflexivity). lia.
      + lia.
    - assert (Hb : 0 <= daysBeforeMonth mp /\ daysBeforeMonth (mp + 1) <= 337)
        by (unfold daysBeforeMonth; divlia).
      subst doy. lia. }
  destruct Hrange as (Hmonth & Hdoy & Hlast).
  destruct (cascade_unique c q a doy Hc Hq Ha Hdoy Hlast) as (Hdoe & Ec & Eq & Ea & Ed).
  assert (Edoe : dayOfEra yoe mp d = c * 36524 + q * 1461 + a * 365 + doy).
  { unfold dayOfEra. rewrite Eyoe.
    rewrite (days_before_shifted_year c q a Hc Hq Ha). subst doy. lia. }
  unfold civilFromDays.
  replace (era * daysPerEra + dayOfEra yoe mp d - epochShift + epochShift)
    with (era * daysPerEra + dayOfEra yoe mp d) by lia.
  rewrite Edoe, (era_quotient era _ Hdoe).
  replace (era * daysPerEra + (c * 36524 + q * 1461 + a * 365 + doy) - era * daysPerEra)
    with (c * 36524 + q * 1461 + a * 365 + doy) by lia.
  unfold yearOfEra. rewrite Ec, Eq, Ea, Ed.
  rewrite (month_of_day_unique mp doy Hm Hmonth).
  fold (carry mp). rewrite Eyoe.
  f_equal. subst doy. lia.
Qed.

Theorem civilFromDays_daysFromCivil (y m d : Z) :
  0 <= m <= 11 -> 1 <= d <= daysInMonth y m ->
  civilFromDays (daysFromCivil y m d) = (y, m, d).
Proof.
  intros Hm Hd.
  destruct (civil_as_shifted y m Hm) as (era & yoe & mp & Hy & Hmp & Em & Ey).
  subst y m.
  rewrite (daysFromCivil_shifted era yoe mp d Hy Hmp).
  apply civilFromDays_shifted; assumption.
Qed.

(** What [civilFromDays] returns is a date of the calendar. *)
Theorem civilFromDays_valid (z : Z) :
  0 <= MonthFromDay z <= 11 /\
  1 <= DateFromDay z <= daysInMonth (YearFromDay z) (MonthFromDay z).
Proof.
  unfold YearFromDay, MonthFromDay, DateFromDay, civilFromDays. cbn [fst snd].
  set (era := (z + epochShift) / daysPerEra).
  set (doe := z + epochShift - era * daysPerEra).
  assert (Hdoe : 0 <= doe < daysPerEra) by apply era_remainder_bounds.
  destruct (cascade_bounds doe Hdoe) as (Hc & Hq & Ha & Hd & Hlast).
  destruct (month_of_day _ Hd) as [Hmp Hmonth].
  set (mp := monthOfDayOfYear (dayOfYear doe)) in *.
  pose proof (shifted_month_length (yearOfEra doe + era * 400 + carry mp) mp Hmp) as Hlen.
  pose proof (isLeapYear_shifted _ _ _ Hc Hq Ha) as Hleap.
  pose proof (isLeapYear_periodic
                (100 * centuryOfEra doe + 4 * cycleOfCentury doe + yearOfCycle doe + 1)
                era) as Hper.
  split.
  - unfold unshiftedMonth. destruct (Z.ltb_spec mp 10); lia.
  - destruct (Z.eqb_spec mp 11) as [E|NE].
    + rewrite E in *.
      change (11 =? 11) with true in Hlen. change (carry 11) with 1 in *.
      change (daysBeforeMonth 11) with 337 in *.
      replace (yearOfEra doe + era * 400 + 1)
        with (100 * centuryOfEra doe + 4 * cycleOfCentury doe + yearOfCycle doe + 1
              + era * 400) in *
        by (unfold yearOfEra; lia).
      rewrite Hper in Hlen.
      destruct (isLeapYear _) eqn:El.
      * lia.
      * assert (dayOfYear doe <> 365).
        { intros E365. specialize (Hlast E365).
          apply Hleap in Hlast. congruence. }
        lia.
    + lia.
Qed.
End CalendarRoundTrip.

(* ================================================================== *)
(** ** [Date] methods and date-fns helpers in a fixed-offset zone       *)
(* ================================================================== *)

Section JsTimeFacts.
Import Calendar JsTime.
Variable tz : Z.

Lemma LocalTime_UTC (t : Z) : LocalTime tz (UTC tz t) = t.
Proof. unfold LocalTime, UTC. lia. Qed.

Lemma Day_MakeDate (day time : Z) :
  0 <= time < msPerDay -> Day (MakeDate day time) = day.
Proof. unfold Day, MakeDate, msPerDay. intros H. divlia. Qed.

Lemma TimeWithinDay_bounds (t : Z) : 0 <= TimeWithinDay t < msPerDay.
Proof. unfold TimeWithinDay, msPerDay. divlia. Qed.

Lemma MakeDate_Day (t : Z) : MakeDate (Day t) (TimeWithinDay t) = t.
Proof. unfold MakeDate, Day, TimeWithinDay, msPerDay. divlia. Qed.

Lemma Day_shift (t n : Z) : Day (t + n * msPerDay) = Day t + n.
Proof. unfold Day, msPerDay. divlia. Qed.

Lemma TimeWithinDay_shift (t n : Z) :
  TimeWithinDay (t + n * msPerDay) = TimeWithinDay t.
Proof. unfold TimeWithinDay, msPerDay. divlia. Qed.

Lemma MakeDay_in_month (y m date : Z) :
  0 <= m <= 11 -> MakeDay y m date = daysFromCivil y m date.
Proof.
  intros Hm. unfold MakeDay.
  replace (m / 12) with 0 by divlia. replace (m mod 12) with m by divlia.
  replace (y + 0) with y by lia.
  unfold daysFromCivil, dayOfEra. lia.
Qed.

Lemma daysFromCivil_day (y m d d' : Z) :
  daysFromCivil y m d' = daysFromCivil y m d + (d' - d).
Proof. unfold daysFromCivil, dayOfEra. lia. Qed.

(** [MakeDay] on the year and month of a day [z] counts from the first
    of that month. *)
Lemma MakeDay_of_day (z date : Z) :
  MakeDay (YearFromDay z) (MonthFromDay z) date = z + (date - DateFromDay z).
Proof.
  destruct (civilFromDays_valid z) as [Hm _].
  rewrite (MakeDay_in_month _ _ _ Hm).
  rewrite (daysFromCivil_day _ _ (DateFromDay z) date).
  rewrite daysFromCivil_civilFromDays. reflexivity.
Qed.

Lemma setDate_relative (t n : Z) :
  setDate tz t (getDate tz t + n) = t + n * msPerDay.
Proof.
  unfold setDate, getDate. rewrite MakeDay_of_day.
  unfold UTC, MakeDate.
  pose proof (MakeDate_Day (LocalTime tz t)) as H. unfold MakeDate in H.
  unfold LocalTime in *. lia.
Qed.

Theorem addDays_shift (t n : Z) : addDays tz t n = t + n * msPerDay.
Proof. unfold addDays. apply setDate_relative. Qed.

Lemma differenceInCalendarDays_shift (t k : Z) :
  differenceInCalendarDays tz (t + k * msPerDay) t = k.
Proof.
  unfold differenceInCalendarDays, startOfDay, setHours.
  rewrite !LocalTime_UTC.
  replace (LocalTime tz (t + k * msPerDay)) with (LocalTime tz t + k * msPerDay)
    by (unfold LocalTime; lia).
  rewrite Day_shift. unfold MakeDate, MakeTime, msPerDay. divlia.
Qed.

(** On the cursor of a day-by-day walk, [differenceInDays] counts the
    steps taken. *)
Theorem differenceInDays_walk (t k : Z) :
  0 <= k -> differenceInDays tz (t + k * msPerDay) t = k.
Proof.
  intros Hk. unfold differenceInDays.
  rewrite differenceInCalendarDays_shift.
  replace (getDate tz (t + k * msPerDay)
           - compareLocalAsc (t + k * msPerDay) t * Z.abs k)
    with (getDate tz (t + k * msPerDay)
          + (- compareLocalAsc (t + k * msPerDay) t * Z.abs k)) by ring.
  rewrite setDate_relative.
  unfold compareLocalAsc.
  replace (t + k * msPerDay - t) with (k * msPerDay) by lia.
  destruct (Z.eq_dec k 0) as [->|Hne].
  - cbn. reflexivity.
  - assert (Hs : Z.sgn (k * msPerDay) = 1) by (unfold msPerDay; lia).
    rewrite Hs.
    replace (t + k * msPerDay + - (1) * Z.abs k * msPerDay - t) with 0
      by (unfold msPerDay; lia).
    change (Z.sgn 0 =? - (1)) with false. cbv iota. lia.
Qed.

Theorem differenceInWeeks_walk (t k : Z) :
  0 <= k -> differenceInWeeks tz (t + k * msPerDay) t = k / 7.
Proof.
  intros Hk. unfold differenceInWeeks. rewrite (differenceInDays_walk t k Hk).
  apply Z.quot_div_nonneg; lia.
Qed.

(** [setHours] keeps the local day and places the clock time on it. *)
Lemma setHours_local (t h m : Z) :
  LocalTime tz (setHours tz t h m 0 0)
  = Day (LocalTime tz t) * msPerDay + (h * 60 + m) * msPerMinute.
Proof.
  unfold setHours. rewrite LocalTime_UTC.
  unfold MakeDate, MakeTime, msPerHour, msPerMinute, msPerSecond. lia.
Qed.

Lemma setHours_difference (t h1 m1 h2 m2 : Z) :
  setHours tz t h2 m2 0 0 - setHours tz t h1 m1 0 0
  = ((h2 * 60 + m2) - (h1 * 60 + m1)) * msPerMinute.
Proof.
  unfold setHours, UTC, MakeDate, MakeTime, msPerHour, msPerMinute, msPerSecond.
  lia.
Qed.

Lemma setHours_same_day (t h m : Z) :
  0 <= h * 60 + m < 1440 ->
  Day (LocalTime tz (setHours tz t h m 0 0)) = Day (LocalTime tz t).
Proof.
  intros H. rewrite setHours_local. unfold Day, msPerDay, msPerMinute. divlia.
Qed.

(** A shifted year is followed by the next one after 365 days, or 366
    when the calendar year it runs into is a leap year. *)
Lemma next_year_start (y : Z) :
  daysFromCivil (y + 1) 2 1
  = daysFromCivil y 2 1 + (if isLeapYear (y + 1) then 366 else 365).
Proof.
  unfold daysFromCivil, dayOfEra, daysPerEra, isLeapYear.
  change (2 <=? 1) with false. cbv iota.
  destruct (Z.eqb_spec ((y + 1) mod 4) 0);
    destruct (Z.eqb_spec ((y + 1) mod 100) 0);
    destruct (Z.eqb_spec ((y + 1) mod 400) 0); cbn [andb orb negb];
    divlia.
Qed.

Lemma next_month_start (y m : Z) :
  0 <= m <= 11 ->
  MakeDay y (m + 1) 1 = daysFromCivil y m 1 + daysInMonth y m.
Proof.
  intros Hm.
  destruct (civil_as_shifted y m Hm) as (era & yoe & mp & Hy & Hmp & Em & Ey).
  pose proof (shifted_month_length y mp Hmp) as Hlen. rewrite <- Em in Hlen.
  destruct (Z.eqb_spec mp 11) as [E|NE].
  - (* February: the next month opens the next shifted year *)
    subst mp. change (unshiftedMonth 11) with 1 in Em. subst m.
    change (carry 11) with 1 in Ey.
    unfold MakeDay. change ((1 + 1) / 12) with 0. change ((1 + 1) mod 12) with 2.
    replace (y + 0) with (y - 1 + 1) by lia.
    rewrite next_year_start. replace (y - 1 + 1) with y by lia.
    change (daysBeforeMonth 11) with 337 in Hlen.
    assert (E1 : daysFromCivil y 1 1 = daysFromCivil (y - 1) 2 1 + 337).
    { unfold daysFromCivil, dayOfEra.
      change (1 <=? 1) with true. change (2 <=? 1) with false. cbv iota.
      change (daysBeforeMonth (shiftedMonth 1)) with 337.
      change (daysBeforeMonth (shiftedMonth 2)) with 0. lia. }
    destruct (isLeapYear y); lia.
  - assert (Hmp' : 0 <= mp + 1 <= 11) by lia.
    assert (Enext : y + (m + 1) / 12 = yoe + era * 400 + carry (mp + 1) /\
                    (m + 1) mod 12 = unshiftedMonth (mp + 1)).
    { subst y m. unfold carry, unshiftedMonth.
      destruct (Z.ltb_spec mp 10); destruct (Z.ltb_spec (mp + 1) 10);
        repeat match goal with
               | |- context [?a <=? 1] => destruct (Z.leb_spec a 1)
               end; divlia. }
    destruct Enext as [Ey' Em'].
    unfold MakeDay. rewrite Ey', Em'.
    rewrite (daysFromCivil_shifted era yoe (mp + 1) 1 Hy Hmp').
    assert (E1 : daysFromCivil y m 1 = era * daysPerEra + dayOfEra yoe mp 1 - epochShift).
    { rewrite Ey, Em. apply daysFromCivil_shifted; assumption. }
    rewrite E1.
    unfold dayOfEra. lia.
Qed.

Lemma daysInMonth_bounds (y m : Z) : 28 <= daysInMonth y m <= 31.
Proof.
  unfold daysInMonth.
  destruct (m =? 1); [destruct (isLeapYear y); lia|].
  destruct ((m =? 3) || (m =? 5) || (m =? 8) || (m =? 10)); lia.
Qed.

Lemma MakeDay_date (y m d d' : Z) : MakeDay y m d' = MakeDay y m d + (d' - d).
Proof. unfold MakeDay. lia. Qed.

(** Day number of the last day of the month that day [z] lies in. *)
Lemma last_day_of_month_number (z : Z) :
  MakeDay (YearFromDay z) (MonthFromDay z + 1) 0
  = z + (daysInMonth (YearFromDay z) (MonthFromDay z) - DateFromDay z).
Proof.
  destruct (civilFromDays_valid z) as [Hm _].
  pose proof (daysFromCivil_civilFromDays z) as Hz.
  revert Hm Hz.
  generalize (YearFromDay z) (MonthFromDay z) (DateFromDay z).
  intros y m d Hm Hz.
  rewrite (MakeDay_date y (m + 1) 1 0), (next_month_start y m Hm).
  rewrite (daysFromCivil_day y m 1 d) in Hz. lia.
Qed.

Lemma last_day_number (t : Z) :
  MakeDay (getFullYear tz t) (getMonth tz t + 1) 0
  = Day (LocalTime tz t)
    + (daysInMonth (getFullYear tz t) (getMonth tz t) - getDate tz t).
Proof. apply last_day_of_month_number. Qed.

Lemma DateFromDay_last (z : Z) :
  DateFromDay (z + (daysInMonth (YearFromDay z) (MonthFromDay z) - DateFromDay z))
  = daysInMonth (YearFromDay z) (MonthFromDay z).
Proof.
  destruct (civilFromDays_valid z) as [Hm Hd].
  pose proof (daysInMonth_bounds (YearFromDay z) (MonthFromDay z)) as Hb.
  pose proof (daysFromCivil_civilFromDays z) as Hz.
  revert Hm Hd Hb Hz.
  generalize (YearFromDay z) (MonthFromDay z) (DateFromDay z).
  intros y m d Hm Hd Hb Hz.
  replace (z + (daysInMonth y m - d)) with (daysFromCivil y m (daysInMonth y m))
    by (rewrite (daysFromCivil_day y m d); lia).
  unfold DateFromDay. rewrite civilFromDays_daysFromCivil by lia. reflexivity.
Qed.

Lemma Day_of_setFullYear_local (t y m date : Z) :
  Day (LocalTime tz (setFullYear tz t y m date)) = MakeDay y m date.
Proof.
  unfold setFullYear. rewrite LocalTime_UTC.
  apply Day_MakeDate, TimeWithinDay_bounds.
Qed.

(** [isLastDayOfMonth] holds exactly on the day whose number in the
    month is the length of the month. *)
Theorem isLastDayOfMonth_spec (t : Z) :
  isLastDayOfMonth tz t = true <->
  getDate tz t = daysInMonth (getFullYear tz t) (getMonth tz t).
Proof.
  unfold isLastDayOfMonth, endOfDay, endOfMonth.
  rewrite Z.eqb_eq. unfold setHours at 1 2.
  rewrite Day_of_setFullYear_local, last_day_number.
  unfold UTC, MakeDate, msPerDay. lia.
Qed.

(** The day of month of [lastDayOfMonth t] is the length of the month
    of [t]. *)
Theorem getDate_lastDayOfMonth (t : Z) :
  getDate tz (lastDayOfMonth tz t)
  = daysInMonth (getFullYear tz t) (getMonth tz t).
Proof.
  unfold lastDayOfMonth, getDate at 1, setHours.
  rewrite LocalTime_UTC.
  rewrite Day_MakeDate by (unfold MakeTime, msPerDay; lia).
  rewrite Day_of_setFullYear_local, last_day_number.
  apply DateFromDay_last.
Qed.

Lemma getDate_bounds (t : Z) :
  1 <= getDate tz t <= daysInMonth (getFullYear tz t) (getMonth tz t).
Proof. unfold getDate, getFullYear, getMonth. apply civilFromDays_valid. Qed.
End JsTimeFacts.

(* ================================================================== *)
(** ** The generator's loops                                            *)
(* ================================================================== *)

Section GeneratorFacts.
Import Calendar Generator.
Variable tz : Z.

Lemma filter_flat_map {A B : Type} (f : B -> bool) (g : A -> list B) (l : list A) :
  filter f (flat_map g l) = flat_map (fun x => filter f (g x)) l.
Proof.
  induction l as [|x l IH]; cbn; [reflexivity|].
  rewrite filter_app, IH. reflexivity.
Qed.

(** One pass of the slot loop appends what the slot contributes. *)
Lemma pushSlotSession_app (now day : Z) (acc : list ClassSession) (slot : TimeSlot) :
  pushSlotSession tz (JsTime.addMinutes now 30) day acc slot
  = acc ++ filter (startsAfterBuffer now) (slotOccurrence tz day slot).
Proof.
  unfold pushSlotSession, slotOccurrence, startsAfterBuffer.
  destruct (createValidClassSessionFromDateAndTimes tz day _ _) as [session|e]; cbn.
  - destruct (JsTime.addMinutes now 30 <=? sessionStartDateTime session);
      [reflexivity | now rewrite app_nil_r].
  - now rewrite app_nil_r.
Qed.

Lemma forEachSlot_app (now day : Z) (slots : list TimeSlot) :
  forall acc,
    forEachSlot tz slots (JsTime.addMinutes now 30) day acc
    = acc ++ filter (startsAfterBuffer now) (dayOccurrences tz slots day).
Proof.
  unfold forEachSlot, dayOccurrences.
  induction slots as [|slot slots IH]; intros acc; cbn [fold_left flat_map].
  - now rewrite app_nil_r.
  - rewrite IH, pushSlotSession_app, filter_app, app_assoc. reflexivity.
Qed.

(** The standard walk emits, in order, the occurrences of the visited
    days that pass [shouldIncludeThisDay], filtered by the buffer. *)
Lemma standardWalk_app (now : Z) (payload : SchedulePayload) (start : Z)
    (boundary : JsDate) (fuel : nat) :
  forall cursor acc,
    standardWalk tz fuel payload (JsTime.addMinutes now 30) start boundary cursor acc
    = acc ++ filter (startsAfterBuffer now)
               (flat_map (dayOccurrences tz (dailyTimeSlots payload))
                  (filter (shouldIncludeThisDay tz payload start)
                     (visitedDays tz (isNone (recurrenceType payload)) fuel
                        cursor boundary))).
Proof.
  induction fuel as [|fuel IH]; intros cursor acc; cbn [standardWalk visitedDays].
  - cbn. now rewrite app_nil_r.
  - destruct (dateLe cursor boundary); [|cbn; now rewrite app_nil_r].
    cbn [filter].
    destruct (shouldIncludeThisDay tz payload start cursor);
      destruct (isNone (recurrenceType payload)); cbn [filter flat_map];
      rewrite ?IH, ?forEachSlot_app, ?filter_app, ?app_nil_r, ?app_assoc;
      reflexivity.
Qed.

Lemma customPatternWalk_app (now : Z) (payload : SchedulePayload) (start : Z)
    (boundary : JsDate) (fuel : nat) :
  forall cursor acc,
    customPatternWalk tz fuel payload (JsTime.addMinutes now 30) start boundary
      cursor acc
    = acc ++ filter (startsAfterBuffer now)
               (flat_map (dayOccurrences tz (dailyTimeSlots payload))
                  (filter (isMatchingPatternDay tz payload start)
                     (visitedDays tz false fuel cursor boundary))).
Proof.
  induction fuel as [|fuel IH]; intros cursor acc;
    cbn [customPatternWalk visitedDays].
  - cbn. now rewrite app_nil_r.
  - destruct (dateLe cursor boundary); [|cbn; now rewrite app_nil_r].
    cbn [filter].
    destruct (isMatchingPatternDay tz payload start cursor); cbn [filter flat_map];
      rewrite ?IH, ?forEachSlot_app, ?filter_app, ?app_nil_r, ?app_assoc;
      reflexivity.
Qed.

Lemma manualDates_app (now : Z) (slots : list TimeSlot) (dates : list JsDate) :
  forall acc,
    fold_left (pushManualDate tz slots (JsTime.addMinutes now 30)) dates acc
    = acc ++ filter (startsAfterBuffer now)
               (flat_map (dayOccurrences tz slots) (validInstants dates)).
Proof.
  induction dates as [|d dates IH]; intros acc; cbn [fold_left].
  - cbn. now rewrite app_nil_r.
  - rewrite IH. destruct d as [t|]; cbn [pushManualDate validInstants flat_map].
    + rewrite forEachSlot_app.
      change (flat_map (fun d => match d with Instant t0 => [t0] | InvalidDate => [] end) dates)
        with (validInstants dates).
      cbn [app flat_map]. rewrite filter_app, app_assoc. reflexivity.
    + reflexivity.
Qed.

(** Whatever [collectSessions] returns is the list of occurrences of
    the rule, cut down to those that start at or after the buffer. *)
Theorem collectSessions_occurrences (now : Z) (payload : SchedulePayload)
    (generated : list ClassSession) :
  collectSessions tz now payload = Ok generated ->
  generated = filter (startsAfterBuffer now) (occurrences tz payload).
Proof.
  unfold collectSessions, occurrences, matchedDays.
  destruct (dailyTimeSlots payload) as [|slot0 slots] eqn:Eslots; [discriminate|].
  rewrite <- Eslots.
  assert (Hstd :
    standardSessions tz payload (JsTime.addMinutes now 30) = Ok generated ->
    generated
    = filter (startsAfterBuffer now)
        (flat_map (dayOccurrences tz (dailyTimeSlots payload))
           match newDate (seriesStartDate payload) with
           | Instant start =>
               filter (shouldIncludeThisDay tz payload start)
                 (visitedDays tz (isNone (recurrenceType payload))
                    (walkFuel start
                       match seriesEndDate payload with
                       | Some endDate => endDate
                       | None => Instant start
                       end) start
                    match seriesEndDate payload with
                    | Some endDate => endDate
                    | None => Instant start
                    end)
           | InvalidDate => []
           end)).
  { unfold standardSessions.
    destruct (newDate (seriesStartDate payload)) as [start|]; [|discriminate].
    intros H. injection H as <-. rewrite standardWalk_app. reflexivity. }
  destruct (recurrenceType payload) eqn:Ekind; try exact Hstd.
  destruct (manuallyChosenDates payload) as [|d0 dates] eqn:Emanual.
  - unfold customPatternSessions.
    destruct (seriesStartDate payload) as [[start|]|];
      destruct (seriesEndDate payload) as [[finish|]|]; try discriminate.
    destruct (start >? finish); [discriminate|].
    intros H. injection H as <-. rewrite customPatternWalk_app. reflexivity.
  - rewrite <- Emanual. unfold manualDateSessions.
    intros H. injection H as <-. rewrite manualDates_app. reflexivity.
Qed.
End GeneratorFacts.

Section WalkTermination.
Import Calendar Generator.
Variable tz : Z.

Lemma walkFuel_zero (cursor : Z) (boundary : JsDate) :
  walkFuel cursor boundary = O -> dateLe cursor boundary = false.
Proof.
  destruct boundary as [b|]; unfold walkFuel, dateLe; [|reflexivity].
  intros H. apply Z.leb_gt.
  destruct (Z.lt_ge_cases b cursor) as [Hlt|Hge]; [exact Hlt|exfalso].
  assert (0 <= (b - cursor) / msPerDay) by (unfold msPerDay; divlia).
  lia.
Qed.

Lemma walkFuel_succ (cursor : Z) (boundary : JsDate) (n : nat) :
  walkFuel cursor boundary = S n ->
  dateLe cursor boundary = true /\
  walkFuel (JsTime.addDays tz cursor 1) boundary = n.
Proof.
  rewrite addDays_shift.
  destruct boundary as [b|]; unfold walkFuel, dateLe; [|discriminate].
  intros H.
  assert (Hle : cursor <= b).
  { destruct (Z.lt_ge_cases b cursor) as [Hlt|Hge]; [exfalso|lia].
    assert ((b - cursor) / msPerDay < 0) by (unfold msPerDay; divlia).
    lia. }
  split; [apply Z.leb_le; exact Hle|].
  assert (Hq : 0 <= (b - cursor) / msPerDay) by (unfold msPerDay; divlia).
  replace ((b - (cursor + 1 * msPerDay)) / msPerDay)
    with ((b - cursor) / msPerDay - 1) by (unfold msPerDay; divlia).
  lia.
Qed.

(** The fuel computed from the boundaries is enough: more fuel does not
    make the walk visit more days. *)
Theorem visitedDays_fuel_enough (single : bool) (boundary : JsDate) (extra : nat) :
  forall cursor,
    visitedDays tz single (walkFuel cursor boundary + extra) cursor boundary
    = visitedDays tz single (walkFuel cursor boundary) cursor boundary.
Proof.
  intros cursor.
  remember (walkFuel cursor boundary) as n eqn:En. symmetry in En.
  revert cursor En.
  induction n as [|n IH]; intros cursor En.
  - apply walkFuel_zero in En.
    destruct extra; cbn; [reflexivity|]. now rewrite En.
  - destruct (walkFuel_succ cursor boundary n En) as [Hle Hnext].
    cbn [Nat.add visitedDays]. rewrite Hle.
    destruct single; [reflexivity|].
    f_equal. apply IH. exact Hnext.
Qed.

Theorem standardWalk_fuel_enough (now : Z) (payload : SchedulePayload)
    (start : Z) (boundary : JsDate) (extra : nat) :
  standardWalk tz (walkFuel start boundary + extra) payload
    (JsTime.addMinutes now 30) start boundary start []
  = standardWalk tz (walkFuel start boundary) payload
      (JsTime.addMinutes now 30) start boundary start [].
Proof. rewrite !standardWalk_app, visitedDays_fuel_enough. reflexivity. Qed.

Theorem customPatternWalk_fuel_enough (now : Z) (payload : SchedulePayload)
    (start : Z) (boundary : JsDate) (extra : nat) :
  customPatternWalk tz (walkFuel start boundary + extra) payload
    (JsTime.addMinutes now 30) start boundary start []
  = customPatternWalk tz (walkFuel start boundary) payload
      (JsTime.addMinutes now 30) start boundary start [].
Proof. rewrite !customPatternWalk_app, visitedDays_fuel_enough. reflexivity. Qed.

(** The days a full walk visits: the start and every whole number of
    days after it, up to the boundary. *)
Theorem visitedDays_spec (boundary : Z) (day : Z) :
  forall start,
    In day (visitedDays tz false (walkFuel start (Instant boundary)) start
              (Instant boundary))
    <-> exists k, 0 <= k /\ day = start + k * msPerDay /\ day <= boundary.
Proof.
  intros start.
  remember (walkFuel start (Instant boundary)) as n eqn:En. symmetry in En.
  revert start En.
  induction n as [|n IH]; intros start En.
  - cbn. split; [intros []|].
    intros (k & Hk & -> & Hle).
    apply walkFuel_zero in En. cbn in En. apply Z.leb_gt in En.
    unfold msPerDay in *. nia.
  - destruct (walkFuel_succ start (Instant boundary) n En) as [Hle Hnext].
    cbn [visitedDays]. rewrite Hle. cbn in Hle. apply Z.leb_le in Hle.
    cbn [In]. rewrite (IH _ Hnext), addDays_shift.
    split.
    + intros [<-|(k & Hk & -> & Hb)].
      * exists 0. lia.
      * exists (k + 1). lia.
    + intros (k & Hk & -> & Hb).
      destruct (Z.eq_dec k 0) as [->|Hne]; [left; lia|].
      right. exists (k - 1). lia.
Qed.
End WalkTermination.

(* ================================================================== *)
(** ** Time slots                                                       *)
(* ================================================================== *)

Section SlotValidation.
Import Calendar Generator.
Variable tz : Z.

(** The helper on a slot whose four fields parse: it compares the two
    clock times, in minutes of the day. *)
Lemma createValid_parsed (baseDate : Z) (startTime endTime : string)
    (sh sm eh em : Z) :
  parseHourMinute startTime = (Some sh, Some sm) ->
  parseHourMinute endTime = (Some eh, Some em) ->
  createValidClassSessionFromDateAndTimes tz baseDate startTime endTime
  = if eh * 60 + em <=? sh * 60 + sm then
      Throw (InvalidTimeRange startTime endTime baseDate)
    else if (eh * 60 + em) - (sh * 60 + sm) <? 30 then
      Throw (DurationTooShort 30 ((eh * 60 + em) - (sh * 60 + sm)) startTime endTime)
    else
      Ok (mkSession None (JsTime.setHours tz baseDate sh sm 0 0)
                         (JsTime.setHours tz baseDate eh em 0 0)).
Proof.
  intros Hs He. unfold createValidClassSessionFromDateAndTimes.
  rewrite Hs, He.
  pose proof (setHours_difference tz baseDate sh sm eh em) as Hd.
  set (s := JsTime.setHours tz baseDate sh sm 0 0) in *.
  set (e := JsTime.setHours tz baseDate eh em 0 0) in *.
  unfold MINIMUM_ALLOWED_DURATION_MINUTES. rewrite Hd.
  replace (((eh * 60 + em) - (sh * 60 + sm)) * msPerMinute / msPerMinute)
    with ((eh * 60 + em) - (sh * 60 + sm))
    by (unfold msPerMinute; Z.div_mod_to_equations; lia).
  destruct (Z.leb_spec e s); destruct (Z.leb_spec (eh * 60 + em) (sh * 60 + sm));
    try (unfold msPerMinute in *; lia).
  - reflexivity.
  - destruct (Z.ltb_spec (((eh * 60 + em) - (sh * 60 + sm)) * msPerMinute)
                         (30 * msPerMinute));
      destruct (Z.ltb_spec ((eh * 60 + em) - (sh * 60 + sm)) 30);
      try (unfold msPerMinute in *; lia); reflexivity.
Qed.

(** Sessions that the helper returns last at least the minimum and end
    after they start. *)
Lemma createValid_session_duration (baseDate : Z) (startTime endTime : string)
    (session : ClassSession) :
  createValidClassSessionFromDateAndTimes tz baseDate startTime endTime = Ok session ->
  sessionStartDateTime session + 30 * msPerMinute <= sessionEndDateTime session.
Proof.
  unfold createValidClassSessionFromDateAndTimes.
  destruct (parseHourMinute startTime) as [[sh|] [sm|]];
    destruct (parseHourMinute endTime) as [[eh|] [em|]]; try discriminate.
  destruct (Z.leb_spec (JsTime.setHours tz baseDate eh em 0 0)
                       (JsTime.setHours tz baseDate sh sm 0 0)) as [_|_];
    [discriminate|].
  unfold MINIMUM_ALLOWED_DURATION_MINUTES.
  destruct (Z.ltb_spec (JsTime.setHours tz baseDate eh em 0 0
                        - JsTime.setHours tz baseDate sh sm 0 0)
                       (30 * msPerMinute)) as [_|Hlong]; [discriminate|].
  intros Hok. injection Hok as <-. cbn [sessionStartDateTime sessionEndDateTime]. lia.
Qed.

(** The generator never passes a slot failure on to its caller. *)
Lemma generate_never_throws_slot_error (now : Z) (payload : SchedulePayload)
    (e : GeneratorError) :
  generateAllClassSessions tz now payload = Throw e ->
  match e with
  | InvalidTimeFormat _ _ | InvalidTimeRange _ _ _ | DurationTooShort _ _ _ _ => False
  | _ => True
  end.
Proof.
  unfold generateAllClassSessions, collectSessions, customPatternSessions,
    standardSessions, emptyScheduleError.
  destruct (dailyTimeSlots payload); [intros H; injection H as <-; exact I|].
  destruct (recurrenceType payload);
    repeat match goal with
      | |- context [match manuallyChosenDates payload with _ => _ end] =>
          destruct (manuallyChosenDates payload)
      | |- context [match seriesStartDate payload with _ => _ end] =>
          destruct (seriesStartDate payload) as [[?|]|]
      | |- context [match seriesEndDate payload with _ => _ end] =>
          destruct (seriesEndDate payload) as [[?|]|]
      | |- context [if ?b then _ else _] => destruct b
      | |- context [match newDate ?x with _ => _ end] => destruct (newDate x)
      | |- context [match ?l with [] => _ | _ :: _ => _ end] => destruct l
      end;
    intros H; try discriminate; injection H as <-; exact I.
Qed.
(** An occurrence is the session of some slot on some matched day. *)
Lemma occurrence_on_matched_day (payload : SchedulePayload) (session : ClassSession) :
  In session (occurrences tz payload) ->
  exists day slot,
    In day (matchedDays tz payload) /\ In slot (dailyTimeSlots payload) /\
    createValidClassSessionFromDateAndTimes tz day (startTime24h slot) (endTime24h slot)
    = Ok session.
Proof.
  unfold occurrences, dayOccurrences. intros H.
  apply in_flat_map in H as (day & Hday & H).
  apply in_flat_map in H as (slot & Hslot & H).
  exists day, slot. split; [exact Hday|]. split; [exact Hslot|].
  unfold slotOccurrence in H.
  destruct (createValidClassSessionFromDateAndTimes tz day _ _) as [s|e];
    [|contradiction].
  destruct H as [<-|[]]. reflexivity.
Qed.

(** A session of a slot that starts within the day has the calendar
    date of the day it was generated for. *)
Lemma session_keeps_the_day (day : Z) (slot : TimeSlot) (session : ClassSession) :
  startsWithinDay slot ->
  createValidClassSessionFromDateAndTimes tz day (startTime24h slot) (endTime24h slot)
  = Ok session ->
  JsTime.Day (JsTime.LocalTime tz (sessionStartDateTime session))
  = JsTime.Day (JsTime.LocalTime tz day).
Proof.
  intros (h & m & Hparse & Hrange).
  unfold createValidClassSessionFromDateAndTimes. rewrite Hparse.
  destruct (parseHourMinute (endTime24h slot)) as [[eh|] [em|]]; try discriminate.
  destruct (_ <=? _); [discriminate|]. destruct (_ <? _); [discriminate|].
  intros H. injection H as <-. cbn [sessionStartDateTime].
  apply setHours_same_day. exact Hrange.
Qed.

(** The sessions that the generator has collected, one by one: the
    session of a slot on a matched day, when the helper accepts the slot
    and the session starts at or after the buffer. *)
Lemma collected_session (now : Z) (payload : SchedulePayload)
    (generated : list ClassSession) (session : ClassSession) :
  collectSessions tz now payload = Ok generated ->
  In session generated <->
  exists day slot,
    In day (matchedDays tz payload) /\ In slot (dailyTimeSlots payload) /\
    createValidClassSessionFromDateAndTimes tz day (startTime24h slot) (endTime24h slot)
    = Ok session /\
    now + 30 * msPerMinute <= sessionStartDateTime session.
Proof.
  intros H. apply collectSessions_occurrences in H. subst generated.
  rewrite filter_In. unfold startsAfterBuffer, JsTime.addMinutes. rewrite Z.leb_le.
  split.
  - intros [Hin Hbuf].
    apply occurrence_on_matched_day in Hin as (day & slot & Hd & Hs & Hok).
    exists day, slot. auto.
  - intros (day & slot & Hd & Hs & Hok & Hbuf). split; [|exact Hbuf].
    unfold occurrences, dayOccurrences.
    apply in_flat_map. exists day. split; [exact Hd|].
    apply in_flat_map. exists slot. split; [exact Hs|].
    unfold slotOccurrence. rewrite Hok. left. reflexivity.
Qed.

(** The same, for a rule whose matched days are known. *)
Lemma collected_session_of_days (now : Z) (payload : SchedulePayload)
    (generated : list ClassSession) (matched : Z -> Prop) :
  collectSessions tz now payload = Ok generated ->
  (forall day, In day (matchedDays tz payload) <-> matched day) ->
  forall session,
    In session generated <->
    exists day slot,
      matched day /\ In slot (dailyTimeSlots payload) /\
      createValidClassSessionFromDateAndTimes tz day (startTime24h slot)
        (endTime24h slot) = Ok session /\
      now + 30 * msPerMinute <= sessionStartDateTime session.
Proof.
  intros H Hdays session. rewrite (collected_session now payload generated session H).
  split; intros (day & slot & Hd & Hrest); exists day, slot;
    (split; [apply Hdays; exact Hd|exact Hrest]).
Qed.

(** What the generator answers once its loops have run: the collected
    sessions, or the empty-schedule error of the mode when there are
    none. *)
Lemma generate_of_collected (now : Z) (payload : SchedulePayload)
    (generated : list ClassSession) :
  collectSessions tz now payload = Ok generated ->
  generateAllClassSessions tz now payload
  = match generated with
    | [] => Throw (emptyScheduleError (recurrenceType payload))
    | _ :: _ => Ok generated
    end.
Proof.
  intros H. unfold generateAllClassSessions. rewrite H. reflexivity.
Qed.
End SlotValidation.

(* ================================================================== *)
(** ** Claims about the recurrence expander                             *)
(* ================================================================== *)

Section MonthlyRule.
Import Calendar Generator.
Variable tz : Z.

Lemma includes_In (xs : list Z) (x : Z) : includes xs x = true <-> In x xs.
Proof.
  unfold includes. rewrite existsb_exists. split.
  - intros (y & Hy & E). apply Z.eqb_eq in E. now subst.
  - intros H. exists x. split; [exact H|apply Z.eqb_refl].
Qed.

(** The MONTHLY branch of [shouldIncludeThisDay], in calendar terms. *)
Lemma monthly_shouldInclude (payload : SchedulePayload) (start day : Z) :
  recurrenceType payload = MONTHLY ->
  shouldIncludeThisDay tz payload start day = true <->
  In (JsTime.getDate tz day) (selectedMonthDays payload) \/
  (JsTime.getDate tz day
     = daysInMonth (JsTime.getFullYear tz day) (JsTime.getMonth tz day) /\
   exists d, In d (selectedMonthDays payload) /\
             d > daysInMonth (JsTime.getFullYear tz day) (JsTime.getMonth tz day)).
Proof.
  intros Hkind. unfold shouldIncludeThisDay. rewrite Hkind.
  rewrite orb_true_iff, andb_true_iff, includes_In, isLastDayOfMonth_spec,
    existsb_exists, getDate_lastDayOfMonth.
  split; (intros [H|[H1 (d & Hd & Hgt)]]; [left; exact H|right]);
    (split; [exact H1|exists d; split; [exact Hd|]]).
  - apply Z.gtb_lt in Hgt. lia.
  - apply Z.gtb_lt. lia.
Qed.

(** The days a MONTHLY rule emits sessions for. *)
Lemma monthly_days (payload : SchedulePayload) (start finish day : Z) :
  recurrenceType payload = MONTHLY ->
  seriesStartDate payload = Some (Instant start) ->
  seriesEndDate payload = Some (Instant finish) ->
  In day (matchedDays tz payload) <->
  (exists k, 0 <= k /\ day = start + k * msPerDay /\ day <= finish) /\
  shouldIncludeThisDay tz payload start day = true.
Proof.
  intros Hkind Hstart Hend. unfold matchedDays. rewrite Hkind, Hstart, Hend.
  cbn [newDate isNone]. rewrite filter_In, visitedDays_spec. reflexivity.
Qed.

(** C3. MONTHLY rule, on the sessions the generator returns.  The
    generator walks day by day from [seriesStartDate] to [seriesEndDate];
    a session is returned exactly when it is the session of a slot on a
    day of that walk whose day of month is in [selectedMonthDays], or
    which is the last day of its month while some selected value exceeds
    the length of that month (the slot being one the helper accepts and
    the session starting at or after the buffer).  With
    [selectedMonthDays = [31]] every returned session in February starts
    on the 28th in a common year and on the 29th in a leap year. *)
Theorem monthly_rule_sessions (now : Z) (payload : SchedulePayload)
    (start finish : Z) (generated : list ClassSession) :
  recurrenceType payload = MONTHLY ->
  seriesStartDate payload = Some (Instant start) ->
  seriesEndDate payload = Some (Instant finish) ->
  collectSessions tz now payload = Ok generated ->
  generateAllClassSessions tz now payload
  = match generated with
    | [] => Throw NoFutureSessions
    | _ :: _ => Ok generated
    end
  /\ (forall session,
        In session generated <->
        exists k slot,
          let day := start + k * msPerDay in
          0 <= k /\ day <= finish /\
          (In (JsTime.getDate tz day) (selectedMonthDays payload) \/
           (JsTime.getDate tz day
              = daysInMonth (JsTime.getFullYear tz day) (JsTime.getMonth tz day) /\
            exists d, In d (selectedMonthDays payload) /\
                      d > daysInMonth (JsTime.getFullYear tz day)
                                      (JsTime.getMonth tz day))) /\
          In slot (dailyTimeSlots payload) /\
          createValidClassSessionFromDateAndTimes tz day (startTime24h slot)
            (endTime24h slot) = Ok session /\
          now + 30 * msPerMinute <= sessionStartDateTime session)
  /\ (selectedMonthDays payload = [31] ->
      Forall startsWithinDay (dailyTimeSlots payload) ->
      forall session,
        In session generated ->
        JsTime.getMonth tz (sessionStartDateTime session) = 1 ->
        JsTime.getDate tz (sessionStartDateTime session)
        = if isLeapYear (JsTime.getFullYear tz (sessionStartDateTime session))
          then 29 else 28).
Proof.
  intros Hkind Hstart Hend Hc.
  split.
  { rewrite (generate_of_collected tz now payload generated Hc), Hkind. reflexivity. }
  split.
  - intros session. rewrite (collected_session tz now payload generated session Hc).
    split.
    + intros (day & slot & Hd & Hs & Hok & Hbuf).
      apply (monthly_days payload start finish day Hkind Hstart Hend) in Hd.
      destruct Hd as [(k & Hk & -> & Hle) Hinc].
      apply (monthly_shouldInclude payload start _ Hkind) in Hinc.
      exists k, slot. cbv zeta. auto 7.
    + cbv zeta. intros (k & slot & Hk & Hle & Hinc & Hs & Hok & Hbuf).
      exists (start + k * msPerDay), slot.
      split; [|auto].
      apply (monthly_days payload start finish _ Hkind Hstart Hend).
      split; [exists k; auto|].
      apply (monthly_shouldInclude payload start _ Hkind). exact Hinc.
  - intros Hdays Hslots session Hin.
    apply (collected_session tz now payload generated session Hc) in Hin.
    destruct Hin as (d & slot & Hd & Hslot & Hok & _).
    rewrite Forall_forall in Hslots.
    pose proof (session_keeps_the_day tz d slot session (Hslots slot Hslot) Hok) as E.
    unfold JsTime.getMonth, JsTime.getDate, JsTime.getFullYear. rewrite E.
    fold (JsTime.getMonth tz d) (JsTime.getDate tz d) (JsTime.getFullYear tz d).
    intros Hmonth.
    apply (monthly_days payload start finish d Hkind Hstart Hend) in Hd.
    destruct Hd as [_ Hinc].
    apply (monthly_shouldInclude payload start d Hkind) in Hinc.
    pose proof (getDate_bounds tz d) as Hb.
    rewrite Hdays, Hmonth in *. unfold daysInMonth in *.
    change (1 =? 1) with true in *. cbv iota in *.
    destruct (isLeapYear (JsTime.getFullYear tz d));
      destruct Hinc as [[E'|[]]|[E' _]]; lia.
Qed.
End MonthlyRule.

(** The rule "the 31st of every month" from January to May 2027, asked
    for on 1 January: the generator returns the sessions of 31 January,
    28 February, 31 March and 30 April; the session of February is
    the one of the 28th, the last day of a month of 28 days. *)
Lemma monthly_rule_sessions_witness :
  let now := Sample.localClock 2027 0 1 0 0 in
  let payload :=
    Sample.rule MONTHLY (Sample.localClock 2027 0 1 0 0)
                (Some (Sample.localClock 2027 4 1 0 0)) [Sample.nineToTen] [31] in
  let on (month date : Z) :=
    mkSession None (Sample.localClock 2027 month date 9 0)
                   (Sample.localClock 2027 month date 10 0) in
  let generated := [on 0 31; on 1 28; on 2 31; on 3 30] in
  Generator.collectSessions Sample.kathmandu now payload = Ok generated /\
  Generator.generateAllClassSessions Sample.kathmandu now payload = Ok generated /\
  JsTime.getMonth Sample.kathmandu (sessionStartDateTime (on 1 28)) = 1 /\
  JsTime.getDate Sample.kathmandu (sessionStartDateTime (on 1 28)) = 28 /\
  (exists k slot,
     let day := Sample.localClock 2027 0 1 0 0 + k * Calendar.msPerDay in
     0 <= k /\ day <= Sample.localClock 2027 4 1 0 0 /\
     (In (JsTime.getDate Sample.kathmandu day) (selectedMonthDays payload) \/
      (JsTime.getDate Sample.kathmandu day
       = Calendar.daysInMonth (JsTime.getFullYear Sample.kathmandu day)
                              (JsTime.getMonth Sample.kathmandu day) /\
       exists d, In d (selectedMonthDays payload) /\
                 d > Calendar.daysInMonth (JsTime.getFullYear Sample.kathmandu day)
                                          (JsTime.getMonth Sample.kathmandu day))) /\
     In slot (dailyTimeSlots payload) /\
     Generator.createValidClassSessionFromDateAndTimes Sample.kathmandu day
       (startTime24h slot) (endTime24h slot) = Ok (on 1 28) /\
     now + 30 * Calendar.msPerMinute <= sessionStartDateTime (on 1 28)).
Proof.
  intros now payload on generated.
  assert (Hc : Generator.collectSessions Sample.kathmandu now payload = Ok generated)
    by (vm_compute; reflexivity).
  assert (Hslots : Forall Generator.startsWithinDay (dailyTimeSlots payload)).
  { repeat constructor. exists 9, 0. split; [reflexivity|lia]. }
  assert (Hin : In (on 1 28) generated) by (right; left; reflexivity).
  destruct (monthly_rule_sessions Sample.kathmandu now payload
              (Sample.localClock 2027 0 1 0 0) (Sample.localClock 2027 4 1 0 0)
              generated eq_refl eq_refl eq_refl Hc) as (Hgen & Hiff & Hfeb).
  split; [exact Hc|]. split; [exact Hgen|]. split; [reflexivity|].
  split; [exact (Hfeb eq_refl Hslots (on 1 28) Hin eq_refl)|].
  exact (proj1 (Hiff (on 1 28)) Hin).
Defined.

Section FutureBuffer.
Import Calendar Generator.
Variable tz : Z.

(** C6. Of the occurrences of a rule, the expansion keeps exactly those
    whose start is at or after [now + 30 minutes]; dropping the others
    raises no error, the result is still the list of the kept ones. *)
Theorem future_buffer_keeps_exactly (now : Z) (payload : SchedulePayload)
    (generated : list ClassSession) :
  collectSessions tz now payload = Ok generated ->
  generated = filter (startsAfterBuffer now) (occurrences tz payload) /\
  forall session,
    In session generated <->
    In session (occurrences tz payload) /\
    now + 30 * msPerMinute <= sessionStartDateTime session.
Proof.
  intros H. apply collectSessions_occurrences in H.
  split; [exact H|].
  intros session. rewrite H, filter_In.
  unfold startsAfterBuffer, JsTime.addMinutes. rewrite Z.leb_le. reflexivity.
Qed.

(** C5. When no occurrence survives generation and the buffer test, the
    expansion fails with the empty-schedule error of its mode instead
    of returning an empty list; it never returns an empty list. *)
Theorem empty_schedule_is_an_error (now : Z) (payload : SchedulePayload)
    (generated : list ClassSession) :
  collectSessions tz now payload = Ok generated ->
  filter (startsAfterBuffer now) (occurrences tz payload) = [] ->
  generateAllClassSessions tz now payload
  = Throw (emptyScheduleError (recurrenceType payload)) /\
  (emptyScheduleError (recurrenceType payload) = NoFutureSessions \/
   emptyScheduleError (recurrenceType payload) = NoValidCustomSessions) /\
  generateAllClassSessions tz now payload <> Ok [].
Proof.
  intros H Hempty.
  pose proof (collectSessions_occurrences tz now payload generated H) as E.
  rewrite Hempty in E. subst generated.
  unfold generateAllClassSessions. rewrite H.
  repeat split.
  - destruct (recurrenceType payload); cbn; auto.
  - discriminate.
Qed.

(** The expansion returns no empty list, whatever the rule. *)
Lemma generate_never_empty (now : Z) (payload : SchedulePayload) :
  generateAllClassSessions tz now payload <> Ok [].
Proof.
  unfold generateAllClassSessions.
  destruct (collectSessions tz now payload) as [[|s l]|e]; discriminate.
Qed.
End FutureBuffer.

(** At 08:31 a slot starting at 09:00 is 29 minutes away and is dropped,
    a slot starting at 09:02 is 31 minutes away and is kept. *)
Lemma future_buffer_keeps_exactly_witness :
  let now := Sample.localClock 2026 10 3 8 31 in
  let payload :=
    Sample.rule SINGLE_INSTANCE (Sample.localClock 2026 10 3 0 0) None
                [Sample.nineToTen; mkSlot "09:02" "10:02"] [] in
  let kept :=
    [mkSession None (Sample.localClock 2026 10 3 9 2) (Sample.localClock 2026 10 3 10 2)] in
  Generator.collectSessions Sample.kathmandu now payload = Ok kept /\
  (kept = filter (Generator.startsAfterBuffer now)
                 (Generator.occurrences Sample.kathmandu payload) /\
   forall session,
     In session kept <->
     In session (Generator.occurrences Sample.kathmandu payload) /\
     now + 30 * Calendar.msPerMinute <= sessionStartDateTime session).
Proof.
  intros now payload kept.
  assert (H : Generator.collectSessions Sample.kathmandu now payload = Ok kept)
    by (vm_compute; reflexivity).
  split; [exact H|].
  exact (future_buffer_keeps_exactly Sample.kathmandu now payload kept H).
Defined.

(** A one-time class on a day that is already over has no occurrence
    left: the expansion fails. *)
Lemma empty_schedule_is_an_error_witness :
  let now := Sample.localClock 2026 10 3 8 0 in
  let payload :=
    Sample.rule SINGLE_INSTANCE (Sample.localClock 2026 10 1 0 0) None
                [Sample.nineToTen] [] in
  Generator.collectSessions Sample.kathmandu now payload = Ok [] /\
  filter (Generator.startsAfterBuffer now)
         (Generator.occurrences Sample.kathmandu payload) = [] /\
  Generator.generateAllClassSessions Sample.kathmandu now payload
  = Throw NoFutureSessions.
Proof.
  intros now payload.
  assert (H : Generator.collectSessions Sample.kathmandu now payload = Ok [])
    by (vm_compute; reflexivity).
  assert (E : filter (Generator.startsAfterBuffer now)
                (Generator.occurrences Sample.kathmandu payload) = [])
    by (vm_compute; reflexivity).
  split; [exact H|]. split; [exact E|].
  exact (proj1 (empty_schedule_is_an_error Sample.kathmandu now payload [] H E)).
Defined.

Section InvalidSlots.
Import Calendar Generator.
Variable tz : Z.

(** What the code does with a slot that is too short or runs backwards.
    For a slot whose times parse, the session helper fails on every day
    when the end is not after the start (invalid range) or less than 30
    minutes after it (too short), naming the slot's two times and, when
    too short, the minutes it lasts; it accepts every slot of 30 minutes
    or more.  The expander catches the failure for each slot and day:
    such a slot contributes no occurrence, the expander never returns a
    slot failure, and what it has collected is the list of the
    occurrences of the valid slots that start at or after the buffer. *)
Lemma invalid_slot_is_rejected_then_skipped (slot : TimeSlot) (sh sm eh em : Z) :
  parseHourMinute (startTime24h slot) = (Some sh, Some sm) ->
  parseHourMinute (endTime24h slot) = (Some eh, Some em) ->
  (eh * 60 + em <= sh * 60 + sm ->
   forall baseDate,
     createValidClassSessionFromDateAndTimes tz baseDate
       (startTime24h slot) (endTime24h slot)
     = Throw (InvalidTimeRange (startTime24h slot) (endTime24h slot) baseDate))
  /\ (sh * 60 + sm < eh * 60 + em < sh * 60 + sm + 30 ->
      forall baseDate,
        createValidClassSessionFromDateAndTimes tz baseDate
          (startTime24h slot) (endTime24h slot)
        = Throw (DurationTooShort 30 ((eh * 60 + em) - (sh * 60 + sm))
                   (startTime24h slot) (endTime24h slot)))
  /\ (sh * 60 + sm + 30 <= eh * 60 + em ->
      forall baseDate,
        createValidClassSessionFromDateAndTimes tz baseDate
          (startTime24h slot) (endTime24h slot)
        = Ok (mkSession None (JsTime.setHours tz baseDate sh sm 0 0)
                             (JsTime.setHours tz baseDate eh em 0 0)))
  /\ (eh * 60 + em < sh * 60 + sm + 30 ->
      forall baseDate, slotOccurrence tz baseDate slot = [])
  /\ (forall now payload e,
        generateAllClassSessions tz now payload = Throw e ->
        match e with
        | InvalidTimeFormat _ _ | InvalidTimeRange _ _ _
        | DurationTooShort _ _ _ _ => False
        | _ => True
        end)
  /\ (forall now payload generated,
        collectSessions tz now payload = Ok generated ->
        generated = filter (startsAfterBuffer now) (occurrences tz payload)).
Proof.
  intros Hs He.
  assert (Hhelper := fun baseDate =>
    createValid_parsed tz baseDate _ _ sh sm eh em Hs He).
  split; [|split; [|split; [|split; [|split]]]].
  - intros Hle baseDate. rewrite Hhelper.
    destruct (Z.leb_spec (eh * 60 + em) (sh * 60 + sm)); [reflexivity|lia].
  - intros Hshort baseDate. rewrite Hhelper.
    destruct (Z.leb_spec (eh * 60 + em) (sh * 60 + sm)); [lia|].
    destruct (Z.ltb_spec (eh * 60 + em - (sh * 60 + sm)) 30); [reflexivity|lia].
  - intros Hlong baseDate. rewrite Hhelper.
    destruct (Z.leb_spec (eh * 60 + em) (sh * 60 + sm)); [lia|].
    destruct (Z.ltb_spec (eh * 60 + em - (sh * 60 + sm)) 30); [lia|reflexivity].
  - intros Hbad baseDate. unfold slotOccurrence. rewrite Hhelper.
    destruct (Z.leb_spec (eh * 60 + em) (sh * 60 + sm)); [reflexivity|].
    destruct (Z.ltb_spec (eh * 60 + em - (sh * 60 + sm)) 30); [reflexivity|lia].
  - intros now payload e. apply generate_never_throws_slot_error.
  - intros now payload generated. apply collectSessions_occurrences.
Qed.
End InvalidSlots.

(** The slot 09:00-09:10 lasts ten minutes. *)
Lemma invalid_slot_is_rejected_then_skipped_witness :
  Generator.parseHourMinute (startTime24h Sample.tenMinutes) = (Some 9, Some 0) /\
  Generator.parseHourMinute (endTime24h Sample.tenMinutes) = (Some 9, Some 10) /\
  (forall baseDate,
      Generator.createValidClassSessionFromDateAndTimes Sample.kathmandu baseDate
        "09:00" "09:10"
      = Throw (DurationTooShort 30 10 "09:00" "09:10")) /\
  forall baseDate,
    Generator.slotOccurrence Sample.kathmandu baseDate Sample.tenMinutes = [].
Proof.
  assert (Hs : Generator.parseHourMinute (startTime24h Sample.tenMinutes)
               = (Some 9, Some 0)) by reflexivity.
  assert (He : Generator.parseHourMinute (endTime24h Sample.tenMinutes)
               = (Some 9, Some 10)) by reflexivity.
  split; [exact Hs|]. split; [exact He|].
  destruct (invalid_slot_is_rejected_then_skipped Sample.kathmandu Sample.tenMinutes
              9 0 9 10 Hs He) as (_ & Hshort & _ & Hskip & _).
  split.
  - intros baseDate. apply (Hshort ltac:(lia) baseDate).
  - intros baseDate. apply (Hskip ltac:(lia) baseDate).
Defined.

(** C2. A request with a slot that is too short or that ends before it
    starts should fail with the error of that slot, before anything is
    generated; the expander says so of itself ("throws descriptive
    errors when time slots are invalid or too short"), and so does the
    helper ("silent failures lead to half-generated schedules").  It
    does not: for a one-time class on 3 November 2026 with a ten-minute
    slot, a slot that ends before it starts and a regular slot, the
    helper rejects the first two, with the errors the claim names, yet
    the expansion succeeds with the session of the third; with only the
    ten-minute slot the expansion fails with the empty-schedule error,
    not with the slot's. *)
Theorem invalid_slot_is_skipped_not_reported :
  let now := Sample.localClock 2026 10 2 8 0 in
  let day := Sample.localClock 2026 10 3 0 0 in
  let backwards := mkSlot "11:00" "10:30" in
  Generator.createValidClassSessionFromDateAndTimes Sample.kathmandu day "09:00" "09:10"
  = Throw (DurationTooShort 30 10 "09:00" "09:10") /\
  Generator.createValidClassSessionFromDateAndTimes Sample.kathmandu day "11:00" "10:30"
  = Throw (InvalidTimeRange "11:00" "10:30" day) /\
  Generator.generateAllClassSessions Sample.kathmandu now
    (Sample.rule SINGLE_INSTANCE day None
       [Sample.tenMinutes; backwards; Sample.tenToEleven] [])
  = Ok [mkSession None (Sample.localClock 2026 10 3 10 0)
                       (Sample.localClock 2026 10 3 11 0)] /\
  Generator.generateAllClassSessions Sample.kathmandu now
    (Sample.rule SINGLE_INSTANCE day None [Sample.tenMinutes] [])
  = Throw NoFutureSessions.
Proof. vm_compute. repeat split. Qed.

(** The boundary of the helper: 29 minutes are rejected, 30 accepted. *)
Lemma thirty_minutes_is_enough :
  let day := Sample.localClock 2026 10 3 0 0 in
  Generator.createValidClassSessionFromDateAndTimes Sample.kathmandu day "09:00" "09:29"
  = Throw (DurationTooShort 30 29 "09:00" "09:29") /\
  Generator.createValidClassSessionFromDateAndTimes Sample.kathmandu day "09:00" "09:30"
  = Ok (mkSession None (Sample.localClock 2026 10 3 9 0)
                       (Sample.localClock 2026 10 3 9 30)).
Proof. vm_compute. split; reflexivity. Qed.

Section SeriesBoundaries.
Import Calendar Generator.
Variable tz : Z.

(** The other kinds make neither check: the only errors they can end
    in are the missing slots, an unreadable start and the empty
    schedule. *)
Lemma standard_kinds_errors (now : Z) (payload : SchedulePayload) (e : GeneratorError) :
  recurrenceType payload <> CUSTOM ->
  generateAllClassSessions tz now payload = Throw e ->
  e = TimeSlotRequired \/
  e = InvalidSeriesStartDate (seriesStartDate payload) \/
  e = NoFutureSessions.
Proof.
  intros Hkind.
  unfold generateAllClassSessions, collectSessions, standardSessions,
    emptyScheduleError.
  destruct (dailyTimeSlots payload); [intros H; injection H as <-; auto|].
  destruct (recurrenceType payload); try contradiction;
    (destruct (newDate (seriesStartDate payload));
     [match goal with
      | |- context [match ?l with [] => _ | _ :: _ => _ end] => destruct l
      end|];
     intros H; try discriminate; injection H as <-; auto).
Qed.

(** Without [seriesEndDate] a standard walk stops after the start day. *)
Lemma standard_walk_without_end (payload : SchedulePayload) (start : Z) :
  recurrenceType payload <> CUSTOM ->
  seriesStartDate payload = Some (Instant start) ->
  seriesEndDate payload = None ->
  matchedDays tz payload
  = if shouldIncludeThisDay tz payload start start then [start] else [].
Proof.
  intros Hkind Hstart Hend. unfold matchedDays.
  rewrite Hstart, Hend. cbn [newDate].
  assert (Hfuel : walkFuel start (Instant start) = 1%nat).
  { unfold walkFuel. replace (start - start) with 0 by lia. reflexivity. }
  rewrite Hfuel.
  assert (Hvisited : forall single,
             visitedDays tz single 1 start (Instant start) = [start]).
  { intros single. cbn [visitedDays dateLe]. rewrite Z.leb_refl.
    destruct single; reflexivity. }
  destruct (recurrenceType payload); try contradiction;
    rewrite Hvisited; reflexivity.
Qed.

(** A walk whose boundary lies before its start visits no day. *)
Lemma walkFuel_backwards (start finish : Z) :
  finish < start -> walkFuel start (Instant finish) = O.
Proof.
  intros Hlt. unfold walkFuel.
  assert ((finish - start) / msPerDay < 0) by (unfold msPerDay; divlia).
  lia.
Qed.

(** C7 (as the code has it).  In pattern mode of CUSTOM (no manual
    dates) the expansion fails with the missing-boundary error when
    [seriesStartDate] or [seriesEndDate] is absent, and with the
    invalid-range error when the end lies before the start.  For DAILY,
    WEEKLY and MONTHLY rules the expansion makes no range check of its
    own: when the end lies before the start the walk visits no day, the
    rule has no occurrence, and the expansion fails with the
    empty-schedule error. *)
Theorem series_boundary_checks (now : Z) (payload : SchedulePayload) :
  dailyTimeSlots payload <> [] ->
  (recurrenceType payload = CUSTOM -> manuallyChosenDates payload = [] ->
   (seriesStartDate payload = None \/ seriesEndDate payload = None ->
    generateAllClassSessions tz now payload = Throw CustomPatternNeedsBothDates) /\
   (forall start finish,
      seriesStartDate payload = Some (Instant start) ->
      seriesEndDate payload = Some (Instant finish) ->
      finish < start ->
      generateAllClassSessions tz now payload = Throw StartAfterEnd))
  /\
  (recurrenceType payload = DAILY \/ recurrenceType payload = WEEKLY \/
   recurrenceType payload = MONTHLY ->
   forall start finish,
     seriesStartDate payload = Some (Instant start) ->
     seriesEndDate payload = Some (Instant finish) ->
     finish < start ->
     matchedDays tz payload = [] /\ occurrences tz payload = [] /\
     generateAllClassSessions tz now payload = Throw NoFutureSessions).
Proof.
  intros Hslots. split.
  - intros Hkind Hmanual.
    unfold generateAllClassSessions, collectSessions, customPatternSessions.
    destruct (dailyTimeSlots payload) as [|slot slots]; [contradiction|].
    rewrite Hkind, Hmanual. split.
    + intros [-> | ->]; [reflexivity|].
      destruct (seriesStartDate payload); reflexivity.
    + intros start finish -> -> Hlt.
      destruct (Z.gtb_spec start finish); [reflexivity|lia].
  - intros Hkind start finish Hstart Hend Hlt.
    assert (Hdays : matchedDays tz payload = []).
    { unfold matchedDays. rewrite Hstart, Hend. cbn [newDate].
      rewrite (walkFuel_backwards start finish Hlt).
      destruct Hkind as [-> | [-> | ->]]; reflexivity. }
    assert (Hocc : occurrences tz payload = []).
    { unfold occurrences. rewrite Hdays. reflexivity. }
    split; [exact Hdays|]. split; [exact Hocc|].
    assert (Hcollect : exists generated,
               collectSessions tz now payload = Ok generated).
    { unfold collectSessions, standardSessions.
      destruct (dailyTimeSlots payload) as [|slot slots]; [contradiction|].
      rewrite Hstart. cbn [newDate].
      destruct Hkind as [-> | [-> | ->]]; eexists; reflexivity. }
    destruct Hcollect as [generated Hcollect].
    pose proof (collectSessions_occurrences tz now payload generated Hcollect) as E.
    rewrite Hocc in E. cbn [filter] in E. subst generated.
    unfold generateAllClassSessions. rewrite Hcollect.
    destruct Hkind as [-> | [-> | ->]]; reflexivity.
Qed.
End SeriesBoundaries.

(** Three rules on the slot 09:00-10:00: a CUSTOM pattern without an
    end, a CUSTOM pattern that ends the day before it starts, and a
    DAILY rule that ends the day before it starts. *)
Lemma series_boundary_checks_witness :
  let now := Sample.localClock 2026 10 2 8 0 in
  let start := Sample.nov3 0 0 in
  let dayBefore := Sample.localClock 2026 10 2 0 0 in
  Generator.generateAllClassSessions Sample.kathmandu now
    (Sample.rule CUSTOM start None [Sample.nineToTen] [])
  = Throw CustomPatternNeedsBothDates /\
  Generator.generateAllClassSessions Sample.kathmandu now
    (Sample.rule CUSTOM start (Some dayBefore) [Sample.nineToTen] [])
  = Throw StartAfterEnd /\
  Generator.generateAllClassSessions Sample.kathmandu now
    (Sample.rule DAILY start (Some dayBefore) [Sample.nineToTen] [])
  = Throw NoFutureSessions.
Proof.
  intros now start dayBefore.
  assert (Hslots : forall kind finish,
             dailyTimeSlots (Sample.rule kind start finish [Sample.nineToTen] []) <> [])
    by (intros kind finish; discriminate).
  assert (Hlt : dayBefore < start) by (vm_compute; reflexivity).
  split; [|split].
  - apply (proj1 (series_boundary_checks Sample.kathmandu now _ (Hslots CUSTOM None)));
      [reflexivity | reflexivity | right; reflexivity].
  - apply (proj1 (series_boundary_checks Sample.kathmandu now _
                    (Hslots CUSTOM (Some dayBefore))) eq_refl eq_refl)
      with (start := start) (finish := dayBefore);
      [reflexivity | reflexivity | exact Hlt].
  - apply (proj2 (series_boundary_checks Sample.kathmandu now _
                    (Hslots DAILY (Some dayBefore))) (or_introl eq_refl)
             start dayBefore eq_refl eq_refl Hlt).
Defined.

(** A DAILY rule whose end lies before its start fails with the
    empty-schedule error, not with an invalid-range error; and a DAILY
    rule without [seriesEndDate] is expanded to the session of its start
    day instead of failing for the missing boundary. *)
Lemma daily_rule_boundaries_unchecked :
  let now := Sample.localClock 2026 10 2 8 0 in
  let start := Sample.localClock 2026 10 3 0 0 in
  Generator.generateAllClassSessions Sample.kathmandu now
    (Sample.rule DAILY start (Some (Sample.localClock 2026 10 2 0 0))
                 [Sample.nineToTen] [])
  = Throw NoFutureSessions /\
  Generator.generateAllClassSessions Sample.kathmandu now
    (Sample.rule DAILY start None [Sample.nineToTen] [])
  = Ok [mkSession None (Sample.localClock 2026 10 3 9 0)
                       (Sample.localClock 2026 10 3 10 0)].
Proof. vm_compute. split; reflexivity. Qed.

(* ================================================================== *)
(** ** Claims about the conflict detector                               *)
(* ================================================================== *)

Section Overlap.
Import Store.

(** C4. The detector's overlap test between an existing interval [A]
    and a candidate [B] holds exactly when [A] starts before [B] ends
    and ends after [B] starts; it does not depend on which of the two
    is the candidate; an interval that starts when [A] ends does not
    overlap [A]; and the test that picks the session for the message
    is the same test. *)
Theorem overlap_predicate (A B : ClassSession) :
  (overlapCondition B A = true <->
     sessionStartDateTime A < sessionEndDateTime B /\
     sessionEndDateTime A > sessionStartDateTime B)
  /\ overlapCondition B A = overlapCondition A B
  /\ (forall id finish,
        overlapCondition (mkSession id (sessionEndDateTime A) finish) A = false /\
        overlapCondition A (mkSession id (sessionEndDateTime A) finish) = false)
  /\ overlapsSomeRequested [B] A = overlapCondition B A.
Proof.
  assert (Hiff : forall X Y : ClassSession,
             overlapCondition Y X = true <->
             sessionStartDateTime X < sessionEndDateTime Y /\
             sessionEndDateTime X > sessionStartDateTime Y).
  { intros X Y. unfold overlapCondition.
    rewrite andb_true_iff, Z.ltb_lt, Z.gtb_lt. lia. }
  assert (Hsym : forall X Y : ClassSession,
             overlapCondition Y X = overlapCondition X Y).
  { intros X Y. apply eq_true_iff_eq. rewrite !Hiff. lia. }
  split; [apply Hiff|]. split; [apply Hsym|]. split.
  - intros id finish.
    assert (Hfalse : overlapCondition
                       (mkSession id (sessionEndDateTime A) finish) A = false).
    { apply not_true_iff_false. rewrite Hiff.
      cbn [sessionStartDateTime sessionEndDateTime]. lia. }
    split; [exact Hfalse|]. rewrite <- Hsym. exact Hfalse.
  - unfold overlapsSomeRequested. cbn [existsb]. rewrite orb_false_r.
    apply eq_true_iff_eq.
    rewrite Hiff, andb_true_iff, Z.ltb_lt, Z.gtb_lt. lia.
Qed.

Lemma overlapsSomeRequested_query (requested : list ClassSession)
    (existing : ClassSession) :
  overlapsSomeRequested requested existing
  = existsb (fun newSession => overlapCondition newSession existing) requested.
Proof.
  unfold overlapsSomeRequested.
  induction requested as [|B rest IH]; cbn [existsb]; [reflexivity|].
  rewrite IH. f_equal.
  apply eq_true_iff_eq. unfold overlapCondition.
  rewrite !andb_true_iff, !Z.ltb_lt, !Z.gtb_lt. lia.
Qed.

(** The query on the sessions, for a request of at least one session. *)
Lemma elemMatchOverlap_requested (requested : list ClassSession) (doc : ClassDoc) :
  requested <> [] ->
  elemMatchOverlap requested doc
  = existsb (fun existing =>
               existsb (fun newSession => overlapCondition newSession existing)
                       requested)
            (preGeneratedClassSessions doc).
Proof. destruct requested; [contradiction|reflexivity]. Qed.

(** For a request of no session the query matches every series that has
    a session, and none of its sessions can be picked for the message. *)
Lemma elemMatchOverlap_nil (doc : ClassDoc) :
  elemMatchOverlap [] doc = negb (Nat.eqb (List.length (preGeneratedClassSessions doc)) 0)
  /\ find (overlapsSomeRequested []) (preGeneratedClassSessions doc) = None.
Proof.
  split.
  - unfold elemMatchOverlap. destruct (preGeneratedClassSessions doc); reflexivity.
  - induction (preGeneratedClassSessions doc) as [|x l IH]; [reflexivity|exact IH].
Qed.

(** A document that the query matched for a request of at least one
    session has a session for the message. *)
Lemma matched_document_has_session (requested : list ClassSession) (doc : ClassDoc) :
  requested <> [] ->
  elemMatchOverlap requested doc = true ->
  exists session,
    find (overlapsSomeRequested requested) (preGeneratedClassSessions doc)
    = Some session.
Proof.
  intros Hreq H. rewrite (elemMatchOverlap_requested requested doc Hreq) in H.
  apply existsb_exists in H as (existing & Hin & Hov).
  rewrite <- overlapsSomeRequested_query in Hov.
  destruct (find (overlapsSomeRequested requested) (preGeneratedClassSessions doc))
    as [session|] eqn:E; [now exists session|].
  pose proof (find_none _ _ E existing Hin) as Hnone. congruence.
Qed.
End Overlap.

Section Attribution.
Import Store.

Lemma findOne_some (query : ClassDoc -> bool) (db : Database) (doc : ClassDoc) :
  findOne query db = Some doc -> In doc (classSchedules db) /\ query doc = true.
Proof. unfold findOne. apply find_some. Qed.

Lemma findOne_none (query : ClassDoc -> bool) (db : Database) (doc : ClassDoc) :
  findOne query db = None -> In doc (classSchedules db) -> query doc = false.
Proof. unfold findOne. intros H Hin. exact (find_none _ _ H doc Hin). Qed.

End Attribution.



(* ================================================================== *)
(** ** Claims about exception reconciliation                            *)
(* ================================================================== *)

Section Reconciliation.
Import Controller.

(** The [.find(...)] of the map picks the first MODIFIED exception
    anchored at the start of the session. *)
Lemma findManualEdit_first (before after : list ExceptionRecord)
    (edit : ExceptionRecord) (sess : ClassSession) :
  status edit = modified ->
  originalStart edit = sessionStartDateTime sess ->
  (forall ex, In ex before -> status ex = modified ->
              originalStart ex <> sessionStartDateTime sess) ->
  findManualEdit (before ++ edit :: after) sess = Some edit.
Proof.
  intros Hst Hanchor Hbefore. unfold findManualEdit.
  induction before as [|ex before IH]; cbn [app find].
  - rewrite Hanchor, Z.eqb_refl, Hst. reflexivity.
  - destruct (Z.eqb_spec (originalStart ex) (sessionStartDateTime sess)) as [E|_].
    + destruct (status ex) eqn:Hex; cbn [isModified andb].
      * exfalso. exact (Hbefore ex (or_introl eq_refl) Hex E).
      * apply IH. intros ex' Hin. apply Hbefore. right. exact Hin.
    + cbn [andb]. apply IH. intros ex' Hin. apply Hbefore. right. exact Hin.
Qed.

Lemma findManualEdit_none (exceptions : list ExceptionRecord) (sess : ClassSession) :
  (forall ex, In ex exceptions -> status ex = modified ->
              originalStart ex <> sessionStartDateTime sess) ->
  findManualEdit exceptions sess = None.
Proof.
  intros Hnone. unfold findManualEdit.
  destruct (find _ exceptions) as [ex|] eqn:E; [exfalso|reflexivity].
  apply find_some in E as [Hin Hex].
  apply andb_true_iff in Hex as [Hanchor Hst]. apply Z.eqb_eq in Hanchor.
  apply (Hnone ex Hin); [destruct (status ex); [reflexivity|discriminate]|exact Hanchor].
Qed.

(** What the map has made of a generated session is in its result. *)
Lemma mapManualEdits_maps (exceptions : list ExceptionRecord)
    (sessions edited : list ClassSession) (sess sess' : ClassSession) :
  mapManualEdits exceptions sessions = Some edited ->
  In sess sessions -> applyManualEdit exceptions sess = Some sess' ->
  In sess' edited.
Proof.
  revert edited.
  induction sessions as [|g rest IH]; intros edited; cbn [mapManualEdits];
    [intros _ []|].
  destruct (applyManualEdit exceptions g) as [g'|] eqn:Eg; [|discriminate].
  destruct (mapManualEdits exceptions rest) as [rest'|]; [|discriminate].
  intros H [<-|Hin] Hsess; injection H as <-.
  - left. congruence.
  - right. exact (IH rest' eq_refl Hin Hsess).
Qed.

Lemma notCancelled_spec (exceptions : list ExceptionRecord) (sess : ClassSession) :
  notCancelled exceptions sess = true <->
  forall ex, In ex exceptions -> status ex = cancelled ->
             originalStart ex <> sessionStartDateTime sess.
Proof.
  unfold notCancelled. rewrite negb_true_iff. split.
  - intros H ex Hin Hst Hanchor.
    assert (existsb (fun ex => (originalStart ex =? sessionStartDateTime sess)
                               && isCancelled (status ex))
                    exceptions = true); [|congruence].
    apply existsb_exists. exists ex. split; [exact Hin|].
    rewrite Hst, Hanchor, Z.eqb_refl. reflexivity.
  - intros H. apply not_true_iff_false. intros E.
    apply existsb_exists in E as (ex & Hin & Hex).
    apply andb_true_iff in Hex as [Hanchor Hst]. apply Z.eqb_eq in Hanchor.
    apply (H ex Hin); [destruct (status ex); [discriminate|reflexivity]|exact Hanchor].
Qed.

(** A session with a manual edit survives the filter whenever no
    cancellation is anchored at the start the edit gave it, whatever is
    anchored at the start it was generated with. *)
Lemma edited_session_outlives_its_cancellation (exceptions : list ExceptionRecord)
    (sess : ClassSession) (edit : ExceptionRecord) (start finish : Z) :
  findManualEdit exceptions sess = Some edit ->
  newStart edit = Some start -> newEnd edit = Some finish ->
  (forall ex, In ex exceptions -> status ex = cancelled -> originalStart ex <> start) ->
  reconcileSessions exceptions [sess] = Ok [mkSession (session_id sess) start finish].
Proof.
  intros Hedit Hs He Hfree.
  unfold reconcileSessions. cbn [mapManualEdits]. unfold applyManualEdit.
  rewrite Hedit, Hs, He. cbn [filter].
  rewrite (proj2 (notCancelled_spec exceptions
                    (mkSession (session_id sess) start finish)) Hfree).
  reflexivity.
Qed.

(** A session that no manual edit touches is dropped when a
    cancellation is anchored at its start. *)
Lemma cancelled_session_is_dropped (exceptions : list ExceptionRecord)
    (sess : ClassSession) (ex : ExceptionRecord) :
  findManualEdit exceptions sess = None ->
  In ex exceptions -> status ex = cancelled ->
  originalStart ex = sessionStartDateTime sess ->
  reconcileSessions exceptions [sess] = Ok [].
Proof.
  intros Hnone Hin Hst Hanchor.
  unfold reconcileSessions. cbn [mapManualEdits]. unfold applyManualEdit.
  rewrite Hnone. cbn [filter].
  assert (Hdrop : notCancelled exceptions sess = false).
  { unfold notCancelled. apply negb_false_iff, existsb_exists.
    exists ex. split; [exact Hin|].
    rewrite Hanchor, Z.eqb_refl, Hst. reflexivity. }
  rewrite Hdrop. reflexivity.
Qed.

(** C1 (as the code has it).  The reconciliation substitutes first and
    filters second, and the filter reads the start a session has after
    the substitution.  In the reconciled sequence no session starts at
    the anchor of a CANCELLED exception.  A generated session with no
    MODIFIED exception anchored at its start is in the sequence exactly
    when no CANCELLED exception is anchored at its start.  A generated
    session whose first MODIFIED exception moves it to a new start and
    end is in the sequence, at those times, exactly when no CANCELLED
    exception is anchored at the new start: a cancellation of the moved
    session wins, one anchored where the session no longer starts does
    not remove it. *)
Theorem reconciliation_filters_after_substitution
    (exceptions : list ExceptionRecord) (generated reconciled : list ClassSession) :
  reconcileSessions exceptions generated = Ok reconciled ->
  (forall session ex,
      In session reconciled -> In ex exceptions -> status ex = cancelled ->
      originalStart ex <> sessionStartDateTime session)
  /\ (forall sess,
        In sess generated ->
        (forall ex, In ex exceptions -> status ex = modified ->
                    originalStart ex <> sessionStartDateTime sess) ->
        (In sess reconciled <->
         forall ex, In ex exceptions -> status ex = cancelled ->
                    originalStart ex <> sessionStartDateTime sess))
  /\ (forall sess before edit after start finish,
        In sess generated ->
        exceptions = before ++ edit :: after ->
        status edit = modified ->
        originalStart edit = sessionStartDateTime sess ->
        (forall ex, In ex before -> status ex = modified ->
                    originalStart ex <> sessionStartDateTime sess) ->
        newStart edit = Some start -> newEnd edit = Some finish ->
        (In (mkSession (session_id sess) start finish) reconciled <->
         forall ex, In ex exceptions -> status ex = cancelled ->
                    originalStart ex <> start)).
Proof.
  unfold reconcileSessions.
  destruct (mapManualEdits exceptions generated) as [edited|] eqn:Hmap;
    [|discriminate].
  intros H. injection H as <-.
  assert (Hkept : forall session ex,
    In session (filter (notCancelled exceptions) edited) ->
    In ex exceptions -> status ex = cancelled ->
    originalStart ex <> sessionStartDateTime session).
  { intros session ex Hin. apply filter_In in Hin as [_ Hkeep].
    exact (proj1 (notCancelled_spec exceptions session) Hkeep ex). }
  split; [exact Hkept|]. split.
  - intros sess Hin Hnone. split.
    + intros Hrec ex. exact (Hkept sess ex Hrec).
    + intros Hfree. apply filter_In. split.
      * apply (mapManualEdits_maps exceptions generated edited sess sess Hmap Hin).
        unfold applyManualEdit.
        rewrite (findManualEdit_none exceptions sess Hnone). reflexivity.
      * apply notCancelled_spec. exact Hfree.
  - intros sess before edit after start finish Hin -> Hst Hanchor Hbefore Hs He.
    split.
    + intros Hrec ex. exact (Hkept _ ex Hrec).
    + intros Hfree. apply filter_In. split.
      * apply (mapManualEdits_maps _ generated edited sess _ Hmap Hin).
        unfold applyManualEdit.
        rewrite (findManualEdit_first before after edit sess Hst Hanchor Hbefore).
        rewrite Hs, He. reflexivity.
      * apply notCancelled_spec. exact Hfree.
Qed.
End Reconciliation.

(** The session generated for 3 November 09:00 was moved to 11:00-12:00.
    With that modification alone it is reconciled to its moved times.
    Once the moved session is cancelled, the cancellation being anchored
    at 11:00 where the session then starts, nothing is left of it. *)
Lemma reconciliation_filters_after_substitution_witness :
  let generated := [mkSession None (Sample.nov3 9 0) (Sample.nov3 10 0)] in
  let calledOff := mkException (Sample.nov3 11 0) cancelled "called off" None None in
  let movedSession := mkSession None (Sample.nov3 11 0) (Sample.nov3 12 0) in
  Controller.reconcileSessions [Sample.moved] generated = Ok [movedSession] /\
  In movedSession [movedSession] /\
  Controller.reconcileSessions [Sample.moved; calledOff] generated = Ok [] /\
  ~ (forall ex, In ex [Sample.moved; calledOff] -> status ex = cancelled ->
                originalStart ex <> Sample.nov3 11 0).
Proof.
  intros generated calledOff movedSession.
  assert (Hmoved : Controller.reconcileSessions [Sample.moved] generated
                   = Ok [movedSession]) by (vm_compute; reflexivity).
  assert (Hoff : Controller.reconcileSessions [Sample.moved; calledOff] generated
                 = Ok []) by (vm_compute; reflexivity).
  destruct (reconciliation_filters_after_substitution [Sample.moved] generated
              [movedSession] Hmoved) as (_ & _ & Hedit).
  destruct (reconciliation_filters_after_substitution [Sample.moved; calledOff]
              generated [] Hoff) as (_ & _ & Hedit').
  split; [exact Hmoved|]. split.
  - apply (proj2 (Hedit (mkSession None (Sample.nov3 9 0) (Sample.nov3 10 0))
                    [] Sample.moved [] (Sample.nov3 11 0) (Sample.nov3 12 0)
                    ltac:(left; reflexivity) eq_refl eq_refl eq_refl
                    ltac:(intros ex []) eq_refl eq_refl)).
    intros ex [<-|[]] Hst. discriminate Hst.
  - split; [exact Hoff|].
    intros Hfree.
    exact (proj2 (Hedit' (mkSession None (Sample.nov3 9 0) (Sample.nov3 10 0))
                    [] Sample.moved [calledOff] (Sample.nov3 11 0) (Sample.nov3 12 0)
                    ltac:(left; reflexivity) eq_refl eq_refl eq_refl
                    ltac:(intros ex []) eq_refl eq_refl) Hfree).
Defined.

(** A session generated for 3 November 09:00 that has both a MODIFIED
    exception (moving it to 11:00-12:00) and a CANCELLED exception
    anchored at 09:00: the reconciled list still holds the session, at
    its moved time, in either order of the two exceptions, and the bulk
    update stores it.  The cancellation does take effect when the
    modification leaves the start where it was, or when there is no
    modification. *)
Lemma cancelled_anchor_resurrected_by_modification :
  let generated := [mkSession None (Sample.nov3 9 0) (Sample.nov3 10 0)] in
  let stretched := mkException (Sample.nov3 9 0) modified "longer"
                     (Some (Sample.nov3 9 0)) (Some (Sample.nov3 11 0)) in
  Controller.reconcileSessions [Sample.moved; Sample.dropped] generated
  = Ok [mkSession None (Sample.nov3 11 0) (Sample.nov3 12 0)] /\
  Controller.reconcileSessions [Sample.dropped; Sample.moved] generated
  = Ok [mkSession None (Sample.nov3 11 0) (Sample.nov3 12 0)] /\
  Controller.reconcileSessions [stretched; Sample.dropped] generated = Ok [] /\
  Controller.reconcileSessions [Sample.dropped] generated = Ok [] /\
  exists updated,
    fst (Controller.updateEntireClassSeries Sample.kathmandu
           (Sample.localClock 2026 10 2 8 0) Sample.storeWithExceptions 101%N
           (mkBody "Physics 101" Sample.drRai Sample.lab1
              (Sample.rule SINGLE_INSTANCE (Sample.nov3 0 0) None
                 [Sample.nineToTen] [])))
    = SeriesUpdated (Some updated) /\
    preGeneratedClassSessions updated
    = [mkSession (Some 200%N) (Sample.nov3 11 0) (Sample.nov3 12 0)].
Proof.
  vm_compute. repeat split. eexists. split; reflexivity.
Qed.

(* ================================================================== *)
(** ** Claims about the single-instance update                          *)
(* ================================================================== *)

Section StoreFacts.
Import Store.

(** What the model validates, spelled out. *)
Lemma validates_spec (doc : ClassDoc) :
  validates doc = true <->
  classTitle doc <> EmptyString /\
  (exists t, seriesStartDate (schedule doc) = Some (Instant t)) /\
  seriesEndDate (schedule doc) <> Some InvalidDate /\
  forall slot, In slot (dailyTimeSlots (schedule doc)) ->
               startTime24h slot <> EmptyString /\ endTime24h slot <> EmptyString.
Proof.
  unfold validates. rewrite !andb_true_iff, forallb_forall, negb_true_iff.
  assert (Hempty : forall s, isEmpty s = false <-> s <> EmptyString).
  { intros [|c s]; cbn; split; congruence. }
  rewrite Hempty.
  split.
  - intros [[[Ht Hs] He] Hslots].
    split; [exact Ht|]. split.
    { destruct (seriesStartDate (schedule doc)) as [[t|]|]; try discriminate.
      now exists t. }
    split.
    { destruct (seriesEndDate (schedule doc)) as [[t|]|]; try discriminate Hs;
        try discriminate He; discriminate. }
    intros slot Hin. specialize (Hslots slot Hin).
    apply andb_true_iff in Hslots as [H1 H2].
    apply negb_true_iff in H1, H2. split; apply Hempty; assumption.
  - intros (Ht & (t & Hs) & He & Hslots).
    split; [split; [split; [exact Ht|rewrite Hs; reflexivity]|]|].
    + destruct (seriesEndDate (schedule doc)) as [[u|]|]; try reflexivity.
      contradiction.
    + intros slot Hin. destruct (Hslots slot Hin) as [H1 H2].
      apply andb_true_iff. split; apply negb_true_iff, Hempty; assumption.
Qed.

Lemma findById_id (db : Database) (id : ObjectId) (doc : ClassDoc) :
  findById db id = Some doc -> doc_id doc = id /\ In doc (classSchedules db).
Proof.
  unfold findById, findOne. intros H. apply find_some in H as [Hin Hid].
  apply N.eqb_eq in Hid. auto.
Qed.

Lemma find_replace (doc : ClassDoc) (docs : list ClassDoc) :
  (exists old, find (fun d => N.eqb (doc_id d) (doc_id doc)) docs = Some old) ->
  find (fun d => N.eqb (doc_id d) (doc_id doc))
       (map (fun old => if N.eqb (doc_id old) (doc_id doc) then doc else old) docs)
  = Some doc.
Proof.
  induction docs as [|d docs IH]; cbn [find map]; intros [old H]; [discriminate|].
  destruct (N.eqb (doc_id d) (doc_id doc)) eqn:E.
  - rewrite N.eqb_refl. reflexivity.
  - rewrite E. apply IH. now exists old.
Qed.

Lemma find_replace_other (doc : ClassDoc) (id : ObjectId) (docs : list ClassDoc) :
  id <> doc_id doc ->
  find (fun d => N.eqb (doc_id d) id)
       (map (fun old => if N.eqb (doc_id old) (doc_id doc) then doc else old) docs)
  = find (fun d => N.eqb (doc_id d) id) docs.
Proof.
  intros Hne. induction docs as [|d docs IH]; cbn [find map]; [reflexivity|].
  destruct (N.eqb_spec (doc_id d) (doc_id doc)) as [E|NE].
  - assert (H1 : N.eqb (doc_id doc) id = false) by (apply N.eqb_neq; congruence).
    assert (H2 : N.eqb (doc_id d) id = false) by (apply N.eqb_neq; congruence).
    rewrite H1, H2. exact IH.
  - destruct (N.eqb (doc_id d) id); [reflexivity|exact IH].
Qed.

(** After [save], the document read back by its id is the saved one. *)
Lemma findById_replaceDoc (db : Database) (doc old : ClassDoc) :
  findById db (doc_id doc) = Some old ->
  findById (replaceDoc doc db) (doc_id doc) = Some doc.
Proof.
  unfold findById, findOne, replaceDoc. cbn [classSchedules]. intros H.
  apply find_replace. now exists old.
Qed.

Lemma findById_replaceDoc_other (db : Database) (doc : ClassDoc) (id : ObjectId) :
  id <> doc_id doc ->
  findById (replaceDoc doc db) id = findById db id.
Proof.
  unfold findById, findOne, replaceDoc. cbn [classSchedules].
  apply find_replace_other.
Qed.

Lemma findById_fresh (db : Database) (id : ObjectId) :
  freshIds db -> (nextObjectId db <= id)%N -> findById db id = None.
Proof.
  unfold freshIds, findById, findOne. intros Hfresh Hid.
  destruct (find _ (classSchedules db)) as [doc|] eqn:E; [exfalso|reflexivity].
  apply find_some in E as [Hin Heq]. apply N.eqb_eq in Heq.
  rewrite Forall_forall in Hfresh. specialize (Hfresh doc Hin). lia.
Qed.

Lemma find_app_new (id : ObjectId) (docs : list ClassDoc) (doc : ClassDoc) :
  find (fun d => N.eqb (doc_id d) id) (docs ++ [doc])
  = match find (fun d => N.eqb (doc_id d) id) docs with
    | Some d => Some d
    | None => if N.eqb (doc_id doc) id then Some doc else None
    end.
Proof.
  induction docs as [|d docs IH]; cbn [find app]; [reflexivity|].
  destruct (N.eqb (doc_id d) id); [reflexivity|exact IH].
Qed.

Lemma sessionById_pull (sessions : list ClassSession) (sessionId : ObjectId) :
  Controller.sessionById (Controller.pull sessions sessionId) sessionId = None.
Proof.
  unfold Controller.sessionById, Controller.pull.
  induction sessions as [|s sessions IH]; cbn [filter find]; [reflexivity|].
  destruct (Controller.hasId sessionId s) eqn:E; cbn [negb find]; [exact IH|].
  rewrite E. exact IH.
Qed.
End StoreFacts.

Section SingleInstance.
Import Store Controller.
Variable tz : Z.

End SingleInstance.


Section Detach.
Import Store Controller.
Variable tz : Z.

(** C8. After a successful detach: the parent was a stored series of a
    kind other than SINGLE and held the session; a new series of kind
    SINGLE is stored under a fresh id with exactly one session, running
    from the start of the request when it gives one and from the
    session's own start otherwise, and likewise for the end, with the
    instructor and the room of the request where given and the parent's
    otherwise; the stored parent has one more exception, a CANCELLED
    one anchored at the start the session had in the parent, and no
    longer holds the session. *)
Theorem detach_moves_session_to_new_series (db db' : Database)
    (seriesId sessionId parentSeriesId : ObjectId) (body : InstanceBody)
    (newClass : ClassDoc) :
  freshIds db ->
  updateSingleInstance tz db seriesId sessionId body
  = (DetachedSuccessfully newClass parentSeriesId, db') ->
  exists series session,
    findById db seriesId = Some series /\
    recurrenceType (schedule series) <> SINGLE_INSTANCE /\
    sessionById (preGeneratedClassSessions series) sessionId = Some session /\
    parentSeriesId = doc_id series /\
    (* the new series *)
    findById db (doc_id newClass) = None /\
    findById db' (doc_id newClass) = Some newClass /\
    recurrenceType (schedule newClass) = SINGLE_INSTANCE /\
    exceptions newClass = [] /\
    preGeneratedClassSessions newClass
    = [mkSession (Some (N.succ (nextObjectId db)))
         match req_newStart body with
         | Some start => start
         | None => sessionStartDateTime session
         end
         match req_newEnd body with
         | Some finish => finish
         | None => sessionEndDateTime session
         end] /\
    assignedInstructor newClass
    = match req_assignedInstructor body with
      | Some given => given
      | None => assignedInstructor series
      end /\
    assignedRoom newClass
    = match req_assignedRoom body with
      | Some given => given
      | None => assignedRoom series
      end /\
    (* the parent *)
    exists parent',
      findById db' seriesId = Some parent' /\
      exceptions parent'
      = exceptions series
        ++ [mkException (sessionStartDateTime session) cancelled
              (req_reason body) None None] /\
      preGeneratedClassSessions parent'
      = pull (preGeneratedClassSessions series) sessionId /\
      sessionById (preGeneratedClassSessions parent') sessionId = None /\
      assignedInstructor parent' = assignedInstructor series /\
      assignedRoom parent' = assignedRoom series.
Proof.
  intros Hfresh. unfold updateSingleInstance.
  destruct (findById db seriesId) as [series|] eqn:Hfind; [|discriminate].
  destruct (findById_id db seriesId series Hfind) as [Hid Hin].
  destruct (Generator.isNone (recurrenceType (schedule series))) eqn:Ekind.
  { destruct (assignToFirst (req_newStart body) withStart _); [|discriminate].
    destruct (assignToFirst (req_newEnd body) withEnd _); [|discriminate].
    destruct (validates _); discriminate. }
  destruct (sessionById (preGeneratedClassSessions series) sessionId)
    as [session|] eqn:Esession; [|discriminate].
  destruct (DualQuery.findDetailedSchedulingConflict _ _ _ _ _) as [[c|]|e];
    try discriminate.
  unfold create. cbn [assignSessionIds session_id].
  destruct (validates _); [|discriminate].
  destruct (validates _); [|discriminate].
  intros H. injection H as <- <- <-.
  exists series, session.
  assert (Hlt : (doc_id series < nextObjectId db)%N).
  { unfold freshIds in Hfresh. rewrite Forall_forall in Hfresh. auto. }
  split; [reflexivity|].
  split; [intros E; rewrite E in Ekind; discriminate|].
  split; [exact Esession|]. split; [reflexivity|].
  unfold orElse.
  cbn [doc_id schedule recurrenceType exceptions preGeneratedClassSessions
       assignedInstructor assignedRoom sessionStartDateTime sessionEndDateTime].
  split; [apply findById_fresh; [exact Hfresh|lia]|].
  split.
  { rewrite findById_replaceDoc_other by (cbn [doc_id]; lia).
    unfold findById, findOne. cbn [classSchedules].
    rewrite find_app_new.
    fold (findOne (fun doc => N.eqb (doc_id doc) (nextObjectId db)) db).
    fold (findById db (nextObjectId db)).
    rewrite (findById_fresh db (nextObjectId db) Hfresh) by lia.
    cbn [doc_id]. rewrite N.eqb_refl. reflexivity. }
  repeat (split; [reflexivity|]).
  eexists. split.
  { rewrite <- Hid.
    match goal with
    | |- findById (replaceDoc ?d ?s) _ = _ =>
        apply (findById_replaceDoc s d series)
    end.
    cbn [doc_id]. unfold findById, findOne. cbn [classSchedules].
    rewrite find_app_new.
    fold (findOne (fun doc => N.eqb (doc_id doc) (doc_id series)) db).
    fold (findById db (doc_id series)).
    rewrite Hid, Hfind. reflexivity. }
  cbn [exceptions preGeneratedClassSessions assignedInstructor assignedRoom].
  split; [reflexivity|]. split; [reflexivity|].
  split; [apply sessionById_pull|]. split; reflexivity.
Qed.
End Detach.

(** The second Wednesday of "Algebra" (11 November, 14:00-15:00, taught
    by Dr. Sen in Lab 2) is detached to 16:00-17:00 in Lab 1 with a new
    title: the new class holds that one session under a fresh id, keeps
    the instructor of the parent and has the room of the request; the
    parent keeps its first Wednesday and remembers a cancellation
    anchored at 14:00. *)
Lemma detach_moves_session_to_new_series_witness :
  let body := mkInstanceBody (Some (Sample.localClock 2026 10 11 16 0))
                (Some (Sample.localClock 2026 10 11 17 0))
                "moved to the lab" (Some " Algebra lab"%string) None
                (Some Sample.lab1) in
  let outcome := Controller.updateSingleInstance Sample.kathmandu Sample.store
                   105%N 107%N body in
  let newClass :=
    mkClass 200%N "Algebra lab" Sample.drSen Sample.lab1
      (mkPayload (Some (Instant (Sample.localClock 2026 10 11 16 0)))
                 (Some (Instant (Sample.localClock 2026 10 11 17 0)))
                 SINGLE_INSTANCE [mkSlot "16:00" "17:00"] [] [] 1 [])
      [mkSession (Some 201%N) (Sample.localClock 2026 10 11 16 0)
                 (Sample.localClock 2026 10 11 17 0)] [] in
  Store.freshIds Sample.store /\
  fst outcome = DetachedSuccessfully newClass 105%N /\
  Store.findById (snd outcome) 200%N = Some newClass /\
  exists parent',
    Store.findById (snd outcome) 105%N = Some parent' /\
    exceptions parent'
    = [mkException (Sample.localClock 2026 10 11 14 0) cancelled
         "moved to the lab" None None] /\
    preGeneratedClassSessions parent'
    = [mkSession (Some 106%N) (Sample.localClock 2026 10 4 14 0)
                 (Sample.localClock 2026 10 4 15 0)] /\
    Controller.sessionById (preGeneratedClassSessions parent') 107%N = None.
Proof.
  intros body outcome newClass.
  assert (Hfresh : Store.freshIds Sample.store).
  { unfold Store.freshIds. cbn. repeat constructor. }
  assert (Hout : exists db',
             Controller.updateSingleInstance Sample.kathmandu Sample.store
               105%N 107%N body = (DetachedSuccessfully newClass 105%N, db')).
  { eexists. vm_compute. reflexivity. }
  destruct Hout as (db' & Hout).
  split; [exact Hfresh|].
  split; [unfold outcome; rewrite Hout; reflexivity|].
  destruct (detach_moves_session_to_new_series Sample.kathmandu Sample.store db'
              105%N 107%N 105%N body newClass Hfresh Hout)
    as (series & session & Hs & _ & Hsess & _ & _ & Hnew & _ & _ & _ & _ & _ &
        parent' & Hp & Hex & Hpull & Hgone & _).
  unfold outcome. rewrite Hout. cbn [snd].
  split; [exact Hnew|].
  exists parent'. split; [exact Hp|].
  assert (Hseries : series = Sample.algebra).
  { vm_compute in Hs. injection Hs as <-. reflexivity. }
  subst series.
  assert (Hsession : session = mkSession (Some 107%N) (Sample.localClock 2026 10 11 14 0)
                                 (Sample.localClock 2026 10 11 15 0)).
  { vm_compute in Hsess. injection Hsess as <-. reflexivity. }
  subst session.
  split; [rewrite Hex; reflexivity|]. split; [rewrite Hpull; reflexivity|exact Hgone].
Defined.

(* ================================================================== *)
(** ** Time fields: the schema, the parser and the formatter            *)
(* ================================================================== *)

Section TimeFields.
Import Calendar Generator.
Variable tz : Z.

Lemma digitValue_range (c : ascii) (d : Z) :
  digitValue c = Some d -> 0 <= d <= 9.
Proof.
  unfold digitValue.
  destruct ((48 <=? Z.of_nat (nat_of_ascii c)) && (Z.of_nat (nat_of_ascii c) <=? 57))
    eqn:E; [|discriminate].
  intros H. injection H as <-.
  apply andb_true_iff in E as [H1 H2]. lia.
Qed.

Lemma digit_is_no_colon (c : ascii) (d : Z) :
  digitValue c = Some d -> Ascii.eqb c ":"%char = false.
Proof.
  intros H. destruct (Ascii.eqb_spec c ":"%char) as [->|]; [|reflexivity].
  vm_compute in H. discriminate.
Qed.

(** A string that the schema's pattern accepts splits into an hour of
    0..23 and a minute of 0..59. *)
Lemma matchesHHmm_parse (s : string) :
  Schema.matchesHHmm s = true ->
  exists h m,
    parseHourMinute s = (Some h, Some m) /\ 0 <= h <= 23 /\ 0 <= m <= 59.
Proof.
  unfold Schema.matchesHHmm.
  destruct s as [|h1 [|h2 [|colon [|m1 [|m2 [|c rest]]]]]]; try discriminate.
  destruct (digitValue h1) as [a|] eqn:Ea; [|discriminate].
  destruct (digitValue h2) as [b|] eqn:Eb; [|discriminate].
  destruct (digitValue m1) as [c|] eqn:Ec; [|discriminate].
  destruct (digitValue m2) as [d|] eqn:Ed; [|discriminate].
  intros H. apply andb_true_iff in H as [H Hc].
  apply andb_true_iff in H as [Hh Hcolon].
  exists (10 * (10 * 0 + a) + b), (10 * (10 * 0 + c) + d).
  pose proof (digitValue_range _ _ Ea) as Ra.
  pose proof (digitValue_range _ _ Eb) as Rb.
  pose proof (digitValue_range _ _ Ec) as Rc.
  pose proof (digitValue_range _ _ Ed) as Rd.
  split; [|split].
  - unfold parseHourMinute. cbn [splitColon].
    rewrite (digit_is_no_colon _ _ Ea), (digit_is_no_colon _ _ Eb), Hcolon,
      (digit_is_no_colon _ _ Ec), (digit_is_no_colon _ _ Ed).
    cbn [map]. unfold Number. cbn [digitsValue].
    rewrite Ea, Eb, Ec, Ed. reflexivity.
  - apply orb_true_iff in Hh as [Hh|Hh]; [lia|].
    apply andb_true_iff in Hh as [Ha2 Hb3]. lia.
  - apply Z.leb_le in Hc. lia.
Qed.

Lemma timeSlotSchema_startsWithinDay (slot : TimeSlot) :
  Schema.timeSlotSchema slot = true -> startsWithinDay slot.
Proof.
  unfold Schema.timeSlotSchema. intros H. apply andb_true_iff in H as [Hs _].
  apply matchesHHmm_parse in Hs as (h & m & Hp & Hh & Hm).
  exists h, m. split; [exact Hp|lia].
Qed.

End TimeFields.

Section ClockRoundTrip.
Import Calendar Generator.
Variable tz : Z.

Lemma digitValue_digitChar (d : Z) :
  0 <= d <= 9 -> digitValue (JsTime.digitChar d) = Some d.
Proof.
  intros H.
  assert (C : d = 0 \/ d = 1 \/ d = 2 \/ d = 3 \/ d = 4 \/ d = 5 \/ d = 6 \/
              d = 7 \/ d = 8 \/ d = 9) by lia.
  repeat (destruct C as [->|C]; [reflexivity|]). subst d. reflexivity.
Qed.

Lemma getHours_bounds (t : Z) : 0 <= JsTime.getHours tz t <= 23.
Proof.
  unfold JsTime.getHours, JsTime.TimeWithinDay, msPerDay, msPerHour.
  generalize (JsTime.LocalTime tz t). intros x. divlia.
Qed.

Lemma getMinutes_bounds (t : Z) : 0 <= JsTime.getMinutes tz t <= 59.
Proof.
  unfold JsTime.getMinutes, JsTime.TimeWithinDay, msPerDay, msPerHour, msPerMinute.
  generalize (JsTime.LocalTime tz t). intros x. divlia.
Qed.

Lemma twoDigits_value (n : Z) :
  0 <= n <= 99 ->
  exists a b,
    JsTime.twoDigits n = String a (String b EmptyString) /\
    digitValue a = Some (n / 10) /\ digitValue b = Some (n mod 10).
Proof.
  intros H. exists (JsTime.digitChar (n / 10)), (JsTime.digitChar (n mod 10)).
  split; [reflexivity|].
  split; apply digitValue_digitChar; divlia.
Qed.

(** The text that [format(t, "HH:mm")] gives is accepted by the
    schema's pattern and reads back as the hour and minute of [t]. *)
Lemma formatHHmm_parse (t : Z) :
  Schema.matchesHHmm (JsTime.formatHHmm tz t) = true /\
  parseHourMinute (JsTime.formatHHmm tz t)
  = (Some (JsTime.getHours tz t), Some (JsTime.getMinutes tz t)).
Proof.
  pose proof (getHours_bounds t) as Hh. pose proof (getMinutes_bounds t) as Hm.
  unfold JsTime.formatHHmm.
  destruct (twoDigits_value (JsTime.getHours tz t)) as (a & b & E1 & Ea & Eb); [lia|].
  destruct (twoDigits_value (JsTime.getMinutes tz t)) as (c & d & E2 & Ec & Ed); [lia|].
  rewrite E1, E2. cbn [String.append].
  split.
  - unfold Schema.matchesHHmm. rewrite Ea, Eb, Ec, Ed.
    rewrite Ascii.eqb_refl, andb_true_r.
    apply andb_true_iff. split; [|apply Z.leb_le; divlia].
    apply orb_true_iff.
    destruct (Z.leb_spec (JsTime.getHours tz t / 10) 1) as [L|L]; [now left|right].
    apply andb_true_iff. split; [apply Z.eqb_eq|apply Z.leb_le]; divlia.
  - unfold parseHourMinute. cbn [splitColon].
    rewrite (digit_is_no_colon _ _ Ea), (digit_is_no_colon _ _ Eb),
      (digit_is_no_colon _ _ Ec), (digit_is_no_colon _ _ Ed).
    change (Ascii.eqb ":"%char ":"%char) with true.
    cbn [map]. unfold Number. cbn [digitsValue].
    rewrite Ea, Eb, Ec, Ed. f_equal; (f_equal; divlia).
Qed.

(** Setting the clock of a day to the hour and minute of an instant of
    that day gives the instant, cut to the whole minute. *)
Lemma setHours_own_clock (t u : Z) :
  JsTime.Day (JsTime.LocalTime tz t) = JsTime.Day (JsTime.LocalTime tz u) ->
  JsTime.setHours tz t (JsTime.getHours tz u) (JsTime.getMinutes tz u) 0 0
  = u - u mod msPerMinute.
Proof.
  unfold JsTime.setHours, JsTime.getHours, JsTime.getMinutes, JsTime.UTC,
    JsTime.MakeDate, JsTime.MakeTime, JsTime.TimeWithinDay, JsTime.Day,
    JsTime.LocalTime, msPerDay, msPerHour, msPerMinute, msPerSecond.
  intros ->. divlia.
Qed.

End ClockRoundTrip.

Section ValidatedSlots.
Import Calendar Generator.
Variable tz : Z.

(** X1. A time slot that the route's schema accepts always parses: on
    every day the session helper either accepts it or rejects it for
    its range or its duration, never for its format.  A session made
    from it starts and ends on the local calendar day of the date it
    is placed on, and lasts at least 30 minutes and less than a day. *)
Theorem validated_slot_stays_within_its_day (slot : TimeSlot) (baseDate : Z) :
  Schema.timeSlotSchema slot = true ->
  (forall startTime endTime,
      createValidClassSessionFromDateAndTimes tz baseDate
        (startTime24h slot) (endTime24h slot)
      <> Throw (InvalidTimeFormat startTime endTime)) /\
  (forall session,
      createValidClassSessionFromDateAndTimes tz baseDate
        (startTime24h slot) (endTime24h slot) = Ok session ->
      JsTime.Day (JsTime.LocalTime tz (sessionStartDateTime session))
      = JsTime.Day (JsTime.LocalTime tz baseDate) /\
      JsTime.Day (JsTime.LocalTime tz (sessionEndDateTime session))
      = JsTime.Day (JsTime.LocalTime tz baseDate) /\
      30 * msPerMinute
      <= sessionEndDateTime session - sessionStartDateTime session < msPerDay).
Proof.
  unfold Schema.timeSlotSchema. intros H. apply andb_true_iff in H as [Hs He].
  apply matchesHHmm_parse in Hs as (sh & sm & Ps & Hsh & Hsm).
  apply matchesHHmm_parse in He as (eh & em & Pe & Heh & Hem).
  rewrite (createValid_parsed tz baseDate _ _ sh sm eh em Ps Pe).
  split.
  - intros startTime endTime.
    destruct (eh * 60 + em <=? sh * 60 + sm); [discriminate|].
    destruct (eh * 60 + em - (sh * 60 + sm) <? 30); discriminate.
  - intros session.
    destruct (Z.leb_spec (eh * 60 + em) (sh * 60 + sm)) as [L|L]; [discriminate|].
    destruct (Z.ltb_spec (eh * 60 + em - (sh * 60 + sm)) 30) as [D|D]; [discriminate|].
    intros E. injection E as <-.
    cbn [sessionStartDateTime sessionEndDateTime].
    split; [apply setHours_same_day; lia|].
    split; [apply setHours_same_day; lia|].
    rewrite setHours_difference. unfold msPerMinute, msPerDay. lia.
Qed.

(** X2. The "HH:mm" text that a detached class stores for an instant is
    accepted by the schema's pattern, is read by the session helper's
    parser as the local hour and minute of that instant, and setting
    the clock of the instant's own day to them gives the instant cut
    to the whole minute. *)
Theorem formatted_time_reads_back (t : Z) :
  Schema.matchesHHmm (JsTime.formatHHmm tz t) = true /\
  parseHourMinute (JsTime.formatHHmm tz t)
  = (Some (JsTime.getHours tz t), Some (JsTime.getMinutes tz t)) /\
  JsTime.setHours tz t (JsTime.getHours tz t) (JsTime.getMinutes tz t) 0 0
  = t - t mod msPerMinute.
Proof.
  destruct (formatHHmm_parse tz t) as [Hm Hp].
  split; [exact Hm|]. split; [exact Hp|].
  apply setHours_own_clock. reflexivity.
Qed.

(** The rule that a detach stores with the new class, expanded again:
    one session from the start to the end, when both are whole minutes
    of one local day at least 30 minutes apart and the start is far
    enough ahead. *)
Lemma single_rule_regenerates (now start finish : Z) :
  start mod msPerMinute = 0 ->
  finish mod msPerMinute = 0 ->
  JsTime.Day (JsTime.LocalTime tz start) = JsTime.Day (JsTime.LocalTime tz finish) ->
  start + 30 * msPerMinute <= finish ->
  now + 30 * msPerMinute <= start ->
  generateAllClassSessions tz now
    (mkPayload (Some (Instant start)) (Some (Instant finish)) SINGLE_INSTANCE
       [mkSlot (JsTime.formatHHmm tz start) (JsTime.formatHHmm tz finish)]
       [] [] 1 [])
  = Ok [mkSession None start finish].
Proof.
  intros Hs Hf Hday Hlen Hnow.
  unfold generateAllClassSessions, collectSessions, standardSessions.
  cbn [dailyTimeSlots recurrenceType seriesStartDate seriesEndDate newDate].
  destruct (walkFuel start (Instant finish)) as [|n] eqn:Efuel.
  { apply walkFuel_zero in Efuel. cbn [dateLe] in Efuel.
    apply Z.leb_gt in Efuel. unfold msPerMinute in Hlen. lia. }
  cbn [standardWalk dateLe].
  assert (Hle : (start <=? finish) = true)
    by (apply Z.leb_le; unfold msPerMinute in Hlen; lia).
  rewrite Hle.
  unfold shouldIncludeThisDay. cbn [recurrenceType isNone].
  unfold forEachSlot. cbn [fold_left dailyTimeSlots].
  unfold pushSlotSession. cbn [startTime24h endTime24h].
  destruct (formatHHmm_parse tz start) as [_ Ps].
  destruct (formatHHmm_parse tz finish) as [_ Pf].
  rewrite (createValid_parsed tz start _ _ _ _ _ _ Ps Pf).
  pose proof (setHours_own_clock tz start start eq_refl) as Cs.
  pose proof (setHours_own_clock tz start finish Hday) as Cf.
  rewrite Hs in Cs. rewrite Hf in Cf. rewrite Z.sub_0_r in Cs, Cf.
  pose proof (setHours_difference tz start
                (JsTime.getHours tz start) (JsTime.getMinutes tz start)
                (JsTime.getHours tz finish) (JsTime.getMinutes tz finish)) as D.
  rewrite Cs, Cf in D. rewrite Cs, Cf.
  set (sc := JsTime.getHours tz start * 60 + JsTime.getMinutes tz start) in *.
  set (fc := JsTime.getHours tz finish * 60 + JsTime.getMinutes tz finish) in *.
  unfold msPerMinute in *.
  destruct (Z.leb_spec fc sc) as [L|L]; [lia|].
  destruct (Z.ltb_spec (fc - sc) 30) as [S|S]; [lia|].
  cbn [sessionStartDateTime]. unfold JsTime.addMinutes, msPerMinute.
  destruct (Z.leb_spec (now + 30 * 60000) start) as [B|B]; [reflexivity|lia].
Qed.

End ValidatedSlots.

Section DetachedRule.
Import Calendar Generator Store Controller.
Variable tz : Z.

(** What a successful detach has read and written. *)
Lemma detach_result (db db' : Database) (seriesId sessionId parentSeriesId : ObjectId)
    (body : InstanceBody) (newClass : ClassDoc) :
  updateSingleInstance tz db seriesId sessionId body
  = (DetachedSuccessfully newClass parentSeriesId, db') ->
  exists series session,
    let finalStart := orElse (req_newStart body) (sessionStartDateTime session) in
    let finalEnd := orElse (req_newEnd body) (sessionEndDateTime session) in
    let instructor :=
      orElse (req_assignedInstructor body) (assignedInstructor series) in
    let room := orElse (req_assignedRoom body) (assignedRoom series) in
    findById db seriesId = Some series /\
    isNone (recurrenceType (schedule series)) = false /\
    sessionById (preGeneratedClassSessions series) sessionId = Some session /\
    DualQuery.findDetailedSchedulingConflict db
      [mkSession None finalStart finalEnd] room instructor (Some seriesId)
    = Ok None /\
    newClass
    = mkClass (nextObjectId db)
        (trim (orElseString (req_classTitle body) (classTitle series))) instructor room
        (mkPayload (Some (Instant finalStart)) (Some (Instant finalEnd))
           SINGLE_INSTANCE
           [mkSlot (JsTime.formatHHmm tz finalStart) (JsTime.formatHHmm tz finalEnd)]
           [] [] 1 [])
        [mkSession (Some (N.succ (nextObjectId db))) finalStart finalEnd] [] /\
    db'
    = replaceDoc
        (mkClass (doc_id series) (classTitle series) (assignedInstructor series)
           (assignedRoom series) (schedule series)
           (pull (preGeneratedClassSessions series) sessionId)
           (exceptions series
            ++ [mkException (sessionStartDateTime session) cancelled
                  (req_reason body) None None]))
        (mkDb (classSchedules db ++ [newClass]) (instructors db) (physicalRooms db)
              (N.succ (N.succ (nextObjectId db)))) /\
    validates newClass = true /\
    validates series = true.
Proof.
  unfold updateSingleInstance.
  destruct (findById db seriesId) as [series|] eqn:Hfind; [|discriminate].
  destruct (isNone (recurrenceType (schedule series))) eqn:Ekind.
  { destruct (assignToFirst (req_newStart body) withStart _); [|discriminate].
    destruct (assignToFirst (req_newEnd body) withEnd _); [|discriminate].
    destruct (validates _); discriminate. }
  destruct (sessionById (preGeneratedClassSessions series) sessionId)
    as [session|] eqn:Esession; [|discriminate].
  destruct (DualQuery.findDetailedSchedulingConflict _ _ _ _ _) as [[c|]|e] eqn:Efree;
    try discriminate.
  unfold create. cbn [assignSessionIds session_id].
  destruct (validates _) eqn:Enew; [|discriminate].
  match goal with
  | |- context [if validates ?d then _ else _] => destruct (validates d) eqn:Eparent
  end; [|discriminate].
  intros H. injection H as <- <- <-.
  exists series, session. cbv zeta.
  repeat (split; [reflexivity || assumption|]). exact Eparent.
Qed.

(** X3. The recurrence rule stored with a detached class describes the
    session stored with it: when the session starts and ends on whole
    minutes of one local day, lasts at least 30 minutes and is still
    30 minutes ahead, expanding the stored rule gives exactly that
    session. *)
Theorem detached_rule_regenerates_its_session (now : Z) (db db' : Database)
    (seriesId sessionId parentSeriesId : ObjectId) (body : InstanceBody)
    (newClass : ClassDoc) (stored : ClassSession) :
  updateSingleInstance tz db seriesId sessionId body
  = (DetachedSuccessfully newClass parentSeriesId, db') ->
  In stored (preGeneratedClassSessions newClass) ->
  sessionStartDateTime stored mod msPerMinute = 0 ->
  sessionEndDateTime stored mod msPerMinute = 0 ->
  JsTime.Day (JsTime.LocalTime tz (sessionStartDateTime stored))
  = JsTime.Day (JsTime.LocalTime tz (sessionEndDateTime stored)) ->
  sessionStartDateTime stored + 30 * msPerMinute <= sessionEndDateTime stored ->
  now + 30 * msPerMinute <= sessionStartDateTime stored ->
  generateAllClassSessions tz now (schedule newClass)
  = Ok [mkSession None (sessionStartDateTime stored) (sessionEndDateTime stored)].
Proof.
  intros Hout Hin Hs Hf Hday Hlen Hnow.
  apply detach_result in Hout as (series & session & _ & _ & _ & _ & Hnew & _).
  cbv zeta in Hnew. subst newClass.
  cbn [preGeneratedClassSessions In] in Hin. destruct Hin as [<-|[]].
  cbn [schedule sessionStartDateTime sessionEndDateTime] in *.
  now apply single_rule_regenerates.
Qed.

End DetachedRule.

(** The slot 09:00-10:00 on 3 November 2026. *)
Lemma validated_slot_stays_within_its_day_witness :
  Schema.timeSlotSchema Sample.nineToTen = true /\
  forall session,
    Generator.createValidClassSessionFromDateAndTimes Sample.kathmandu
      (Sample.nov3 0 0) "09:00" "10:00" = Ok session ->
    JsTime.Day (JsTime.LocalTime Sample.kathmandu (sessionStartDateTime session))
    = JsTime.Day (JsTime.LocalTime Sample.kathmandu (Sample.nov3 0 0)).
Proof.
  split; [reflexivity|].
  intros session H.
  exact (proj1 (proj2 (validated_slot_stays_within_its_day Sample.kathmandu
                         Sample.nineToTen (Sample.nov3 0 0) eq_refl) session H)).
Defined.

(** The second Wednesday of "Algebra", detached to 16:00-17:00 in Lab 1
    and expanded again on 1 November. *)
Lemma detached_rule_regenerates_its_session_witness :
  let body := mkInstanceBody (Some (Sample.localClock 2026 10 11 16 0))
                (Some (Sample.localClock 2026 10 11 17 0))
                "moved to the lab" None None (Some Sample.lab1) in
  let outcome := Controller.updateSingleInstance Sample.kathmandu Sample.store
                   105%N 107%N body in
  exists newClass,
    fst outcome = DetachedSuccessfully newClass 105%N /\
    Generator.generateAllClassSessions Sample.kathmandu
      (Sample.localClock 2026 10 1 8 0) (schedule newClass)
    = Ok [mkSession None (Sample.localClock 2026 10 11 16 0)
                         (Sample.localClock 2026 10 11 17 0)].
Proof.
  intros body outcome.
  assert (Hout : exists newClass db',
             Controller.updateSingleInstance Sample.kathmandu Sample.store
               105%N 107%N body = (DetachedSuccessfully newClass 105%N, db')).
  { eexists. eexists. vm_compute. reflexivity. }
  destruct Hout as (newClass & db' & Hout).
  exists newClass. split; [unfold outcome; rewrite Hout; reflexivity|].
  destruct (detach_result Sample.kathmandu _ _ _ _ _ _ _ Hout)
    as (series & session & _ & _ & _ & _ & Hnew & _).
  apply (detached_rule_regenerates_its_session Sample.kathmandu
           (Sample.localClock 2026 10 1 8 0) Sample.store db' 105%N 107%N 105%N
           body newClass
           (mkSession (Some 201%N) (Sample.localClock 2026 10 11 16 0)
                      (Sample.localClock 2026 10 11 17 0)) Hout).
  - rewrite Hnew. left. reflexivity.
  - reflexivity.
  - reflexivity.
  - reflexivity.
  - vm_compute. discriminate.
  - vm_compute. discriminate.
Defined.

(* ================================================================== *)
(** ** The days each kind of rule matches                               *)
(* ================================================================== *)

Section MatchedDays.
Import Calendar Generator.
Variable tz : Z.

(** The days a repeating standard rule emits sessions for: the days of
    the walk that pass the test of the kind. *)
Lemma repeating_matched_days (payload : SchedulePayload) (start finish day : Z) :
  isNone (recurrenceType payload) = false ->
  recurrenceType payload <> CUSTOM ->
  seriesStartDate payload = Some (Instant start) ->
  seriesEndDate payload = Some (Instant finish) ->
  In day (matchedDays tz payload) <->
  (exists k, 0 <= k /\ day = start + k * msPerDay /\ day <= finish) /\
  shouldIncludeThisDay tz payload start day = true.
Proof.
  intros Hnone Hkind Hstart Hend. unfold matchedDays.
  rewrite Hstart, Hend. cbn [newDate].
  destruct (recurrenceType payload) eqn:E; try discriminate; try contradiction;
    cbn [isNone]; rewrite filter_In, visitedDays_spec; reflexivity.
Qed.

(** A remainder of a count of days or weeks by an interval of at least
    one is zero exactly for the multiples of the interval. *)
Lemma remainderIsZero_multiple (a n : Z) :
  0 <= a -> 1 <= n ->
  remainderIsZero a n = true <-> exists j, 0 <= j /\ a = j * n.
Proof.
  intros Ha Hn. unfold remainderIsZero.
  destruct (Z.eqb_spec n 0) as [E|_]; [lia|].
  rewrite Z.eqb_eq, Z.rem_mod_nonneg by lia.
  split.
  - intros H. exists (a / n). split; [apply Z.div_pos; lia|].
    pose proof (Z.div_mod a n ltac:(lia)). lia.
  - intros (j & _ & ->). apply Z.mod_mul. lia.
Qed.

Lemma getDay_shift (t k : Z) :
  JsTime.getDay tz (t + k * msPerDay) = (JsTime.getDay tz t + k) mod 7.
Proof.
  unfold JsTime.getDay, WeekDay, JsTime.LocalTime.
  replace (t + k * msPerDay + tz * msPerMinute)
    with ((t + tz * msPerMinute) + k * msPerDay) by ring.
  rewrite Day_shift.
  rewrite Zplus_mod_idemp_l. f_equal. ring.
Qed.

(** The days of a DAILY rule with an interval of [n >= 1]: the start
    day and every [n]-th day after it, up to the end boundary. *)
Lemma daily_days (payload : SchedulePayload) (start finish day : Z) :
  recurrenceType payload = DAILY ->
  seriesStartDate payload = Some (Instant start) ->
  seriesEndDate payload = Some (Instant finish) ->
  1 <= repeatEveryXWeeksOrDays payload ->
  In day (matchedDays tz payload) <->
  exists j, 0 <= j /\
            day = start + j * repeatEveryXWeeksOrDays payload * msPerDay /\
            day <= finish.
Proof.
  intros Hkind Hstart Hend Hn.
  rewrite (repeating_matched_days payload start finish day)
    by (rewrite ?Hkind; try reflexivity; try discriminate; assumption).
  unfold shouldIncludeThisDay. rewrite Hkind.
  split.
  - intros [(k & Hk & -> & Hle) Hinc].
    rewrite differenceInDays_walk in Hinc by exact Hk.
    apply remainderIsZero_multiple in Hinc as (j & Hj & ->); [|exact Hk|exact Hn].
    exists j. auto.
  - intros (j & Hj & -> & Hle).
    assert (Hk : 0 <= j * repeatEveryXWeeksOrDays payload) by nia.
    split; [exists (j * repeatEveryXWeeksOrDays payload); auto|].
    rewrite differenceInDays_walk by exact Hk.
    apply remainderIsZero_multiple; [exact Hk|exact Hn|]. exists j. auto.
Qed.

(** The days of a WEEKLY rule with an interval of [n >= 1]: weeks are
    counted in blocks of seven days from the start date; a day of the
    walk is matched exactly when the number of its block is a multiple
    of [n] and its weekday is selected. *)
Lemma weekly_days (payload : SchedulePayload) (start finish day : Z) :
  recurrenceType payload = WEEKLY ->
  seriesStartDate payload = Some (Instant start) ->
  seriesEndDate payload = Some (Instant finish) ->
  1 <= repeatEveryXWeeksOrDays payload ->
  In day (matchedDays tz payload) <->
  exists k, 0 <= k /\ day = start + k * msPerDay /\ day <= finish /\
            (exists j, 0 <= j /\ k / 7 = j * repeatEveryXWeeksOrDays payload) /\
            In ((JsTime.getDay tz start + k) mod 7) (selectedWeekdays payload).
Proof.
  intros Hkind Hstart Hend Hn.
  rewrite (repeating_matched_days payload start finish day)
    by (rewrite ?Hkind; try reflexivity; try discriminate; assumption).
  unfold shouldIncludeThisDay. rewrite Hkind.
  split.
  - intros [(k & Hk & -> & Hle) Hinc].
    apply andb_true_iff in Hinc as [Hweek Hday].
    rewrite differenceInWeeks_walk in Hweek by exact Hk.
    apply remainderIsZero_multiple in Hweek;
      [|apply Z.div_pos; lia|exact Hn].
    apply includes_In in Hday. rewrite getDay_shift in Hday.
    exists k. auto.
  - intros (k & Hk & -> & Hle & Hweek & Hday).
    split; [exists k; auto|].
    apply andb_true_iff. split.
    + rewrite differenceInWeeks_walk by exact Hk.
      apply remainderIsZero_multiple; [apply Z.div_pos; lia|exact Hn|exact Hweek].
    + apply includes_In. rewrite getDay_shift. exact Hday.
Qed.

(** The days of the pattern mode of CUSTOM (no manual dates, start not
    after end): the interval is raised to at least one, and an empty
    weekday selection selects every weekday; otherwise the days are
    those of the WEEKLY rule. *)
Lemma custom_pattern_days (payload : SchedulePayload)
    (start finish day : Z) :
  recurrenceType payload = CUSTOM ->
  manuallyChosenDates payload = [] ->
  seriesStartDate payload = Some (Instant start) ->
  seriesEndDate payload = Some (Instant finish) ->
  start <= finish ->
  In day (matchedDays tz payload) <->
  exists k, 0 <= k /\ day = start + k * msPerDay /\ day <= finish /\
            (exists j, 0 <= j /\
                       k / 7 = j * Z.max 1 (repeatEveryXWeeksOrDays payload)) /\
            (selectedWeekdays payload = [] \/
             In ((JsTime.getDay tz start + k) mod 7) (selectedWeekdays payload)).
Proof.
  intros Hkind Hmanual Hstart Hend Hle.
  unfold matchedDays. rewrite Hkind, Hmanual, Hstart, Hend.
  destruct (Z.gtb_spec start finish) as [G|_]; [lia|].
  rewrite filter_In, visitedDays_spec.
  assert (Hinterval :
            Z.max 1 (if repeatEveryXWeeksOrDays payload =? 0 then 1
                     else repeatEveryXWeeksOrDays payload)
            = Z.max 1 (repeatEveryXWeeksOrDays payload)).
  { destruct (Z.eqb_spec (repeatEveryXWeeksOrDays payload) 0) as [->|_];
      reflexivity. }
  assert (Hweekdays : forall x,
            Nat.eqb (List.length (selectedWeekdays payload)) 0
            || includes (selectedWeekdays payload) x = true <->
            selectedWeekdays payload = [] \/ In x (selectedWeekdays payload)).
  { intros x. rewrite orb_true_iff, includes_In.
    destruct (selectedWeekdays payload) as [|w ws]; cbn [List.length Nat.eqb].
    - split; auto.
    - split; (intros [H|H]; [discriminate|auto]). }
  assert (Hweeks : forall k, 0 <= k ->
            (Z.rem (k / 7) (Z.max 1 (repeatEveryXWeeksOrDays payload)) =? 0) = true <->
            exists j, 0 <= j /\ k / 7 = j * Z.max 1 (repeatEveryXWeeksOrDays payload)).
  { intros k Hk.
    rewrite <- (remainderIsZero_multiple (k / 7)
                  (Z.max 1 (repeatEveryXWeeksOrDays payload)))
      by (try apply Z.div_pos; lia).
    unfold remainderIsZero.
    destruct (Z.eqb_spec (Z.max 1 (repeatEveryXWeeksOrDays payload)) 0); [lia|].
    reflexivity. }
  unfold isMatchingPatternDay. rewrite Hinterval.
  split.
  - intros [(k & Hk & -> & Hfin) Hinc].
    apply andb_true_iff in Hinc as [Hweek Hday].
    rewrite differenceInWeeks_walk in Hweek by exact Hk.
    apply Hweeks in Hweek; [|exact Hk].
    apply Hweekdays in Hday. rewrite getDay_shift in Hday.
    exists k. auto.
  - intros (k & Hk & -> & Hfin & Hweek & Hday).
    split; [exists k; auto|].
    apply andb_true_iff. split.
    + rewrite differenceInWeeks_walk by exact Hk. apply Hweeks; assumption.
    + apply Hweekdays. rewrite getDay_shift. exact Hday.
Qed.

(** X4. DAILY rule with an interval of [n >= 1], on the sessions the
    generator returns: a session is returned exactly when it is the
    session of a slot on the start day or on an [n]-th day after it, up
    to the end boundary (the slot being one the helper accepts and the
    session starting at or after the buffer). *)
Theorem daily_rule_sessions (now : Z) (payload : SchedulePayload)
    (start finish : Z) (generated : list ClassSession) :
  recurrenceType payload = DAILY ->
  seriesStartDate payload = Some (Instant start) ->
  seriesEndDate payload = Some (Instant finish) ->
  1 <= repeatEveryXWeeksOrDays payload ->
  collectSessions tz now payload = Ok generated ->
  generateAllClassSessions tz now payload
  = match generated with
    | [] => Throw NoFutureSessions
    | _ :: _ => Ok generated
    end
  /\ forall session,
       In session generated <->
       exists j slot,
         let day := start + j * repeatEveryXWeeksOrDays payload * msPerDay in
         0 <= j /\ day <= finish /\
         In slot (dailyTimeSlots payload) /\
         createValidClassSessionFromDateAndTimes tz day (startTime24h slot)
           (endTime24h slot) = Ok session /\
         now + 30 * msPerMinute <= sessionStartDateTime session.
Proof.
  intros Hkind Hstart Hend Hn Hc.
  split.
  { rewrite (generate_of_collected tz now payload generated Hc), Hkind. reflexivity. }
  intros session.
  rewrite (collected_session_of_days tz now payload generated _ Hc
             (fun day => daily_days payload start finish day Hkind Hstart Hend Hn)).
  cbv zeta. split.
  - intros (day & slot & (j & Hj & -> & Hle) & Hrest). exists j, slot. auto.
  - intros (j & slot & Hj & Hle & Hrest).
    exists (start + j * repeatEveryXWeeksOrDays payload * msPerDay), slot.
    split; [exists j; auto|exact Hrest].
Qed.

(** X5. WEEKLY rule with an interval of [n >= 1], on the sessions the
    generator returns: weeks are counted in blocks of seven days from
    the start date; a session is returned exactly when it is the session
    of a slot on a day of the walk whose block number is a multiple of
    [n] and whose weekday is selected.  With validated slots every
    returned session starts on a selected weekday. *)
Theorem weekly_rule_sessions (now : Z) (payload : SchedulePayload)
    (start finish : Z) (generated : list ClassSession) :
  recurrenceType payload = WEEKLY ->
  seriesStartDate payload = Some (Instant start) ->
  seriesEndDate payload = Some (Instant finish) ->
  1 <= repeatEveryXWeeksOrDays payload ->
  collectSessions tz now payload = Ok generated ->
  generateAllClassSessions tz now payload
  = match generated with
    | [] => Throw NoFutureSessions
    | _ :: _ => Ok generated
    end
  /\ (forall session,
        In session generated <->
        exists k slot,
          let day := start + k * msPerDay in
          0 <= k /\ day <= finish /\
          (exists j, 0 <= j /\ k / 7 = j * repeatEveryXWeeksOrDays payload) /\
          In ((JsTime.getDay tz start + k) mod 7) (selectedWeekdays payload) /\
          In slot (dailyTimeSlots payload) /\
          createValidClassSessionFromDateAndTimes tz day (startTime24h slot)
            (endTime24h slot) = Ok session /\
          now + 30 * msPerMinute <= sessionStartDateTime session)
  /\ (Forall startsWithinDay (dailyTimeSlots payload) ->
      forall session,
        In session generated ->
        In (JsTime.getDay tz (sessionStartDateTime session))
           (selectedWeekdays payload)).
Proof.
  intros Hkind Hstart Hend Hn Hc.
  split.
  { rewrite (generate_of_collected tz now payload generated Hc), Hkind. reflexivity. }
  pose proof (collected_session_of_days tz now payload generated _ Hc
                (fun day => weekly_days payload start finish day Hkind Hstart Hend Hn))
    as Hsessions.
  split.
  - intros session. rewrite Hsessions. cbv zeta. split.
    + intros (day & slot & (k & Hk & -> & Hle & Hweek & Hday) & Hrest).
      exists k, slot. auto 7.
    + intros (k & slot & Hk & Hle & Hweek & Hday & Hrest).
      exists (start + k * msPerDay), slot.
      split; [exists k; auto 7|exact Hrest].
  - intros Hslots session Hin.
    apply Hsessions in Hin.
    destruct Hin as (d & slot & (k & _ & -> & _ & _ & Hday) & Hslot & Hok & _).
    rewrite Forall_forall in Hslots.
    pose proof (session_keeps_the_day tz _ slot session (Hslots slot Hslot) Hok) as E.
    unfold JsTime.getDay. rewrite E.
    fold (JsTime.getDay tz (start + k * msPerDay)).
    rewrite getDay_shift. exact Hday.
Qed.

(** X6. Pattern mode of CUSTOM (no manual dates, start not after end),
    on the sessions the generator returns: the interval is raised to at
    least one, and an empty weekday selection selects every weekday;
    otherwise the sessions are those of the WEEKLY rule.  When nothing
    is left the error is the one of the custom mode. *)
Theorem custom_pattern_sessions (now : Z) (payload : SchedulePayload)
    (start finish : Z) (generated : list ClassSession) :
  recurrenceType payload = CUSTOM ->
  manuallyChosenDates payload = [] ->
  seriesStartDate payload = Some (Instant start) ->
  seriesEndDate payload = Some (Instant finish) ->
  start <= finish ->
  collectSessions tz now payload = Ok generated ->
  generateAllClassSessions tz now payload
  = match generated with
    | [] => Throw NoValidCustomSessions
    | _ :: _ => Ok generated
    end
  /\ forall session,
       In session generated <->
       exists k slot,
         let day := start + k * msPerDay in
         0 <= k /\ day <= finish /\
         (exists j, 0 <= j /\
                    k / 7 = j * Z.max 1 (repeatEveryXWeeksOrDays payload)) /\
         (selectedWeekdays payload = [] \/
          In ((JsTime.getDay tz start + k) mod 7) (selectedWeekdays payload)) /\
         In slot (dailyTimeSlots payload) /\
         createValidClassSessionFromDateAndTimes tz day (startTime24h slot)
           (endTime24h slot) = Ok session /\
         now + 30 * msPerMinute <= sessionStartDateTime session.
Proof.
  intros Hkind Hmanual Hstart Hend Hle Hc.
  split.
  { rewrite (generate_of_collected tz now payload generated Hc), Hkind. reflexivity. }
  intros session.
  rewrite (collected_session_of_days tz now payload generated _ Hc
             (fun day => custom_pattern_days payload start finish day
                           Hkind Hmanual Hstart Hend Hle)).
  cbv zeta. split.
  - intros (day & slot & (k & Hk & -> & Hfin & Hweek & Hday) & Hrest).
    exists k, slot. auto 7.
  - intros (k & slot & Hk & Hfin & Hweek & Hday & Hrest).
    exists (start + k * msPerDay), slot.
    split; [exists k; auto 7|exact Hrest].
Qed.

End MatchedDays.

(** Every second day from 3 to 10 November 2026, asked for on the 2nd:
    the generator returns the sessions of the 3rd, 5th, 7th and 9th. *)
Lemma daily_rule_sessions_witness :
  let now := Sample.localClock 2026 10 2 8 0 in
  let payload :=
    mkPayload (Some (Instant (Sample.nov3 0 0)))
              (Some (Instant (Sample.localClock 2026 10 10 0 0)))
              DAILY [Sample.nineToTen] [] [] 2 [] in
  let on (date : Z) :=
    mkSession None (Sample.localClock 2026 10 date 9 0)
                   (Sample.localClock 2026 10 date 10 0) in
  let generated := [on 3; on 5; on 7; on 9] in
  1 <= repeatEveryXWeeksOrDays payload /\
  Generator.collectSessions Sample.kathmandu now payload = Ok generated /\
  Generator.generateAllClassSessions Sample.kathmandu now payload = Ok generated /\
  ~ In (on 4) generated /\
  exists j slot,
    let day := Sample.nov3 0 0
               + j * repeatEveryXWeeksOrDays payload * Calendar.msPerDay in
    0 <= j /\ day <= Sample.localClock 2026 10 10 0 0 /\
    In slot (dailyTimeSlots payload) /\
    Generator.createValidClassSessionFromDateAndTimes Sample.kathmandu day
      (startTime24h slot) (endTime24h slot) = Ok (on 7) /\
    now + 30 * Calendar.msPerMinute <= sessionStartDateTime (on 7).
Proof.
  intros now payload on generated.
  assert (Hn : 1 <= repeatEveryXWeeksOrDays payload) by (cbn; lia).
  assert (Hc : Generator.collectSessions Sample.kathmandu now payload = Ok generated)
    by (vm_compute; reflexivity).
  destruct (daily_rule_sessions Sample.kathmandu now payload (Sample.nov3 0 0)
              (Sample.localClock 2026 10 10 0 0) generated
              eq_refl eq_refl eq_refl Hn Hc) as [Hgen Hiff].
  split; [exact Hn|]. split; [exact Hc|]. split; [exact Hgen|]. split.
  - vm_compute. intros [H|[H|[H|[H|[]]]]]; discriminate H.
  - apply (proj1 (Hiff (on 7))). right. right. left. reflexivity.
Defined.

(** "Algebra" repeats every week on Wednesdays from 4 to 12 November
    2026: asked for on the 2nd, the generator returns the sessions of
    the 4th and the 11th, both Wednesdays. *)
Lemma weekly_rule_sessions_witness :
  let now := Sample.localClock 2026 10 2 8 0 in
  let on (date : Z) :=
    mkSession None (Sample.localClock 2026 10 date 14 0)
                   (Sample.localClock 2026 10 date 15 0) in
  let generated := [on 4; on 11] in
  1 <= repeatEveryXWeeksOrDays (schedule Sample.algebra) /\
  Generator.collectSessions Sample.kathmandu now (schedule Sample.algebra)
  = Ok generated /\
  Generator.generateAllClassSessions Sample.kathmandu now (schedule Sample.algebra)
  = Ok generated /\
  JsTime.getDay Sample.kathmandu (sessionStartDateTime (on 11)) = 3 /\
  In (JsTime.getDay Sample.kathmandu (sessionStartDateTime (on 11)))
     (selectedWeekdays (schedule Sample.algebra)).
Proof.
  intros now on generated.
  assert (Hn : 1 <= repeatEveryXWeeksOrDays (schedule Sample.algebra)) by (cbn; lia).
  assert (Hc : Generator.collectSessions Sample.kathmandu now (schedule Sample.algebra)
               = Ok generated)
    by (vm_compute; reflexivity).
  assert (Hslots : Forall Generator.startsWithinDay
                     (dailyTimeSlots (schedule Sample.algebra))).
  { repeat constructor. exists 14, 0. split; [reflexivity|lia]. }
  destruct (weekly_rule_sessions Sample.kathmandu now (schedule Sample.algebra)
              (Sample.localClock 2026 10 4 0 0) (Sample.localClock 2026 10 12 0 0)
              generated eq_refl eq_refl eq_refl Hn Hc) as (Hgen & _ & Hday).
  split; [exact Hn|]. split; [exact Hc|]. split; [exact Hgen|].
  split; [reflexivity|].
  apply (Hday Hslots (on 11)). right. left. reflexivity.
Defined.

(** A pattern with interval 0 and no weekday selected, from the 3rd to
    the 5th of November 2026: the generator returns a session for each
    of the three days. *)
Lemma custom_pattern_sessions_witness :
  let now := Sample.localClock 2026 10 2 8 0 in
  let payload :=
    mkPayload (Some (Instant (Sample.nov3 0 0)))
              (Some (Instant (Sample.localClock 2026 10 5 0 0)))
              CUSTOM [Sample.nineToTen] [] [] 0 [] in
  let on (date : Z) :=
    mkSession None (Sample.localClock 2026 10 date 9 0)
                   (Sample.localClock 2026 10 date 10 0) in
  let generated := [on 3; on 4; on 5] in
  Sample.nov3 0 0 <= Sample.localClock 2026 10 5 0 0 /\
  Generator.collectSessions Sample.kathmandu now payload = Ok generated /\
  Generator.generateAllClassSessions Sample.kathmandu now payload = Ok generated /\
  exists k slot,
    let day := Sample.nov3 0 0 + k * Calendar.msPerDay in
    0 <= k /\ day <= Sample.localClock 2026 10 5 0 0 /\
    (exists j, 0 <= j /\
               k / 7 = j * Z.max 1 (repeatEveryXWeeksOrDays payload)) /\
    (selectedWeekdays payload = [] \/
     In ((JsTime.getDay Sample.kathmandu (Sample.nov3 0 0) + k) mod 7)
        (selectedWeekdays payload)) /\
    In slot (dailyTimeSlots payload) /\
    Generator.createValidClassSessionFromDateAndTimes Sample.kathmandu day
      (startTime24h slot) (endTime24h slot) = Ok (on 5) /\
    now + 30 * Calendar.msPerMinute <= sessionStartDateTime (on 5).
Proof.
  intros now payload on generated.
  assert (Hle : Sample.nov3 0 0 <= Sample.localClock 2026 10 5 0 0)
    by (vm_compute; discriminate).
  assert (Hc : Generator.collectSessions Sample.kathmandu now payload = Ok generated)
    by (vm_compute; reflexivity).
  destruct (custom_pattern_sessions Sample.kathmandu now payload (Sample.nov3 0 0)
              (Sample.localClock 2026 10 5 0 0) generated
              eq_refl eq_refl eq_refl eq_refl Hle Hc) as [Hgen Hiff].
  split; [exact Hle|]. split; [exact Hc|]. split; [exact Hgen|].
  apply (proj1 (Hiff (on 5))). right. right. left. reflexivity.
Defined.

(* ================================================================== *)
(** ** The expansion as a whole                                         *)
(* ================================================================== *)

(** Case analysis on a scrutinee that holds no other case analysis. *)
Ltac innermost_case :=
  match goal with
  | |- context [match ?x with _ => _ end] =>
      lazymatch x with
      | context [match _ with _ => _ end] => fail
      | _ => destruct x
      end
  end.

Section Expansion.
Import Calendar Generator.
Variable tz : Z.

Lemma dayOccurrences_length (slots : list TimeSlot) (day : Z) :
  (List.length (dayOccurrences tz slots day) <= List.length slots)%nat.
Proof.
  unfold dayOccurrences.
  induction slots as [|slot slots IH]; cbn [flat_map List.length]; [lia|].
  rewrite length_app. unfold slotOccurrence at 1.
  destruct (createValidClassSessionFromDateAndTimes _ _ _ _); cbn [List.length]; lia.
Qed.

Lemma generate_collect (now : Z) (payload : SchedulePayload)
    (sessions : list ClassSession) :
  generateAllClassSessions tz now payload = Ok sessions ->
  collectSessions tz now payload = Ok sessions /\ sessions <> [].
Proof.
  unfold generateAllClassSessions.
  destruct (collectSessions tz now payload) as [[|s l]|e]; try discriminate.
  intros H. injection H as <-. split; [reflexivity|discriminate].
Qed.

(** X7. A rule of kind "none" visits the start day only, and that only
    when the end boundary is absent or not before the start; whatever
    the boundary, the expansion has at most one session for each slot,
    each one the slot placed on the start date. *)
Theorem single_rule_sessions (payload : SchedulePayload) (start : Z) :
  recurrenceType payload = SINGLE_INSTANCE ->
  seriesStartDate payload = Some (Instant start) ->
  matchedDays tz payload
  = match seriesEndDate payload with
    | None => [start]
    | Some (Instant finish) => if start <=? finish then [start] else []
    | Some InvalidDate => []
    end
  /\ forall now sessions,
       generateAllClassSessions tz now payload = Ok sessions ->
       (List.length sessions <= List.length (dailyTimeSlots payload))%nat /\
       forall session,
         In session sessions ->
         exists slot,
           In slot (dailyTimeSlots payload) /\
           createValidClassSessionFromDateAndTimes tz start
             (startTime24h slot) (endTime24h slot) = Ok session.
Proof.
  intros Hkind Hstart.
  assert (Hdays : matchedDays tz payload
                  = match seriesEndDate payload with
                    | None => [start]
                    | Some (Instant finish) => if start <=? finish then [start] else []
                    | Some InvalidDate => []
                    end).
  { destruct (seriesEndDate payload) as [[finish|]|] eqn:Hend.
    - unfold matchedDays. rewrite Hkind, Hstart, Hend. cbn [newDate isNone].
      destruct (walkFuel start (Instant finish)) as [|n] eqn:Efuel.
      + apply walkFuel_zero in Efuel. cbn [dateLe] in Efuel. rewrite Efuel.
        reflexivity.
      + cbn [visitedDays dateLe].
        destruct (start <=? finish); [|reflexivity].
        cbn [filter]. unfold shouldIncludeThisDay. rewrite Hkind. reflexivity.
    - unfold matchedDays. rewrite Hkind, Hstart, Hend. reflexivity.
    - rewrite (standard_walk_without_end tz payload start)
        by (rewrite ?Hkind; try discriminate; assumption).
      unfold shouldIncludeThisDay. rewrite Hkind. reflexivity. }
  split; [exact Hdays|].
  intros now sessions Hgen.
  apply generate_collect in Hgen as [Hgen _].
  apply collectSessions_occurrences in Hgen.
  assert (Hocc : occurrences tz payload = []
                 \/ occurrences tz payload
                    = dayOccurrences tz (dailyTimeSlots payload) start).
  { unfold occurrences. rewrite Hdays.
    destruct (seriesEndDate payload) as [[finish|]|];
      [destruct (start <=? finish)| |]; cbn [flat_map]; rewrite ?app_nil_r; auto. }
  split.
  - subst sessions.
    etransitivity; [apply filter_length_le|].
    destruct Hocc as [->| ->]; [cbn; lia|apply dayOccurrences_length].
  - intros session Hin. subst sessions.
    apply filter_In in Hin as [Hin _].
    destruct Hocc as [E|E]; rewrite E in Hin; [destruct Hin|].
    unfold dayOccurrences in Hin. apply in_flat_map in Hin as (slot & Hslot & Hs).
    exists slot. split; [exact Hslot|].
    unfold slotOccurrence in Hs.
    destruct (createValidClassSessionFromDateAndTimes _ _ _ _) as [s|e];
      [|destruct Hs].
    destruct Hs as [->|[]]. reflexivity.
Qed.

(** X8. The expansion reports the missing time slots exactly when the
    rule has none: the check comes before every other one, and no other
    failure is reported under this error. *)
Theorem no_slot_error_iff_no_slot (now : Z) (payload : SchedulePayload) :
  generateAllClassSessions tz now payload = Throw TimeSlotRequired
  <-> dailyTimeSlots payload = [].
Proof.
  unfold generateAllClassSessions, collectSessions.
  destruct (dailyTimeSlots payload) as [|slot slots].
  - split; reflexivity.
  - split; [|discriminate].
    unfold customPatternSessions, standardSessions.
    repeat innermost_case; discriminate.
Qed.

(** Whether the expansion gets as far as collecting sessions does not
    depend on the time of the request. *)
Lemma collectSessions_throws_at_any_time (now now' : Z) (payload : SchedulePayload)
    (e : GeneratorError) :
  collectSessions tz now payload = Throw e ->
  collectSessions tz now' payload = Throw e.
Proof.
  unfold collectSessions, customPatternSessions, standardSessions.
  destruct (dailyTimeSlots payload); [auto|].
  destruct (recurrenceType payload);
    try (destruct (newDate (seriesStartDate payload)); [discriminate|auto]).
  destruct (manuallyChosenDates payload); [|discriminate].
  destruct (seriesStartDate payload) as [[s|]|];
    destruct (seriesEndDate payload) as [[f|]|]; auto.
  destruct (s >? f); [auto|discriminate].
Qed.

(** X9. Asking later never adds a session: what the expansion returns
    at a later time is what it returned earlier for the same rule,
    without the sessions that are now less than 30 minutes ahead. *)
Theorem later_expansion_is_a_part (now now' : Z) (payload : SchedulePayload)
    (later : list ClassSession) :
  now <= now' ->
  generateAllClassSessions tz now' payload = Ok later ->
  exists earlier,
    generateAllClassSessions tz now payload = Ok earlier /\
    later = filter (startsAfterBuffer now') earlier.
Proof.
  intros Hle Hlater.
  apply generate_collect in Hlater as [Hlater Hne].
  destruct (collectSessions tz now payload) as [earlier|e] eqn:Hearlier.
  2:{ apply (collectSessions_throws_at_any_time now now') in Hearlier. congruence. }
  pose proof (collectSessions_occurrences tz _ _ _ Hlater) as E'.
  pose proof (collectSessions_occurrences tz _ _ _ Hearlier) as E.
  assert (Hpart : later = filter (startsAfterBuffer now') earlier).
  { rewrite E', E. generalize (occurrences tz payload). intros l.
    induction l as [|s l IH]; cbn [filter]; [reflexivity|].
    destruct (startsAfterBuffer now s) eqn:A;
      destruct (startsAfterBuffer now' s) eqn:B;
      cbn [filter]; rewrite ?B, <- ?IH; try reflexivity.
    unfold startsAfterBuffer, JsTime.addMinutes in A, B.
    apply Z.leb_gt in A. apply Z.leb_le in B. lia. }
  exists earlier. split; [|exact Hpart].
  unfold generateAllClassSessions. rewrite Hearlier.
  destruct earlier as [|s l]; [|reflexivity].
  subst later. cbn in Hne. contradiction.
Qed.

Lemma ForallOrdPairs_filter {A : Type} (R : A -> A -> Prop) (f : A -> bool)
    (l : list A) :
  ForallOrdPairs R l -> ForallOrdPairs R (filter f l).
Proof.
  induction 1 as [|a l Ha Hl IH]; cbn [filter]; [constructor|].
  destruct (f a); [|exact IH].
  constructor; [|exact IH].
  apply Forall_forall. intros x Hx. apply filter_In in Hx as [Hx _].
  rewrite Forall_forall in Ha. auto.
Qed.

(** Two days of a walk lie a whole number of days apart. *)
Lemma visitedDays_steps_from (single : bool) (boundary : JsDate) (fuel : nat) :
  forall cursor day,
    In day (visitedDays tz single fuel cursor boundary) ->
    exists k, 0 <= k /\ day = cursor + k * msPerDay.
Proof.
  induction fuel as [|fuel IH]; intros cursor day; cbn [visitedDays]; [intros []|].
  destruct (dateLe cursor boundary); [|intros []].
  intros [<-|Hin]; [exists 0; lia|].
  destruct single; [destruct Hin|].
  apply IH in Hin as (k & Hk & ->). rewrite addDays_shift.
  exists (k + 1). lia.
Qed.

Lemma visitedDays_steps (single : bool) (boundary : JsDate) (fuel : nat) :
  forall cursor,
    ForallOrdPairs (fun day later => exists k, 1 <= k /\ later = day + k * msPerDay)
                   (visitedDays tz single fuel cursor boundary).
Proof.
  induction fuel as [|fuel IH]; intros cursor; cbn [visitedDays]; [constructor|].
  destruct (dateLe cursor boundary); [|constructor].
  constructor.
  - destruct single; [constructor|].
    apply Forall_forall. intros day Hin.
    apply visitedDays_steps_from in Hin as (k & Hk & ->). rewrite addDays_shift.
    exists (k + 1). lia.
  - destruct single; [constructor|apply IH].
Qed.

(** Unless the dates are chosen by hand, the days that get sessions
    come in increasing order, whole days apart: the walk visits no day
    twice. *)
Lemma matchedDays_steps (payload : SchedulePayload) :
  recurrenceType payload <> CUSTOM \/ manuallyChosenDates payload = [] ->
  ForallOrdPairs (fun day later => exists k, 1 <= k /\ later = day + k * msPerDay)
                 (matchedDays tz payload).
Proof.
  intros Hmode. unfold matchedDays.
  destruct (recurrenceType payload) eqn:Hkind;
    try (destruct (newDate (seriesStartDate payload)); [|constructor];
         apply ForallOrdPairs_filter, visitedDays_steps).
  destruct Hmode as [Hne|Hmanual]; [contradiction|]. rewrite Hmanual.
  destruct (seriesStartDate payload) as [[s|]|]; try constructor.
  destruct (seriesEndDate payload) as [[f|]|]; try constructor.
  destruct (s >? f); [constructor|].
  apply ForallOrdPairs_filter, visitedDays_steps.
Qed.

Lemma ForallOrdPairs_app {A : Type} (R : A -> A -> Prop) (l1 l2 : list A) :
  ForallOrdPairs R l1 -> ForallOrdPairs R l2 ->
  (forall a b, In a l1 -> In b l2 -> R a b) ->
  ForallOrdPairs R (l1 ++ l2).
Proof.
  induction l1 as [|x l1 IH]; intros H1 H2 Hcross; cbn [app]; [exact H2|].
  inversion H1 as [|? ? Hx Hl1]; subst.
  constructor.
  - apply Forall_app. split; [exact Hx|].
    apply Forall_forall. intros b Hb. apply Hcross; [left; reflexivity|exact Hb].
  - apply IH; [exact Hl1|exact H2|].
    intros a b Ha Hb. apply Hcross; [right; exact Ha|exact Hb].
Qed.

Lemma ForallOrdPairs_flat_map {A B : Type} (P : A -> A -> Prop) (R : B -> B -> Prop)
    (g : A -> list B) (l : list A) :
  ForallOrdPairs P l ->
  (forall a, ForallOrdPairs R (g a)) ->
  (forall a a' b b', P a a' -> In b (g a) -> In b' (g a') -> R b b') ->
  ForallOrdPairs R (flat_map g l).
Proof.
  intros Hl Hin Hcross.
  induction Hl as [|a l Ha Hl IH]; cbn [flat_map]; [constructor|].
  apply ForallOrdPairs_app; [apply Hin|exact IH|].
  intros b b' Hb Hb'. apply in_flat_map in Hb' as (a' & Ha' & Hb').
  rewrite Forall_forall in Ha. exact (Hcross a a' b b' (Ha a' Ha') Hb Hb').
Qed.

(** X10. Unless the dates are chosen by hand, the generator lists the
    sessions day by day: with validated slots, a session listed earlier
    never starts on a later local day than one listed after it; and with
    one slot, every session starts on a later local day than the one
    before it, so that no occurrence is repeated. *)
Theorem sessions_are_listed_day_by_day (now : Z) (payload : SchedulePayload)
    (generated : list ClassSession) :
  recurrenceType payload <> CUSTOM \/ manuallyChosenDates payload = [] ->
  Forall startsWithinDay (dailyTimeSlots payload) ->
  collectSessions tz now payload = Ok generated ->
  ForallOrdPairs
    (fun earlier later =>
       JsTime.Day (JsTime.LocalTime tz (sessionStartDateTime earlier))
       <= JsTime.Day (JsTime.LocalTime tz (sessionStartDateTime later)))
    generated
  /\ (forall slot,
        dailyTimeSlots payload = [slot] ->
        ForallOrdPairs
          (fun earlier later =>
             JsTime.Day (JsTime.LocalTime tz (sessionStartDateTime earlier))
             < JsTime.Day (JsTime.LocalTime tz (sessionStartDateTime later)))
          generated).
Proof.
  intros Hmode Hslots Hc.
  apply collectSessions_occurrences in Hc. subst generated.
  pose proof (matchedDays_steps payload Hmode) as Hdays.
  assert (Hkey : forall d s,
    In s (dayOccurrences tz (dailyTimeSlots payload) d) ->
    JsTime.Day (JsTime.LocalTime tz (sessionStartDateTime s))
    = JsTime.Day (JsTime.LocalTime tz d)).
  { intros d s Hs. unfold dayOccurrences in Hs.
    apply in_flat_map in Hs as (slot & Hslot & Hs).
    unfold slotOccurrence in Hs.
    destruct (createValidClassSessionFromDateAndTimes tz d _ _) as [s'|e] eqn:Hok;
      [|contradiction].
    destruct Hs as [<-|[]].
    rewrite Forall_forall in Hslots.
    exact (session_keeps_the_day tz d slot s' (Hslots slot Hslot) Hok). }
  assert (Hshift : forall d k,
    JsTime.Day (JsTime.LocalTime tz (d + k * msPerDay))
    = JsTime.Day (JsTime.LocalTime tz d) + k).
  { intros d k. unfold JsTime.LocalTime.
    replace (d + k * msPerDay + tz * msPerMinute)
      with ((d + tz * msPerMinute) + k * msPerDay) by ring.
    apply Day_shift. }
  split.
  - apply ForallOrdPairs_filter. unfold occurrences.
    apply (ForallOrdPairs_flat_map _ _ _ _ Hdays).
    + intros d.
      pose proof (Hkey d) as Hd.
      induction (dayOccurrences tz (dailyTimeSlots payload) d) as [|s l IH];
        constructor.
      * apply Forall_forall. intros s' Hs'.
        rewrite (Hd s (or_introl eq_refl)), (Hd s' (or_intror Hs')). lia.
      * apply IH. intros s' Hs'. apply Hd. right. exact Hs'.
    + intros d d' s s' (k & Hk & ->) Hs Hs'.
      rewrite (Hkey _ _ Hs), (Hkey _ _ Hs'), Hshift. lia.
  - intros slot Hslot.
    apply ForallOrdPairs_filter. unfold occurrences.
    apply (ForallOrdPairs_flat_map _ _ _ _ Hdays).
    + intros d. rewrite Hslot. unfold dayOccurrences. cbn [flat_map].
      rewrite app_nil_r. unfold slotOccurrence.
      destruct (createValidClassSessionFromDateAndTimes tz d _ _);
        repeat constructor.
    + intros d d' s s' (k & Hk & ->) Hs Hs'.
      rewrite (Hkey _ _ Hs), (Hkey _ _ Hs'), Hshift. lia.
Qed.

(** X11. For a rule that has passed the route's schema the expansion
    can fail in five ways only: pattern mode without both boundaries or
    with the start after the end, no session left in custom mode, no
    start date, and no session left in the other modes.  It never
    reports missing slots or an unreadable date. *)
Theorem validated_rule_errors (now : Z) (payload : SchedulePayload)
    (e : GeneratorError) :
  Schema.recurrenceRuleSchema payload = true ->
  generateAllClassSessions tz now payload = Throw e ->
  e = CustomPatternNeedsBothDates \/ e = StartAfterEnd \/
  e = NoValidCustomSessions \/ e = InvalidSeriesStartDate None \/
  e = NoFutureSessions.
Proof.
  unfold Schema.recurrenceRuleSchema. intros Hschema.
  repeat (apply andb_true_iff in Hschema as [Hschema ?]).
  unfold generateAllClassSessions, collectSessions.
  destruct (dailyTimeSlots payload) as [|slot slots]; [discriminate|].
  unfold customPatternSessions, standardSessions, emptyScheduleError.
  destruct (seriesStartDate payload) as [[s|]|]; try discriminate;
    destruct (seriesEndDate payload) as [[f|]|]; try discriminate;
    cbn [newDate];
    repeat innermost_case;
    intros E; try discriminate; injection E as <-; auto 10.
Qed.

(** X12. Every session the expansion returns is new (it carries no
    identifier), lasts at least 30 minutes, and is a slot of the rule
    placed on one of its matched days. *)
Theorem generated_sessions_are_well_formed (now : Z) (payload : SchedulePayload)
    (sessions : list ClassSession) (session : ClassSession) :
  generateAllClassSessions tz now payload = Ok sessions ->
  In session sessions ->
  session_id session = None /\
  sessionStartDateTime session + 30 * msPerMinute <= sessionEndDateTime session /\
  exists day slot,
    In day (matchedDays tz payload) /\ In slot (dailyTimeSlots payload) /\
    createValidClassSessionFromDateAndTimes tz day
      (startTime24h slot) (endTime24h slot) = Ok session.
Proof.
  intros Hgen Hin.
  apply generate_collect in Hgen as [Hgen _].
  apply collectSessions_occurrences in Hgen. subst sessions.
  apply filter_In in Hin as [Hin _].
  apply occurrence_on_matched_day in Hin as (day & slot & Hday & Hslot & Hok).
  split; [|split].
  - unfold createValidClassSessionFromDateAndTimes in Hok.
    repeat match type of Hok with
           | context [match ?x with _ => _ end] => destruct x
           end; try discriminate.
    injection Hok as <-. reflexivity.
  - exact (createValid_session_duration tz day _ _ session Hok).
  - exists day, slot. auto.
Qed.

(** X26. When the dates are chosen by hand the expansion reads the
    slots and the dates only: two custom rules with the same slots and
    the same, non-empty list of dates expand alike, whatever their
    boundaries, interval and weekdays are; and the only failure left
    is that no session remains. *)
Theorem manual_mode_reads_dates_and_slots_only (now : Z) (p q : SchedulePayload) :
  recurrenceType p = CUSTOM -> recurrenceType q = CUSTOM ->
  manuallyChosenDates p <> [] ->
  manuallyChosenDates q = manuallyChosenDates p ->
  dailyTimeSlots p <> [] ->
  dailyTimeSlots q = dailyTimeSlots p ->
  generateAllClassSessions tz now q = generateAllClassSessions tz now p /\
  forall e, generateAllClassSessions tz now p = Throw e -> e = NoValidCustomSessions.
Proof.
  intros Hp Hq Hdates Edates Hslots Eslots.
  unfold generateAllClassSessions, collectSessions, manualDateSessions.
  rewrite Eslots, Edates, Hp, Hq.
  destruct (dailyTimeSlots p) as [|slot slots]; [contradiction|].
  destruct (manuallyChosenDates p) as [|d dates]; [contradiction|].
  split; [reflexivity|].
  intros e. cbn [emptyScheduleError].
  destruct (fold_left _ _ _); intros H; [injection H as <-; reflexivity|discriminate].
Qed.

End Expansion.

(* ================================================================== *)
(** ** The conflict finder: when it finds nothing                       *)
(* ================================================================== *)

(** A request of no session is a case of its own: its [$or] has no
    clause, the query then matches any series of the room or of the
    instructor that has a session, and no session of that series can be
    picked for the message.  The bulk update can ask for it, when every
    generated session is cancelled. *)

Section FinderSilence.
Import Store Booking.

(** The dual-query finder returns [null] exactly when both of its
    queries match no document. *)
Lemma dual_finder_none (db : Database) (requested : list ClassSession)
    (room instructor : ObjectId) (ignore : option ObjectId) :
  DualQuery.findDetailedSchedulingConflict db requested room instructor ignore
  = Ok None
  <-> findOne (DualQuery.baseQuery requested ignore DualQuery.ByInstructor
                 instructor) db = None /\
      findOne (DualQuery.baseQuery requested ignore DualQuery.ByRoom room) db
      = None.
Proof.
  unfold DualQuery.findDetailedSchedulingConflict.
  destruct (findOne (DualQuery.baseQuery requested ignore DualQuery.ByInstructor
                       instructor) db) as [ic|];
    destruct (findOne (DualQuery.baseQuery requested ignore DualQuery.ByRoom room) db)
      as [rc|];
    cbv beta iota zeta;
    repeat innermost_case;
    (split; [intros H; try discriminate H; auto
            |intros [H1 H2]; try discriminate; reflexivity]).
Qed.

(** The single-query finder returns [null] exactly when its query
    matches no document. *)
Lemma single_finder_none (db : Database) (requested : list ClassSession)
    (room instructor : ObjectId) (ignore : option ObjectId) :
  SingleQuery.findDetailedSchedulingConflict db requested room instructor ignore
  = Ok None
  <-> findOne (SingleQuery.conflictSearchQuery requested room instructor ignore) db
      = None.
Proof.
  unfold SingleQuery.findDetailedSchedulingConflict.
  destruct (findOne _ db) as [doc|]; [|split; reflexivity].
  repeat innermost_case; split; discriminate.
Qed.

(** For a request of at least one session, a document escapes the query
    on the sessions exactly when it has no session that overlaps a
    requested one. *)
Lemma elemMatchOverlap_false (requested : list ClassSession) (doc : ClassDoc) :
  requested <> [] ->
  elemMatchOverlap requested doc = false <->
  forall existing newSession,
    In existing (preGeneratedClassSessions doc) -> In newSession requested ->
    overlapCondition newSession existing = false.
Proof.
  intros Hreq. rewrite (elemMatchOverlap_requested requested doc Hreq). split.
  - intros H existing newSession He Hn.
    destruct (overlapCondition newSession existing) eqn:E; [|reflexivity].
    assert (existsb (fun existing =>
                       existsb (fun newSession => overlapCondition newSession existing)
                               requested)
                    (preGeneratedClassSessions doc) = true); [|congruence].
    apply existsb_exists. exists existing. split; [exact He|].
    apply existsb_exists. exists newSession. auto.
  - intros H. apply not_true_iff_false. intros E.
    apply existsb_exists in E as (existing & He & E).
    apply existsb_exists in E as (newSession & Hn & E).
    rewrite (H existing newSession He Hn) in E. discriminate.
Qed.

(** Whatever the request, a document that escapes the query on the
    sessions has no session that overlaps a requested one. *)
Lemma elemMatchOverlap_false_clear (requested : list ClassSession) (doc : ClassDoc) :
  elemMatchOverlap requested doc = false ->
  forall existing newSession,
    In existing (preGeneratedClassSessions doc) -> In newSession requested ->
    overlapCondition newSession existing = false.
Proof.
  destruct requested as [|r rest].
  - intros _ existing newSession _ [].
  - apply elemMatchOverlap_false. discriminate.
Qed.

Lemma find_none_iff {A : Type} (f : A -> bool) (l : list A) :
  find f l = None <-> forall x, In x l -> f x = false.
Proof.
  split; [apply find_none|].
  intros H. destruct (find f l) as [x|] eqn:E; [|reflexivity].
  apply find_some in E as [Hin Hx]. rewrite (H x Hin) in Hx. discriminate.
Qed.

(** The one query for "room or instructor" matches nothing exactly when
    the two queries, one for each, match nothing. *)
Lemma queries_silent_together (db : Database) (requested : list ClassSession)
    (room instructor : ObjectId) (ignore : option ObjectId) :
  findOne (SingleQuery.conflictSearchQuery requested room instructor ignore) db = None
  <-> findOne (DualQuery.baseQuery requested ignore DualQuery.ByInstructor
                 instructor) db = None /\
      findOne (DualQuery.baseQuery requested ignore DualQuery.ByRoom room) db = None.
Proof.
  unfold findOne. rewrite !find_none_iff.
  unfold SingleQuery.conflictSearchQuery, DualQuery.baseQuery.
  split.
  - intros H. split; intros doc Hin; specialize (H doc Hin);
      destruct (N.eqb (assignedRoom doc) room);
      destruct (N.eqb (assignedInstructor doc) instructor);
      destruct (elemMatchOverlap requested doc);
      destruct (notIgnored ignore doc); cbn in *; congruence.
  - intros [Hi Hr] doc Hin. specialize (Hi doc Hin). specialize (Hr doc Hin).
    destruct (N.eqb (assignedRoom doc) room);
      destruct (N.eqb (assignedInstructor doc) instructor);
      destruct (elemMatchOverlap requested doc);
      destruct (notIgnored ignore doc); cbn in *; congruence.
Qed.

Lemma dual_queries_clear (db : Database) (requested : list ClassSession)
    (room instructor : ObjectId) (ignore : option ObjectId) :
  findOne (DualQuery.baseQuery requested ignore DualQuery.ByInstructor
             instructor) db = None ->
  findOne (DualQuery.baseQuery requested ignore DualQuery.ByRoom room) db = None ->
  clearOf db requested room instructor ignore.
Proof.
  unfold findOne, clearOf. rewrite !find_none_iff. unfold DualQuery.baseQuery.
  intros Hi Hr doc Hin Hign Hres.
  apply elemMatchOverlap_false_clear.
  destruct Hres as [E|E].
  - specialize (Hi doc Hin). rewrite E, N.eqb_refl, Hign in Hi. exact Hi.
  - specialize (Hr doc Hin). rewrite E, N.eqb_refl, Hign in Hr. exact Hr.
Qed.

Lemma clear_dual_queries (db : Database) (requested : list ClassSession)
    (room instructor : ObjectId) (ignore : option ObjectId) :
  requested <> [] ->
  clearOf db requested room instructor ignore ->
  findOne (DualQuery.baseQuery requested ignore DualQuery.ByInstructor
             instructor) db = None /\
  findOne (DualQuery.baseQuery requested ignore DualQuery.ByRoom room) db = None.
Proof.
  unfold findOne, clearOf. rewrite !find_none_iff. unfold DualQuery.baseQuery.
  intros Hreq H. split; intros doc Hin.
  - destruct (N.eqb_spec (assignedInstructor doc) instructor) as [E|_];
      [|reflexivity].
    destruct (notIgnored ignore doc) eqn:Hign; [|reflexivity].
    apply (elemMatchOverlap_false requested doc Hreq). apply (H doc Hin Hign). now left.
  - destruct (N.eqb_spec (assignedRoom doc) room) as [E|_]; [|reflexivity].
    destruct (notIgnored ignore doc) eqn:Hign; [|reflexivity].
    apply (elemMatchOverlap_false requested doc Hreq). apply (H doc Hin Hign). now right.
Qed.

(** A finder that reports nothing has found the request clear. *)
Lemma dual_finder_clear (db : Database) (requested : list ClassSession)
    (room instructor : ObjectId) (ignore : option ObjectId) :
  DualQuery.findDetailedSchedulingConflict db requested room instructor ignore
  = Ok None ->
  clearOf db requested room instructor ignore.
Proof.
  intros H. apply dual_finder_none in H as [Hi Hr].
  exact (dual_queries_clear db requested room instructor ignore Hi Hr).
Qed.

Lemma single_finder_clear (db : Database) (requested : list ClassSession)
    (room instructor : ObjectId) (ignore : option ObjectId) :
  SingleQuery.findDetailedSchedulingConflict db requested room instructor ignore
  = Ok None ->
  clearOf db requested room instructor ignore.
Proof.
  intros H. apply single_finder_none, queries_silent_together in H as [Hi Hr].
  exact (dual_queries_clear db requested room instructor ignore Hi Hr).
Qed.

(** For a request of at least one session that is clear, the finder
    reports nothing. *)
Lemma clear_dual_finder (db : Database) (requested : list ClassSession)
    (room instructor : ObjectId) (ignore : option ObjectId) :
  requested <> [] ->
  clearOf db requested room instructor ignore ->
  DualQuery.findDetailedSchedulingConflict db requested room instructor ignore
  = Ok None.
Proof.
  intros Hreq H. apply dual_finder_none.
  exact (clear_dual_queries db requested room instructor ignore Hreq H).
Qed.

(** The two finders report nothing on the same requests. *)
Lemma finders_silent_together (db : Database) (requested : list ClassSession)
    (room instructor : ObjectId) (ignore : option ObjectId) :
  SingleQuery.findDetailedSchedulingConflict db requested room instructor ignore
  = Ok None
  <-> DualQuery.findDetailedSchedulingConflict db requested room instructor ignore
      = Ok None.
Proof.
  rewrite single_finder_none, dual_finder_none. apply queries_silent_together.
Qed.

End FinderSilence.

Section FinderTheorems.
Import Store Booking.

(** X13. For a request of at least one session, the routed finder
    reports no conflict exactly when no stored series, the ignored one
    apart, that has the target instructor or the target room holds a
    session overlapping a requested one. *)
Theorem no_conflict_iff_clear (db : Database) (requested : list ClassSession)
    (room instructor : ObjectId) (ignore : option ObjectId) :
  requested <> [] ->
  DualQuery.findDetailedSchedulingConflict db requested room instructor ignore
  = Ok None
  <-> forall doc,
        In doc (classSchedules db) -> notIgnored ignore doc = true ->
        assignedInstructor doc = instructor \/ assignedRoom doc = room ->
        forall existing newSession,
          In existing (preGeneratedClassSessions doc) -> In newSession requested ->
          ~ (sessionStartDateTime existing < sessionEndDateTime newSession /\
             sessionStartDateTime newSession < sessionEndDateTime existing).
Proof.
  intros Hreq.
  assert (Hclear :
    DualQuery.findDetailedSchedulingConflict db requested room instructor ignore
    = Ok None
    <-> clearOf db requested room instructor ignore).
  { split; [apply dual_finder_clear|apply clear_dual_finder; exact Hreq]. }
  rewrite Hclear. unfold clearOf.
  assert (Hov : forall newSession existing,
             overlapCondition newSession existing = false <->
             ~ (sessionStartDateTime existing < sessionEndDateTime newSession /\
                sessionStartDateTime newSession < sessionEndDateTime existing)).
  { intros n e. unfold overlapCondition.
    rewrite <- not_true_iff_false, andb_true_iff, Z.ltb_lt, Z.gtb_lt. lia. }
  split; intros H doc Hin Hign Hres existing newSession He Hn;
    apply Hov; exact (H doc Hin Hign Hres existing newSession He Hn).
Qed.

(** X14. The two variants of the finder agree on whether there is a
    conflict, whatever the request: the one query for "room or
    instructor" finds nothing exactly when the two queries, one for
    each, find nothing. *)
Theorem finder_variants_agree_on_silence (db : Database)
    (requested : list ClassSession) (room instructor : ObjectId)
    (ignore : option ObjectId) :
  SingleQuery.findDetailedSchedulingConflict db requested room instructor ignore
  = Ok None
  <-> DualQuery.findDetailedSchedulingConflict db requested room instructor ignore
      = Ok None.
Proof.
  unfold SingleQuery.findDetailedSchedulingConflict,
    DualQuery.findDetailedSchedulingConflict.
  pose proof (queries_silent_together db requested room instructor ignore) as Hq.
  destruct (findOne (SingleQuery.conflictSearchQuery requested room instructor ignore)
              db) as [doc|];
    destruct (findOne (DualQuery.baseQuery requested ignore DualQuery.ByInstructor
                         instructor) db) as [ic|];
    destruct (findOne (DualQuery.baseQuery requested ignore DualQuery.ByRoom room) db)
      as [rc|];
    cbv beta iota zeta;
    try (exfalso; destruct Hq as [Hq1 Hq2];
         first [ destruct (Hq1 eq_refl); discriminate
               | discriminate (Hq2 (conj eq_refl eq_refl)) ]);
    repeat innermost_case;
    split; intros H; first [discriminate H | reflexivity].
Qed.

(** X15. When the instructor and the room of every stored series
    resolve, neither variant of the finder fails on a request of at
    least one session: a document that a query matched has a session to
    build the message from.  On a request of no session both variants
    fail, with a property read on [undefined], as soon as a stored
    series of the room or of the instructor, the ignored one apart, has
    a session; they report nothing when there is no such series. *)
Theorem finder_fails_only_on_an_empty_request (db : Database)
    (requested : list ClassSession) (room instructor : ObjectId)
    (ignore : option ObjectId) :
  (forall doc, In doc (classSchedules db) ->
               lookupName (instructors db) (assignedInstructor doc) <> None /\
               lookupName (physicalRooms db) (assignedRoom doc) <> None) ->
  (requested <> [] ->
   forall e,
     SingleQuery.findDetailedSchedulingConflict db requested room instructor ignore
     <> Throw e /\
     DualQuery.findDetailedSchedulingConflict db requested room instructor ignore
     <> Throw e)
  /\ (requested = [] ->
      (exists doc,
          In doc (classSchedules db) /\ notIgnored ignore doc = true /\
          (assignedInstructor doc = instructor \/ assignedRoom doc = room) /\
          preGeneratedClassSessions doc <> []) ->
      SingleQuery.findDetailedSchedulingConflict db requested room instructor ignore
      = Throw TypeError /\
      DualQuery.findDetailedSchedulingConflict db requested room instructor ignore
      = Throw TypeError)
  /\ (requested = [] ->
      (forall doc,
          In doc (classSchedules db) -> notIgnored ignore doc = true ->
          assignedInstructor doc = instructor \/ assignedRoom doc = room ->
          preGeneratedClassSessions doc = []) ->
      SingleQuery.findDetailedSchedulingConflict db requested room instructor ignore
      = Ok None /\
      DualQuery.findDetailedSchedulingConflict db requested room instructor ignore
      = Ok None).
Proof.
  intros Hresolved. split; [|split].
  - intros Hreq e.
    assert (Hsession : forall query doc,
               findOne query db = Some doc ->
               (forall d, query d = true -> elemMatchOverlap requested d = true) ->
               In doc (classSchedules db) /\
               exists session,
                 find (overlapsSomeRequested requested) (preGeneratedClassSessions doc)
                 = Some session).
    { intros query doc Hfound Hquery.
      apply findOne_some in Hfound as [Hin Hq].
      split; [exact Hin|]. apply matched_document_has_session; auto. }
    assert (Hbase : forall queried id d,
               DualQuery.baseQuery requested ignore queried id d = true ->
               elemMatchOverlap requested d = true).
    { intros queried id d H. unfold DualQuery.baseQuery in H.
      apply andb_true_iff in H as [_ H]. exact H. }
    split.
    + unfold SingleQuery.findDetailedSchedulingConflict.
      destruct (findOne _ db) as [doc|] eqn:Hfound; [|discriminate].
      apply Hsession in Hfound as [Hin [session Hs]].
      2:{ intros d H. unfold SingleQuery.conflictSearchQuery in H.
          apply andb_true_iff in H as [H _]. apply andb_true_iff in H as [_ H].
          exact H. }
      rewrite Hs. destruct (Hresolved doc Hin) as [Hi Hr].
      destruct (lookupName (instructors db) (assignedInstructor doc));
        [|contradiction].
      destruct (lookupName (physicalRooms db) (assignedRoom doc)); [|contradiction].
      discriminate.
    + unfold DualQuery.findDetailedSchedulingConflict.
      destruct (findOne (DualQuery.baseQuery requested ignore DualQuery.ByInstructor
                           instructor) db) as [ic|] eqn:Hic;
        destruct (findOne (DualQuery.baseQuery requested ignore DualQuery.ByRoom room)
                    db) as [rc|] eqn:Hrc;
        cbv beta iota zeta; try discriminate.
      * apply Hsession in Hic as [Hin [session Hs]]; [|apply Hbase].
        apply Hsession in Hrc as [Hin' _]; [|apply Hbase].
        rewrite Hs. destruct (Hresolved ic Hin) as [Hi _].
        destruct (Hresolved rc Hin') as [_ Hr].
        destruct (lookupName (instructors db) (assignedInstructor ic));
          [|contradiction].
        destruct (lookupName (physicalRooms db) (assignedRoom rc)); [|contradiction].
        discriminate.
      * apply Hsession in Hic as [Hin [session Hs]]; [|apply Hbase].
        rewrite Hs. destruct (Hresolved ic Hin) as [Hi _].
        destruct (lookupName (instructors db) (assignedInstructor ic));
          [|contradiction].
        discriminate.
      * apply Hsession in Hrc as [Hin [session Hs]]; [|apply Hbase].
        rewrite Hs. destruct (Hresolved rc Hin) as [_ Hr].
        destruct (lookupName (physicalRooms db) (assignedRoom rc)); [|contradiction].
        discriminate.
  - intros -> (doc & Hin & Hign & Hres & Hsessions).
    assert (Hmatch : elemMatchOverlap [] doc = true).
    { unfold elemMatchOverlap.
      destruct (preGeneratedClassSessions doc); [contradiction|reflexivity]. }
    assert (Hsome :
      ~ (findOne (DualQuery.baseQuery [] ignore DualQuery.ByInstructor instructor) db
         = None /\
         findOne (DualQuery.baseQuery [] ignore DualQuery.ByRoom room) db = None)).
    { intros [Hi Hr].
      pose proof (findOne_none _ _ doc Hi Hin) as Hi'.
      pose proof (findOne_none _ _ doc Hr Hin) as Hr'.
      unfold DualQuery.baseQuery in Hi', Hr'. rewrite Hign, Hmatch in Hi', Hr'.
      destruct Hres as [E|E]; rewrite E, N.eqb_refl in *; discriminate. }
    split.
    + unfold SingleQuery.findDetailedSchedulingConflict.
      destruct (findOne (SingleQuery.conflictSearchQuery [] room instructor ignore) db)
        as [found|] eqn:Hfound.
      * rewrite (proj2 (elemMatchOverlap_nil found)). reflexivity.
      * exfalso. apply Hsome. apply queries_silent_together. exact Hfound.
    + unfold DualQuery.findDetailedSchedulingConflict.
      destruct (findOne (DualQuery.baseQuery [] ignore DualQuery.ByInstructor
                           instructor) db) as [ic|] eqn:Hic;
        destruct (findOne (DualQuery.baseQuery [] ignore DualQuery.ByRoom room) db)
          as [rc|] eqn:Hrc;
        cbv beta iota zeta;
        try (rewrite (proj2 (elemMatchOverlap_nil _)); reflexivity).
      exfalso. apply Hsome. split; reflexivity.
  - intros -> Hnone.
    assert (Hquiet :
      findOne (DualQuery.baseQuery [] ignore DualQuery.ByInstructor instructor) db
      = None /\
      findOne (DualQuery.baseQuery [] ignore DualQuery.ByRoom room) db = None).
    { unfold findOne. rewrite !find_none_iff. unfold DualQuery.baseQuery.
      split; intros doc Hin.
      - destruct (N.eqb_spec (assignedInstructor doc) instructor) as [E|_];
          [|reflexivity].
        destruct (notIgnored ignore doc) eqn:Hign; [|reflexivity].
        unfold elemMatchOverlap.
        rewrite (Hnone doc Hin Hign (or_introl E)). reflexivity.
      - destruct (N.eqb_spec (assignedRoom doc) room) as [E|_]; [|reflexivity].
        destruct (notIgnored ignore doc) eqn:Hign; [|reflexivity].
        unfold elemMatchOverlap.
        rewrite (Hnone doc Hin Hign (or_intror E)). reflexivity. }
    split.
    + apply single_finder_none, queries_silent_together. exact Hquiet.
    + apply dual_finder_none. exact Hquiet.
Qed.

End FinderTheorems.

(* ================================================================== *)
(** ** Create, cancel, delete: what the handlers write                  *)
(* ================================================================== *)

Section HandlerFacts.
Import Store Booking Controller Handlers.
Variable tz : Z.

(** Identifiers are handed to the sessions without touching their times. *)
Lemma assignSessionIds_In (sessions : list ClassSession) :
  forall next stored,
    In stored (fst (assignSessionIds next sessions)) ->
    exists session,
      In session sessions /\
      sessionStartDateTime stored = sessionStartDateTime session /\
      sessionEndDateTime stored = sessionEndDateTime session.
Proof.
  induction sessions as [|[sid s e] rest IH]; intros next stored;
    cbn [assignSessionIds]; [intros []|].
  cbn [session_id sessionStartDateTime sessionEndDateTime].
  destruct sid as [id|].
  - destruct (assignSessionIds next rest) as [rest' next'] eqn:E.
    cbn [fst In]. intros [<-|Hin].
    + eexists. split; [left; reflexivity|]. auto.
    + specialize (IH next stored). rewrite E in IH.
      destruct (IH Hin) as (session & Hs & Ht). exists session. split; [now right|auto].
  - destruct (assignSessionIds (N.succ next) rest) as [rest' next'] eqn:E.
    cbn [fst In]. intros [<-|Hin].
    + eexists. split; [left; reflexivity|]. auto.
    + specialize (IH (N.succ next) stored). rewrite E in IH.
      destruct (IH Hin) as (session & Hs & Ht). exists session. split; [now right|auto].
Qed.

Lemma assignSessionIds_next (sessions : list ClassSession) :
  forall next, (next <= snd (assignSessionIds next sessions))%N.
Proof.
  induction sessions as [|[sid s e] rest IH]; intros next;
    cbn [assignSessionIds session_id]; [cbn; lia|].
  destruct sid as [id|].
  - specialize (IH next). destruct (assignSessionIds next rest). cbn [snd] in *. lia.
  - specialize (IH (N.succ next)). destruct (assignSessionIds (N.succ next) rest).
    cbn [snd] in *. lia.
Qed.

Lemma overlapCondition_times (a a' b b' : ClassSession) :
  sessionStartDateTime a = sessionStartDateTime a' ->
  sessionEndDateTime a = sessionEndDateTime a' ->
  sessionStartDateTime b = sessionStartDateTime b' ->
  sessionEndDateTime b = sessionEndDateTime b' ->
  overlapCondition a b = overlapCondition a' b'.
Proof. unfold overlapCondition. intros -> -> -> ->. reflexivity. Qed.

Lemma overlapCondition_sym (a b : ClassSession) :
  overlapCondition a b = overlapCondition b a.
Proof.
  unfold overlapCondition. apply eq_true_iff_eq.
  rewrite !andb_true_iff, !Z.ltb_lt, !Z.gtb_lt. lia.
Qed.

(** What a successful [createClassSeries] has read and written. *)
Lemma create_result (now : Z) (db db' : Database) (body : ClassBody)
    (newClass : ClassDoc) :
  createClassSeries tz now db body = (SeriesCreated newClass, db') ->
  exists generated,
    Generator.generateAllClassSessions tz now (body_schedule body) = Ok generated /\
    clearOf db generated (body_assignedRoom body) (body_assignedInstructor body) None /\
    documentIsValid body = true /\
    newClass
    = mkClass (nextObjectId db) (trim (body_classTitle body))
        (body_assignedInstructor body) (body_assignedRoom body) (body_schedule body)
        (fst (assignSessionIds (N.succ (nextObjectId db)) generated)) [] /\
    db'
    = mkDb (classSchedules db ++ [newClass]) (instructors db) (physicalRooms db)
        (snd (assignSessionIds (N.succ (nextObjectId db)) generated)).
Proof.
  unfold createClassSeries.
  destruct (Generator.generateAllClassSessions tz now (body_schedule body))
    as [generated|e]; [|discriminate].
  destruct (DualQuery.findDetailedSchedulingConflict _ _ _ _ _) as [[c|]|e] eqn:Hfree;
    try discriminate.
  destruct (documentIsValid body); [|discriminate].
  unfold create.
  destruct (assignSessionIds (N.succ (nextObjectId db)) generated)
    as [stored next] eqn:E.
  intros H. injection H as <- <-.
  exists generated. rewrite E. cbn [fst snd].
  split; [reflexivity|]. split; [apply dual_finder_clear; exact Hfree|].
  split; [reflexivity|]. split; reflexivity.
Qed.

(** A created series is appended, has the instructor and the room of
    the request, and its sessions are clear of the stored ones. *)
Lemma created_series_clear (now : Z) (db db' : Database) (body : ClassBody)
    (newClass : ClassDoc) :
  createClassSeries tz now db body = (SeriesCreated newClass, db') ->
  classSchedules db' = classSchedules db ++ [newClass] /\
  assignedInstructor newClass = body_assignedInstructor body /\
  assignedRoom newClass = body_assignedRoom body /\
  forall doc existing stored,
    In doc (classSchedules db) ->
    assignedInstructor doc = assignedInstructor newClass \/
    assignedRoom doc = assignedRoom newClass ->
    In existing (preGeneratedClassSessions doc) ->
    In stored (preGeneratedClassSessions newClass) ->
    overlapCondition stored existing = false.
Proof.
  intros Hout.
  apply create_result in Hout as (generated & Hgen & Hclear & _ & -> & ->).
  cbn [classSchedules assignedInstructor assignedRoom preGeneratedClassSessions].
  repeat (split; [reflexivity|]).
  intros doc existing stored Hdoc Hres He Hin.
  apply assignSessionIds_In in Hin as (session & Hs & Hstart & Hend).
  rewrite (overlapCondition_times stored session existing existing Hstart Hend
             eq_refl eq_refl).
  exact (Hclear doc Hdoc eq_refl Hres existing session He Hs).
Qed.

(** What a successful [cancelSingleInstance] has read and written. *)
Lemma cancel_result (db db' : Database) (seriesId sessionId cancelledId : ObjectId)
    (reason : option string) :
  cancelSingleInstance db seriesId sessionId reason
  = (SessionCancelled cancelledId, db') ->
  exists series session,
    findById db seriesId = Some series /\
    sessionById (preGeneratedClassSessions series) sessionId = Some session /\
    cancelledId = sessionId /\
    db'
    = replaceDoc
        (mkClass (doc_id series) (classTitle series) (assignedInstructor series)
           (assignedRoom series) (schedule series)
           (pull (preGeneratedClassSessions series) sessionId)
           (exceptions series
            ++ [mkException (sessionStartDateTime session) cancelled
                  (reasonOrDefault reason) None None]))
        db.
Proof.
  unfold cancelSingleInstance.
  destruct (findById db seriesId) as [series|] eqn:Hfind; [|discriminate].
  destruct (sessionById (preGeneratedClassSessions series) sessionId)
    as [session|] eqn:Hsession; [|discriminate].
  destruct (validates _); [|discriminate].
  intros H. injection H as <- <-.
  exists series, session.
  split; [reflexivity|]. split; [exact Hsession|]. split; reflexivity.
Qed.

(** What a successful [updateEntireClassSeries] has read and written. *)
Lemma bulk_update_result (now : Z) (db db' : Database) (id : ObjectId)
    (body : ClassBody) (updated : option ClassDoc) :
  updateEntireClassSeries tz now db id body = (SeriesUpdated updated, db') ->
  exists series generated newSessions doc,
    findById db id = Some series /\
    Generator.generateAllClassSessions tz now (body_schedule body) = Ok generated /\
    reconcileSessions (exceptions series) generated = Ok newSessions /\
    clearOf db newSessions (body_assignedRoom body) (body_assignedInstructor body)
      (Some id) /\
    updated = Some doc /\
    doc
    = mkClass (doc_id series) (trim (body_classTitle body))
        (body_assignedInstructor body) (body_assignedRoom body)
        (updatedRule (schedule series) (body_schedule body))
        (fst (assignSessionIds (nextObjectId db) newSessions)) (exceptions series) /\
    classSchedules db' = classSchedules (replaceDoc doc db).
Proof.
  unfold updateEntireClassSeries.
  destruct (findById db id) as [series|] eqn:Hfind; [|discriminate].
  destruct (Generator.generateAllClassSessions tz now (body_schedule body))
    as [generated|e] eqn:Hgen; [|discriminate].
  destruct (reconcileSessions (exceptions series) generated) as [newSessions|e]
    eqn:Hrec; [|discriminate].
  destruct (DualQuery.findDetailedSchedulingConflict _ _ _ _ _) as [[c|]|e] eqn:Hfree;
    try discriminate.
  destruct (castsToDate _ && castsToDate _); [|discriminate].
  destruct (assignSessionIds (nextObjectId db) newSessions) as [stored next] eqn:E.
  intros H. injection H as <- <-.
  exists series, generated, newSessions. eexists.
  rewrite E. cbn [fst].
  split; [reflexivity|]. split; [reflexivity|]. split; [exact Hrec|].
  split; [apply dual_finder_clear; exact Hfree|].
  split; [reflexivity|]. split; reflexivity.
Qed.

Lemma In_replaceDoc (doc : ClassDoc) (db : Database) (d : ClassDoc) :
  In d (classSchedules (replaceDoc doc db)) ->
  d = doc \/ (In d (classSchedules db) /\ doc_id d <> doc_id doc).
Proof.
  unfold replaceDoc. cbn [classSchedules]. rewrite in_map_iff.
  intros (old & E & Hin).
  destruct (N.eqb_spec (doc_id old) (doc_id doc)) as [Eid|Nid]; subst d; auto.
Qed.


Lemma removeById_In (id : ObjectId) (docs : list ClassDoc) (d : ClassDoc) :
  In d (removeById id docs) -> In d docs.
Proof.
  induction docs as [|doc docs IH]; cbn [removeById]; [auto|].
  destruct (N.eqb (doc_id doc) id); cbn [In]; intuition.
Qed.

Lemma pull_In (sessions : list ClassSession) (sessionId : ObjectId)
    (session : ClassSession) :
  In session (pull sessions sessionId) <->
  In session sessions /\ hasId sessionId session = false.
Proof.
  unfold pull. rewrite filter_In, negb_true_iff. reflexivity.
Qed.

End HandlerFacts.

Section HandlerTheorems.
Import Calendar Store Booking Controller Handlers.
Variable tz : Z.

(** X16. A series that [createClassSeries] stores is appended under the
    store's next identifier, with the instructor, room and rule of the
    request and no exception; it has at least one session, each at
    least 30 minutes long and starting 30 minutes or more after the
    request; and none of its sessions overlaps a session of a series
    already stored for the same instructor or the same room. *)
Theorem created_series_is_free_of_conflicts (now : Z) (db db' : Database)
    (body : ClassBody) (newClass : ClassDoc) :
  createClassSeries tz now db body = (SeriesCreated newClass, db') ->
  classSchedules db' = classSchedules db ++ [newClass] /\
  doc_id newClass = nextObjectId db /\
  assignedInstructor newClass = body_assignedInstructor body /\
  assignedRoom newClass = body_assignedRoom body /\
  schedule newClass = body_schedule body /\
  exceptions newClass = [] /\
  preGeneratedClassSessions newClass <> [] /\
  (forall stored,
      In stored (preGeneratedClassSessions newClass) ->
      now + 30 * msPerMinute <= sessionStartDateTime stored /\
      sessionStartDateTime stored + 30 * msPerMinute <= sessionEndDateTime stored) /\
  (forall doc existing stored,
      In doc (classSchedules db) ->
      assignedInstructor doc = assignedInstructor newClass \/
      assignedRoom doc = assignedRoom newClass ->
      In existing (preGeneratedClassSessions doc) ->
      In stored (preGeneratedClassSessions newClass) ->
      overlapCondition stored existing = false).
Proof.
  intros Hout.
  apply create_result in Hout as (generated & Hgen & Hclear & _ & -> & ->).
  cbn [classSchedules doc_id assignedInstructor assignedRoom schedule exceptions
       preGeneratedClassSessions].
  repeat (split; [reflexivity|]).
  split; [|split].
  - destruct generated as [|[sid s e] rest].
    + exfalso. exact (generate_never_empty tz now _ Hgen).
    + cbn [assignSessionIds session_id]. destruct sid;
        destruct (assignSessionIds _ rest); discriminate.
  - intros stored Hin.
    apply assignSessionIds_In in Hin as (session & Hs & -> & ->).
    pose proof (generate_collect tz now _ _ Hgen) as [Hcollect _].
    apply collectSessions_occurrences in Hcollect.
    pose proof Hs as Hs'. rewrite Hcollect in Hs'.
    apply filter_In in Hs' as [Hocc Hbuffer].
    unfold Generator.startsAfterBuffer, JsTime.addMinutes in Hbuffer.
    apply Z.leb_le in Hbuffer. split; [exact Hbuffer|].
    apply occurrence_on_matched_day in Hocc as (day & slot & _ & _ & Hok).
    exact (createValid_session_duration tz day _ _ session Hok).
  - intros doc existing stored Hdoc Hres He Hin.
    apply assignSessionIds_In in Hin as (session & Hs & Hstart & Hend).
    rewrite (overlapCondition_times stored session existing existing Hstart Hend
               eq_refl eq_refl).
    exact (Hclear doc Hdoc eq_refl Hres existing session He Hs).
Qed.

Lemma create_keeps_store_unless_created (now : Z) (db : Database) (body : ClassBody) :
  (forall newClass,
      fst (createClassSeries tz now db body) <> SeriesCreated newClass) ->
  snd (createClassSeries tz now db body) = db.
Proof.
  unfold createClassSeries.
  destruct (Generator.generateAllClassSessions tz now (body_schedule body));
    [|reflexivity].
  destruct (DualQuery.findDetailedSchedulingConflict _ _ _ _ _) as [[c|]|e];
    try reflexivity.
  destruct (documentIsValid body); [|reflexivity].
  destruct (create _ _ _ _ _ db) as [newClass db'].
  intros H. exfalso. exact (H newClass eq_refl).
Qed.

Lemma bulk_update_keeps_store_unless_updated (now : Z) (db : Database)
    (id : ObjectId) (body : ClassBody) :
  (forall updated,
      fst (updateEntireClassSeries tz now db id body) <> SeriesUpdated updated) ->
  snd (updateEntireClassSeries tz now db id body) = db.
Proof.
  unfold updateEntireClassSeries.
  destruct (findById db id) as [series|]; [|reflexivity].
  destruct (Generator.generateAllClassSessions tz now (body_schedule body));
    [|reflexivity].
  destruct (reconcileSessions (exceptions series) _); [|reflexivity].
  destruct (DualQuery.findDetailedSchedulingConflict _ _ _ _ _) as [[c|]|e];
    try reflexivity.
  destruct (castsToDate _ && castsToDate _); [|reflexivity].
  destruct (assignSessionIds _ _).
  intros H. exfalso. exact (H _ eq_refl).
Qed.

Lemma cancel_keeps_store_unless_cancelled (db : Database)
    (seriesId sessionId : ObjectId) (reason : option string) :
  (forall cancelledId,
      fst (cancelSingleInstance db seriesId sessionId reason)
      <> SessionCancelled cancelledId) ->
  snd (cancelSingleInstance db seriesId sessionId reason) = db.
Proof.
  unfold cancelSingleInstance.
  destruct (findById db seriesId) as [series|]; [|reflexivity].
  destruct (sessionById _ _) as [session|]; [|reflexivity].
  destruct (validates _); [|reflexivity].
  intros H. exfalso. exact (H _ eq_refl).
Qed.

(** What a refused update of one instance leaves behind: nothing,
    unless the instance was being detached from a parent that the model
    does not validate; the new class is then already stored. *)
Lemma single_update_refused (db : Database)
    (seriesId sessionId : ObjectId) (body : InstanceBody) :
  (forall series,
      fst (updateSingleInstance tz db seriesId sessionId body)
      <> StandaloneUpdated series) ->
  (forall newClass parent,
      fst (updateSingleInstance tz db seriesId sessionId body)
      <> DetachedSuccessfully newClass parent) ->
  snd (updateSingleInstance tz db seriesId sessionId body) = db \/
  exists series session newClass,
    findById db seriesId = Some series /\
    recurrenceType (schedule series) <> SINGLE_INSTANCE /\
    sessionById (preGeneratedClassSessions series) sessionId = Some session /\
    validates series = false /\
    validates newClass = true /\
    updateSingleInstance tz db seriesId sessionId body
    = (UpdateError ValidationFailed,
       mkDb (classSchedules db ++ [newClass]) (instructors db) (physicalRooms db)
            (N.succ (N.succ (nextObjectId db)))) /\
    doc_id newClass = nextObjectId db /\
    preGeneratedClassSessions newClass
    = [mkSession (Some (N.succ (nextObjectId db)))
         match req_newStart body with
         | Some start => start
         | None => sessionStartDateTime session
         end
         match req_newEnd body with
         | Some finish => finish
         | None => sessionEndDateTime session
         end].
Proof.
  unfold updateSingleInstance.
  destruct (findById db seriesId) as [series|] eqn:Hfind; [|left; reflexivity].
  destruct (Generator.isNone _) eqn:Ekind.
  - destruct (assignToFirst (req_newStart body) _ _); [|left; reflexivity].
    destruct (assignToFirst (req_newEnd body) _ _); [|left; reflexivity].
    destruct (validates _); [|left; reflexivity].
    intros H _. exfalso. exact (H _ eq_refl).
  - destruct (sessionById _ _) as [session|] eqn:Hsession; [|left; reflexivity].
    destruct (DualQuery.findDetailedSchedulingConflict _ _ _ _ _)
      as [[conflict|]|e]; try (left; reflexivity).
    unfold create. cbn [assignSessionIds session_id].
    destruct (validates _) eqn:Enew; [|left; reflexivity].
    match goal with
    | |- context [if validates ?d then _ else _] => destruct (validates d) eqn:Eparent
    end.
    + intros _ H. exfalso. exact (H _ _ eq_refl).
    + intros _ _. right. exists series, session. eexists.
      split; [reflexivity|].
      split; [intros E; rewrite E in Ekind; discriminate|].
      split; [exact Hsession|]. split; [exact Eparent|]. split; [exact Enew|].
      split; [reflexivity|]. split; reflexivity.
Qed.

(** X17. A request that is not answered with a success leaves the store
    as it was: creating, bulk-updating and cancelling write nothing when
    they answer with a conflict, a missing document or an error, and so
    does updating or detaching one instance of a series that the model
    validates.  Detaching from a parent that the model refuses to save
    is the exception: the answer is an error, but the new class was
    created before the parent was saved and stays in the store. *)
Theorem refused_requests_write_nothing (now : Z) (db : Database) :
  (forall body,
      (forall newClass,
          fst (createClassSeries tz now db body) <> SeriesCreated newClass) ->
      snd (createClassSeries tz now db body) = db) /\
  (forall id body,
      (forall updated,
          fst (updateEntireClassSeries tz now db id body) <> SeriesUpdated updated) ->
      snd (updateEntireClassSeries tz now db id body) = db) /\
  (forall seriesId sessionId reason,
      (forall cancelledId,
          fst (cancelSingleInstance db seriesId sessionId reason)
          <> SessionCancelled cancelledId) ->
      snd (cancelSingleInstance db seriesId sessionId reason) = db) /\
  (forall seriesId sessionId body,
      (forall series,
          fst (updateSingleInstance tz db seriesId sessionId body)
          <> StandaloneUpdated series) ->
      (forall newClass parent,
          fst (updateSingleInstance tz db seriesId sessionId body)
          <> DetachedSuccessfully newClass parent) ->
      ((forall series, findById db seriesId = Some series -> validates series = true) ->
       snd (updateSingleInstance tz db seriesId sessionId body) = db) /\
      (snd (updateSingleInstance tz db seriesId sessionId body) <> db ->
       exists series session newClass,
         findById db seriesId = Some series /\
         recurrenceType (schedule series) <> SINGLE_INSTANCE /\
         sessionById (preGeneratedClassSessions series) sessionId = Some session /\
         validates series = false /\
         updateSingleInstance tz db seriesId sessionId body
         = (UpdateError ValidationFailed,
            mkDb (classSchedules db ++ [newClass]) (instructors db) (physicalRooms db)
                 (N.succ (N.succ (nextObjectId db)))) /\
         doc_id newClass = nextObjectId db /\
         preGeneratedClassSessions newClass
         = [mkSession (Some (N.succ (nextObjectId db)))
              match req_newStart body with
              | Some start => start
              | None => sessionStartDateTime session
              end
              match req_newEnd body with
              | Some finish => finish
              | None => sessionEndDateTime session
              end])).
Proof.
  split; [intros body; apply create_keeps_store_unless_created|].
  split; [intros id body; apply bulk_update_keeps_store_unless_updated|].
  split; [intros seriesId sessionId reason; apply cancel_keeps_store_unless_cancelled|].
  intros seriesId sessionId body Hs Hd.
  destruct (single_update_refused db seriesId sessionId body Hs Hd)
    as [Hsame|(series & session & newClass & Hfind & Hkind & Hsession & Hinvalid
               & _ & Hout & Hid & Hsessions)].
  - split; [intros _; exact Hsame|]. intros Hchanged. contradiction.
  - split.
    + intros Hvalid. rewrite (Hvalid series Hfind) in Hinvalid. discriminate.
    + intros _. exists series, session, newClass. auto 8.
Qed.

(** X18. A successful [cancelSingleInstance] answers with the session's
    identifier; the stored series keeps its title, instructor, room and
    rule, no longer holds the session, and has one more exception: a
    cancellation anchored at the start the session had, with the reason
    given or "Cancelled by user" when none was given (an empty reason
    is kept).  No other series is touched. *)
Theorem cancel_removes_and_remembers (db db' : Database)
    (seriesId sessionId cancelledId : ObjectId) (reason : option string) :
  cancelSingleInstance db seriesId sessionId reason
  = (SessionCancelled cancelledId, db') ->
  cancelledId = sessionId /\
  exists series session parent',
    findById db seriesId = Some series /\
    sessionById (preGeneratedClassSessions series) sessionId = Some session /\
    findById db' seriesId = Some parent' /\
    classTitle parent' = classTitle series /\
    assignedInstructor parent' = assignedInstructor series /\
    assignedRoom parent' = assignedRoom series /\
    schedule parent' = schedule series /\
    preGeneratedClassSessions parent'
    = pull (preGeneratedClassSessions series) sessionId /\
    sessionById (preGeneratedClassSessions parent') sessionId = None /\
    exceptions parent'
    = exceptions series
      ++ [mkException (sessionStartDateTime session) cancelled
            match reason with
            | Some given => given
            | None => "Cancelled by user"%string
            end None None] /\
    forall other, other <> seriesId -> findById db' other = findById db other.
Proof.
  intros Hout.
  apply cancel_result in Hout as (series & session & Hfind & Hsession & -> & ->).
  split; [reflexivity|].
  destruct (findById_id db seriesId series Hfind) as [Hid Hin].
  exists series, session. eexists.
  split; [exact Hfind|]. split; [exact Hsession|].
  split.
  { rewrite <- Hid.
    match goal with
    | |- findById (replaceDoc ?d ?s) _ = _ =>
        apply (findById_replaceDoc s d series)
    end.
    cbn [doc_id]. rewrite Hid. exact Hfind. }
  cbn [classTitle assignedInstructor assignedRoom schedule
       preGeneratedClassSessions exceptions].
  repeat (split; [reflexivity|]).
  split; [apply sessionById_pull|].
  split; [reflexivity|].
  intros other Hother. apply findById_replaceDoc_other. cbn [doc_id]. congruence.
Qed.

Lemma find_removeById (id other : ObjectId) (docs : list ClassDoc) :
  other <> id ->
  find (fun d => N.eqb (doc_id d) other) (removeById id docs)
  = find (fun d => N.eqb (doc_id d) other) docs.
Proof.
  intros Hne. induction docs as [|doc docs IH]; cbn [removeById find]; [reflexivity|].
  destruct (N.eqb_spec (doc_id doc) id) as [E|NE].
  - destruct (N.eqb_spec (doc_id doc) other) as [E'|_]; [congruence|reflexivity].
  - cbn [find]. rewrite IH. reflexivity.
Qed.

Lemma find_removeById_same (id : ObjectId) (docs : list ClassDoc) :
  NoDup (map doc_id docs) ->
  find (fun d => N.eqb (doc_id d) id) (removeById id docs) = None.
Proof.
  induction docs as [|doc docs IH]; cbn [removeById find map]; [reflexivity|].
  intros Hnd. inversion Hnd as [|x l Hnotin Hnd']; subst.
  destruct (N.eqb_spec (doc_id doc) id) as [E|NE].
  - apply find_none_iff. intros d Hd. apply N.eqb_neq. intros Ed.
    apply Hnotin. rewrite E, <- Ed. apply in_map. exact Hd.
  - cbn [find]. destruct (N.eqb_spec (doc_id doc) id); [contradiction|].
    apply IH. exact Hnd'.
Qed.

Lemma removeById_absent (id : ObjectId) (docs : list ClassDoc) :
  find (fun d => N.eqb (doc_id d) id) docs = None -> removeById id docs = docs.
Proof.
  induction docs as [|doc docs IH]; cbn [removeById find]; [reflexivity|].
  destruct (N.eqb (doc_id doc) id); [discriminate|].
  intros H. rewrite IH by exact H. reflexivity.
Qed.

(** X19. [deleteEntireClassSeries] answers "Series Deleted" whether or
    not the series exists.  In a store with unique identifiers the
    series can no longer be found afterwards, every other series is
    found as before, and deleting a series that does not exist changes
    nothing. *)
Theorem delete_removes_the_series (db : Database) (id : ObjectId) :
  uniqueIds db ->
  fst (deleteEntireClassSeries db id) = SeriesDeleted /\
  findById (snd (deleteEntireClassSeries db id)) id = None /\
  (forall other,
      other <> id ->
      findById (snd (deleteEntireClassSeries db id)) other = findById db other) /\
  (findById db id = None -> snd (deleteEntireClassSeries db id) = db).
Proof.
  intros Hunique. unfold deleteEntireClassSeries, findByIdAndDelete,
    findById, findOne. cbn [fst snd classSchedules].
  split; [reflexivity|].
  split; [apply find_removeById_same; exact Hunique|].
  split; [intros other Hne; apply find_removeById; exact Hne|].
  intros Habsent. rewrite removeById_absent by exact Habsent.
  destruct db; reflexivity.
Qed.

(** No session that the reconciliation lets through starts at the
    anchor of a cancellation. *)
Lemma reconcile_avoids_cancelled_anchors (exceptions : list ExceptionRecord)
    (generated newSessions : list ClassSession) (session : ClassSession)
    (ex : ExceptionRecord) :
  reconcileSessions exceptions generated = Ok newSessions ->
  In session newSessions -> In ex exceptions -> status ex = cancelled ->
  originalStart ex <> sessionStartDateTime session.
Proof.
  unfold reconcileSessions.
  destruct (mapManualEdits exceptions generated) as [edited|]; [|discriminate].
  intros H Hs Hex Hst Hanchor. injection H as <-.
  apply filter_In in Hs as [_ Hkeep].
  unfold notCancelled in Hkeep. apply negb_true_iff in Hkeep.
  assert (existsb (fun ex => (originalStart ex =? sessionStartDateTime session)
                             && isCancelled (status ex))
                  exceptions = true); [|congruence].
  apply existsb_exists. exists ex. split; [exact Hex|].
  rewrite Hst, Hanchor, Z.eqb_refl. reflexivity.
Qed.

(** X20. After a successful bulk update the series has the exceptions
    it had, and none of its stored sessions starts at the anchor of a
    cancellation among them. *)
Theorem bulk_update_respects_cancellations (now : Z) (db db' : Database)
    (id : ObjectId) (body : ClassBody) (updated : ClassDoc) :
  updateEntireClassSeries tz now db id body = (SeriesUpdated (Some updated), db') ->
  exists series,
    findById db id = Some series /\
    exceptions updated = exceptions series /\
    forall stored ex,
      In stored (preGeneratedClassSessions updated) ->
      In ex (exceptions series) -> status ex = cancelled ->
      originalStart ex <> sessionStartDateTime stored.
Proof.
  intros Hout.
  apply bulk_update_result in Hout
    as (series & generated & newSessions & doc & Hfind & _ & Hrec & _ & Hdoc & -> & _).
  injection Hdoc as ->.
  exists series. split; [exact Hfind|]. split; [reflexivity|].
  cbn [preGeneratedClassSessions].
  intros stored ex Hin Hex Hst.
  apply assignSessionIds_In in Hin as (session & Hs & -> & _).
  exact (reconcile_avoids_cancelled_anchors _ _ _ _ _ Hrec Hs Hex Hst).
Qed.

(** A bulk update of a series that holds a cancellation anchored at
    [anchor] stores no session starting at [anchor]. *)
Lemma bulk_update_after_cancellation (now : Z) (db db' : Database) (id : ObjectId)
    (body : ClassBody) (updated : ClassDoc) (series : ClassDoc) (anchor : Z)
    (why : string) :
  findById db id = Some series ->
  In (mkException anchor cancelled why None None) (exceptions series) ->
  updateEntireClassSeries tz now db id body = (SeriesUpdated (Some updated), db') ->
  forall stored,
    In stored (preGeneratedClassSessions updated) ->
    sessionStartDateTime stored <> anchor.
Proof.
  intros Hfind Hex Hout stored Hin.
  apply bulk_update_result in Hout
    as (series' & generated & newSessions & doc & Hfind' & _ & Hrec & _ & Hdoc & -> & _).
  injection Hdoc as ->. rewrite Hfind in Hfind'. injection Hfind' as <-.
  cbn [preGeneratedClassSessions] in Hin.
  apply assignSessionIds_In in Hin as (session & Hs & -> & _).
  intros E.
  apply (reconcile_avoids_cancelled_anchors _ _ _ _ _ Hrec Hs Hex eq_refl).
  cbn [originalStart]. congruence.
Qed.

(** X22. A session that was cancelled, or detached into a class of its
    own, is not put back by a later bulk update of its series: the
    updated series stores no session starting at the start that
    session had. *)
Theorem removed_session_is_not_recreated (now : Z) (db db1 db2 : Database)
    (seriesId sessionId : ObjectId) (series : ClassDoc) (session : ClassSession)
    (body : ClassBody) (updated : ClassDoc) :
  findById db seriesId = Some series ->
  sessionById (preGeneratedClassSessions series) sessionId = Some session ->
  ((exists reason cancelledId,
       cancelSingleInstance db seriesId sessionId reason
       = (SessionCancelled cancelledId, db1)) \/
   (exists instanceBody newClass parentSeriesId,
       freshIds db /\
       updateSingleInstance tz db seriesId sessionId instanceBody
       = (DetachedSuccessfully newClass parentSeriesId, db1))) ->
  updateEntireClassSeries tz now db1 seriesId body
  = (SeriesUpdated (Some updated), db2) ->
  forall stored,
    In stored (preGeneratedClassSessions updated) ->
    sessionStartDateTime stored <> sessionStartDateTime session.
Proof.
  intros Hfind Hsession Hremoved Hupdate.
  destruct (findById_id db seriesId series Hfind) as [Hid Hin].
  destruct Hremoved as [(reason & cancelledId & Hout)
                       |(instanceBody & newClass & parent & Hfresh & Hout)].
  - apply cancel_result in Hout as (series' & session' & Hfind' & Hsession' & _ & ->).
    rewrite Hfind in Hfind'. injection Hfind' as <-.
    rewrite Hsession in Hsession'. injection Hsession' as <-.
    eapply bulk_update_after_cancellation; [| |exact Hupdate].
    + rewrite <- Hid.
      match goal with
      | |- findById (replaceDoc ?d ?s) _ = _ =>
          apply (findById_replaceDoc s d series)
      end.
      cbn [doc_id]. rewrite Hid. exact Hfind.
    + cbn [exceptions]. apply in_or_app. right. left. reflexivity.
  - apply detach_result in Hout
      as (series' & session' & Hfind' & _ & Hsession' & _ & _ & -> & _).
    rewrite Hfind in Hfind'. injection Hfind' as <-.
    rewrite Hsession in Hsession'. injection Hsession' as <-.
    eapply bulk_update_after_cancellation; [| |exact Hupdate].
    + rewrite <- Hid.
      match goal with
      | |- findById (replaceDoc ?d ?s) _ = _ =>
          apply (findById_replaceDoc s d series)
      end.
      cbn [doc_id]. unfold findById, findOne. cbn [classSchedules].
      rewrite find_app_new.
      fold (findOne (fun doc => N.eqb (doc_id doc) (doc_id series)) db).
      fold (findById db (doc_id series)).
      rewrite Hid, Hfind. reflexivity.
    + cbn [exceptions]. apply in_or_app. right. left. reflexivity.
Qed.

End HandlerTheorems.

(* ================================================================== *)
(** ** Double bookings: what the checks keep out, and what they let in  *)
(* ================================================================== *)

Section DoubleBookings.
Import Calendar Store Booking Controller Handlers.
Variable tz : Z.

Lemma conflictFree_same_documents (db db' : Database) :
  classSchedules db' = classSchedules db -> conflictFree db -> conflictFree db'.
Proof. unfold conflictFree. intros ->. auto. Qed.

(** A store stays free of double bookings when each document of the
    new store is a document of the old one with some sessions taken
    away. *)
Lemma conflictFree_shrinks (db db' : Database) :
  (forall d', In d' (classSchedules db') ->
     exists d, In d (classSchedules db) /\ doc_id d = doc_id d' /\
               assignedInstructor d = assignedInstructor d' /\
               assignedRoom d = assignedRoom d' /\
               forall s, In s (preGeneratedClassSessions d') ->
                         In s (preGeneratedClassSessions d)) ->
  conflictFree db -> conflictFree db'.
Proof.
  intros Hsub Hfree a' b' Ha Hb Hne Hres (s & t & Hs & Ht & Hov).
  destruct (Hsub a' Ha) as (a & Hina & Hida & Hia & Hra & Hsa).
  destruct (Hsub b' Hb) as (b & Hinb & Hidb & Hib & Hrb & Hsb).
  apply (Hfree a b Hina Hinb); [congruence| |].
  - unfold sharesResource in *. rewrite Hia, Hib, Hra, Hrb. exact Hres.
  - exists s, t. auto.
Qed.

Lemma create_keeps_conflictFree (now : Z) (db : Database) (body : ClassBody) :
  conflictFree db -> conflictFree (snd (createClassSeries tz now db body)).
Proof.
  intros Hfree.
  destruct (createClassSeries tz now db body) as [reply db'] eqn:Hout.
  cbn [snd].
  destruct reply as [newClass| | | | | |];
    try (pose proof (create_keeps_store_unless_created tz now db body) as Hkeep;
         rewrite Hout in Hkeep; cbn [fst snd] in Hkeep;
         rewrite Hkeep by discriminate; exact Hfree).
  pose proof (created_series_clear tz now db db' body newClass Hout)
    as (Hdocs & Hi & Hr & Hclear).
  intros a b Ha Hb Hne Hres (s & t & Hs & Ht & Hov).
  rewrite Hdocs in Ha, Hb. apply in_app_iff in Ha, Hb.
  destruct Ha as [Ha|[<-|[]]]; destruct Hb as [Hb|[<-|[]]].
  - apply (Hfree a b Ha Hb Hne Hres). exists s, t. auto.
  - assert (Hshare : assignedInstructor a = assignedInstructor newClass \/
                     assignedRoom a = assignedRoom newClass) by exact Hres.
    rewrite overlapCondition_sym in Hov.
    rewrite (Hclear a s t Ha Hshare Hs Ht) in Hov. discriminate.
  - assert (Hshare : assignedInstructor b = assignedInstructor newClass \/
                     assignedRoom b = assignedRoom newClass).
    { destruct Hres as [E|E]; [left|right]; congruence. }
    rewrite (Hclear b t s Hb Hshare Ht Hs) in Hov. discriminate.
  - contradiction.
Qed.

Lemma bulk_update_keeps_conflictFree (now : Z) (db : Database) (id : ObjectId)
    (body : ClassBody) :
  conflictFree db -> conflictFree (snd (updateEntireClassSeries tz now db id body)).
Proof.
  intros Hfree.
  destruct (updateEntireClassSeries tz now db id body) as [reply db'] eqn:Hout.
  cbn [snd].
  destruct reply as [| | |updated| |];
    try (pose proof (bulk_update_keeps_store_unless_updated tz now db id body)
           as Hkeep;
         rewrite Hout in Hkeep; cbn [fst snd] in Hkeep;
         rewrite Hkeep by discriminate; exact Hfree).
  apply bulk_update_result in Hout
    as (series & generated & newSessions & doc & Hfind & _ & _ & Hclear & _ & Hdoc
        & Hdocs).
  destruct (findById_id db id series Hfind) as [Hid _].
  assert (Hdocid : doc_id doc = id) by (subst doc; exact Hid).
  assert (Hagainst : forall other s t,
             In other (classSchedules db) -> doc_id other <> doc_id doc ->
             sharesResource doc other ->
             In s (preGeneratedClassSessions doc) ->
             In t (preGeneratedClassSessions other) ->
             overlapCondition s t = false).
  { intros other s t Hother Hne Hres Hs Ht.
    rewrite Hdoc in Hs. cbn [preGeneratedClassSessions] in Hs.
    apply assignSessionIds_In in Hs as (session & Hsess & Hstart & Hend).
    rewrite (overlapCondition_times s session t t Hstart Hend eq_refl eq_refl).
    apply (Hclear other Hother); [| |exact Ht|exact Hsess].
    - cbn [notIgnored]. apply negb_true_iff, N.eqb_neq. congruence.
    - unfold sharesResource in Hres. rewrite Hdoc in Hres.
      cbn [assignedInstructor assignedRoom] in Hres.
      destruct Hres as [E|E]; [left|right]; congruence. }
  intros a b Ha Hb Hne Hres (s & t & Hs & Ht & Hov).
  rewrite Hdocs in Ha, Hb.
  apply In_replaceDoc in Ha as [->|[Ha Hnea]];
    apply In_replaceDoc in Hb as [->|[Hb Hneb]].
  - contradiction.
  - rewrite (Hagainst b s t Hb Hneb Hres Hs Ht) in Hov. discriminate.
  - rewrite overlapCondition_sym in Hov.
    assert (Hres' : sharesResource doc a).
    { unfold sharesResource in *. destruct Hres as [E|E]; [left|right]; congruence. }
    rewrite (Hagainst a t s Ha Hnea Hres' Ht Hs) in Hov. discriminate.
  - apply (Hfree a b Ha Hb Hne Hres). exists s, t. auto.
Qed.

Lemma cancel_keeps_conflictFree (db : Database) (seriesId sessionId : ObjectId)
    (reason : option string) :
  conflictFree db ->
  conflictFree (snd (cancelSingleInstance db seriesId sessionId reason)).
Proof.
  intros Hfree.
  destruct (cancelSingleInstance db seriesId sessionId reason) as [reply db'] eqn:Hout.
  cbn [snd].
  destruct reply as [| | | |cancelledId| |];
    try (pose proof (cancel_keeps_store_unless_cancelled db seriesId sessionId reason)
           as Hkeep;
         rewrite Hout in Hkeep; cbn [fst snd] in Hkeep;
         rewrite Hkeep by discriminate; exact Hfree).
  apply cancel_result in Hout as (series & session & Hfind & _ & _ & ->).
  destruct (findById_id db seriesId series Hfind) as [_ Hin].
  apply (conflictFree_shrinks db); [|exact Hfree].
  intros d' Hd'. apply In_replaceDoc in Hd' as [->|[Hd' _]].
  - exists series. cbn [doc_id assignedInstructor assignedRoom
                         preGeneratedClassSessions].
    repeat (split; [assumption || reflexivity|]).
    intros s Hs. apply pull_In in Hs as [Hs _]. exact Hs.
  - exists d'. auto.
Qed.

Lemma delete_keeps_conflictFree (db : Database) (id : ObjectId) :
  conflictFree db -> conflictFree (snd (deleteEntireClassSeries db id)).
Proof.
  apply conflictFree_shrinks. cbn [deleteEntireClassSeries snd findByIdAndDelete
                                   classSchedules].
  intros d' Hd'. apply removeById_In in Hd'. exists d'. auto.
Qed.

(** X21. Creating a series, bulk-updating one, cancelling a session and
    deleting a series keep a store free of double bookings: if no two
    stored series with a common instructor or room have overlapping
    sessions before the request, none have after it, whatever the
    answer. *)
Theorem checked_writes_keep_the_store_free_of_double_bookings (now : Z)
    (db : Database) :
  conflictFree db ->
  (forall body, conflictFree (snd (createClassSeries tz now db body))) /\
  (forall id body, conflictFree (snd (updateEntireClassSeries tz now db id body))) /\
  (forall seriesId sessionId reason,
      conflictFree (snd (cancelSingleInstance db seriesId sessionId reason))) /\
  (forall id, conflictFree (snd (deleteEntireClassSeries db id))).
Proof.
  intros Hfree.
  split; [intros body; apply create_keeps_conflictFree; exact Hfree|].
  split; [intros id body; apply bulk_update_keeps_conflictFree; exact Hfree|].
  split; [intros seriesId sessionId reason; apply cancel_keeps_conflictFree;
          exact Hfree|].
  intros id. apply delete_keeps_conflictFree; exact Hfree.
Qed.

End DoubleBookings.

Section DetachAndSiblings.
Import Calendar Store Booking Controller Handlers.
Variable tz : Z.


End DetachAndSiblings.

Section BulkUpdateOrigin.
Import Calendar Store Booking Controller Handlers.
Variable tz : Z.

Lemma assignSessionIds_fresh (sessions : list ClassSession) :
  forall next stored,
    (forall session, In session sessions -> session_id session = None) ->
    In stored (fst (assignSessionIds next sessions)) ->
    exists id, session_id stored = Some id /\ (next <= id)%N.
Proof.
  induction sessions as [|[sid s e] rest IH]; intros next stored Hnew;
    cbn [assignSessionIds]; [intros []|].
  cbn [session_id sessionStartDateTime sessionEndDateTime].
  assert (Hsid : sid = None) by (apply (Hnew (mkSession sid s e)); now left).
  subst sid.
  destruct (assignSessionIds (N.succ next) rest) as [rest' next'] eqn:E.
  cbn [fst In]. intros [<-|Hin].
  - exists next. split; [reflexivity|lia].
  - specialize (IH (N.succ next) stored). rewrite E in IH.
    destruct IH as (id & Hid & Hle); [intros x Hx; apply Hnew; now right|exact Hin|].
    exists id. split; [exact Hid|lia].
Qed.

Lemma mapManualEdits_In (exceptions : list ExceptionRecord)
    (sessions edited : list ClassSession) (session : ClassSession) :
  mapManualEdits exceptions sessions = Some edited ->
  In session edited ->
  exists generated,
    In generated sessions /\ applyManualEdit exceptions generated = Some session.
Proof.
  revert edited.
  induction sessions as [|g rest IH]; intros edited; cbn [mapManualEdits].
  - intros H. injection H as <-. intros [].
  - destruct (applyManualEdit exceptions g) as [g'|] eqn:Eg; [|discriminate].
    destruct (mapManualEdits exceptions rest) as [rest'|]; [|discriminate].
    intros H. injection H as <-. intros [<-|Hin].
    + exists g. split; [now left|exact Eg].
    + destruct (IH rest' eq_refl Hin) as (x & Hx & Ex).
      exists x. split; [now right|exact Ex].
Qed.

(** X24. After a successful bulk update the series keeps its
    identifier and takes the title (trimmed), the instructor and the
    room from the request.  Of the rule it takes every field that the
    request defines: the kind, the slots, the selections, the interval
    and the manual dates always, the start and the end date when the
    request gives one; a boundary that the request leaves out stays as
    it was stored.  Every session it stores comes from a session the
    rule of the request generates: with the times generated when no
    modification is recorded for that start, with the times of the
    modification otherwise.  All of them carry identifiers that the
    store had not handed out before, so no session keeps the identifier
    it had. *)
Theorem bulk_update_sessions_come_from_the_rule (now : Z) (db db' : Database)
    (id : ObjectId) (body : ClassBody) (updated : ClassDoc) :
  updateEntireClassSeries tz now db id body = (SeriesUpdated (Some updated), db') ->
  exists series generated,
    findById db id = Some series /\
    Generator.generateAllClassSessions tz now (body_schedule body) = Ok generated /\
    doc_id updated = id /\
    classTitle updated = trim (body_classTitle body) /\
    assignedInstructor updated = body_assignedInstructor body /\
    assignedRoom updated = body_assignedRoom body /\
    seriesStartDate (schedule updated)
    = match seriesStartDate (body_schedule body) with
      | Some given => Some given
      | None => seriesStartDate (schedule series)
      end /\
    seriesEndDate (schedule updated)
    = match seriesEndDate (body_schedule body) with
      | Some given => Some given
      | None => seriesEndDate (schedule series)
      end /\
    recurrenceType (schedule updated) = recurrenceType (body_schedule body) /\
    dailyTimeSlots (schedule updated) = dailyTimeSlots (body_schedule body) /\
    selectedWeekdays (schedule updated) = selectedWeekdays (body_schedule body) /\
    selectedMonthDays (schedule updated) = selectedMonthDays (body_schedule body) /\
    repeatEveryXWeeksOrDays (schedule updated)
    = repeatEveryXWeeksOrDays (body_schedule body) /\
    manuallyChosenDates (schedule updated)
    = manuallyChosenDates (body_schedule body) /\
    forall stored,
      In stored (preGeneratedClassSessions updated) ->
      (exists sid, session_id stored = Some sid /\ (nextObjectId db <= sid)%N) /\
      exists session,
        In session generated /\
        match findManualEdit (exceptions series) session with
        | None =>
            sessionStartDateTime stored = sessionStartDateTime session /\
            sessionEndDateTime stored = sessionEndDateTime session
        | Some edit =>
            newStart edit = Some (sessionStartDateTime stored) /\
            newEnd edit = Some (sessionEndDateTime stored)
        end.
Proof.
  intros Hout.
  apply bulk_update_result in Hout
    as (series & generated & newSessions & doc & Hfind & Hgen & Hrec & _ & Hdoc & ->
        & _).
  injection Hdoc as ->.
  destruct (findById_id db id series Hfind) as [Hid _].
  exists series, generated.
  cbn [doc_id classTitle assignedInstructor assignedRoom schedule
       preGeneratedClassSessions].
  split; [exact Hfind|]. split; [exact Hgen|]. split; [exact Hid|].
  repeat (split; [reflexivity|]).
  unfold reconcileSessions in Hrec.
  destruct (mapManualEdits (exceptions series) generated) as [edited|] eqn:Hmap;
    [|discriminate].
  injection Hrec as <-.
  assert (Horigin : forall session,
             In session (filter (notCancelled (exceptions series)) edited) ->
             exists g, In g generated /\
                       applyManualEdit (exceptions series) g = Some session).
  { intros session Hs. apply filter_In in Hs as [Hs _].
    exact (mapManualEdits_In _ _ _ _ Hmap Hs). }
  assert (Hnew : forall session,
             In session (filter (notCancelled (exceptions series)) edited) ->
             session_id session = None).
  { intros session Hs. destruct (Horigin session Hs) as (g & Hg & Eg).
    pose proof (generate_collect tz now _ _ Hgen) as [Hcollect _].
    apply collectSessions_occurrences in Hcollect.
    rewrite Hcollect in Hg. apply filter_In in Hg as [Hg _].
    apply occurrence_on_matched_day in Hg as (day & slot & _ & _ & Hok).
    assert (Hgid : session_id g = None).
    { unfold Generator.createValidClassSessionFromDateAndTimes in Hok.
      repeat match type of Hok with
             | context [match ?x with _ => _ end] => destruct x
             end; try discriminate.
      injection Hok as <-. reflexivity. }
    unfold applyManualEdit in Eg.
    destruct (findManualEdit (exceptions series) g) as [edit|].
    - destruct (newStart edit), (newEnd edit); try discriminate.
      injection Eg as <-. exact Hgid.
    - injection Eg as <-. exact Hgid. }
  intros stored Hin.
  split; [exact (assignSessionIds_fresh _ _ _ Hnew Hin)|].
  apply assignSessionIds_In in Hin as (session & Hs & -> & ->).
  destruct (Horigin session Hs) as (g & Hg & Eg).
  exists g. split; [exact Hg|].
  unfold applyManualEdit in Eg.
  destruct (findManualEdit (exceptions series) g) as [edit|].
  - destruct (newStart edit), (newEnd edit); try discriminate.
    injection Eg as <-. split; reflexivity.
  - injection Eg as <-. split; reflexivity.
Qed.

(** X25. The document model requires a start date.  A request without
    one is never stored by [createClassSeries], also when the dates
    are chosen by hand and the expansion, which does not read the
    start date then, succeeds; the store is left as it was. *)
Theorem series_without_start_date_is_not_created (now : Z) (db : Database)
    (body : ClassBody) :
  seriesStartDate (body_schedule body) = None ->
  (forall newClass,
      fst (createClassSeries tz now db body) <> SeriesCreated newClass) /\
  snd (createClassSeries tz now db body) = db.
Proof.
  intros Hstart.
  assert (Hnever : forall newClass,
             fst (createClassSeries tz now db body) <> SeriesCreated newClass).
  { intros newClass Hreply.
    destruct (createClassSeries tz now db body) as [reply db'] eqn:Hout.
    cbn [fst] in Hreply. subst reply.
    apply create_result in Hout as (generated & _ & _ & Hvalid & _).
    unfold documentIsValid, validates in Hvalid. cbn [schedule] in Hvalid.
    rewrite Hstart in Hvalid.
    rewrite andb_false_r in Hvalid. cbn in Hvalid. discriminate. }
  split; [exact Hnever|].
  apply create_keeps_store_unless_created. exact Hnever.
Qed.

End BulkUpdateOrigin.

(* ================================================================== *)
(** ** The theorems above at work on the sample store                   *)
(* ================================================================== *)

(** "Physics 101" is a one-time class on 3 November 2026: seen from the
    1st it has the one session of its slot. *)
Lemma single_rule_sessions_witness :
  Generator.matchedDays Sample.kathmandu (schedule Sample.physics)
  = [Sample.nov3 0 0] /\
  exists sessions,
    Generator.generateAllClassSessions Sample.kathmandu
      (Sample.localClock 2026 10 1 8 0) (schedule Sample.physics) = Ok sessions /\
    (List.length sessions <= 1)%nat.
Proof.
  destruct (single_rule_sessions Sample.kathmandu (schedule Sample.physics)
              (Sample.nov3 0 0) eq_refl eq_refl) as [Hdays Hsessions].
  split; [exact Hdays|].
  eexists. split; [vm_compute; reflexivity|].
  refine (proj1 (Hsessions (Sample.localClock 2026 10 1 8 0) _ _)).
  vm_compute. reflexivity.
Defined.

(** "Algebra" seen on 1 November has both Wednesdays; seen on the 5th
    it has the second one only. *)
Lemma later_expansion_is_a_part_witness :
  let second := mkSession None (Sample.localClock 2026 10 11 14 0)
                               (Sample.localClock 2026 10 11 15 0) in
  Sample.localClock 2026 10 1 8 0 <= Sample.localClock 2026 10 5 8 0 /\
  exists earlier,
    Generator.generateAllClassSessions Sample.kathmandu
      (Sample.localClock 2026 10 1 8 0) (schedule Sample.algebra) = Ok earlier /\
    [second]
    = filter (Generator.startsAfterBuffer (Sample.localClock 2026 10 5 8 0)) earlier.
Proof.
  intros second.
  assert (Hle : Sample.localClock 2026 10 1 8 0 <= Sample.localClock 2026 10 5 8 0)
    by (vm_compute; discriminate).
  split; [exact Hle|].
  apply (later_expansion_is_a_part Sample.kathmandu _ _ (schedule Sample.algebra)
           [second] Hle).
  vm_compute. reflexivity.
Defined.

(** "Algebra", asked for on 2 November 2026: the session of the 4th is
    listed before the session of the 11th. *)
Lemma sessions_are_listed_day_by_day_witness :
  let now := Sample.localClock 2026 10 2 8 0 in
  let generated :=
    [mkSession None (Sample.localClock 2026 10 4 14 0)
                    (Sample.localClock 2026 10 4 15 0);
     mkSession None (Sample.localClock 2026 10 11 14 0)
                    (Sample.localClock 2026 10 11 15 0)] in
  Generator.collectSessions Sample.kathmandu now (schedule Sample.algebra)
  = Ok generated /\
  ForallOrdPairs
    (fun earlier later =>
       JsTime.Day (JsTime.LocalTime Sample.kathmandu (sessionStartDateTime earlier))
       < JsTime.Day (JsTime.LocalTime Sample.kathmandu (sessionStartDateTime later)))
    generated.
Proof.
  intros now generated.
  assert (Hc : Generator.collectSessions Sample.kathmandu now (schedule Sample.algebra)
               = Ok generated)
    by (vm_compute; reflexivity).
  assert (Hslots : Forall Generator.startsWithinDay
                     (dailyTimeSlots (schedule Sample.algebra))).
  { repeat constructor. exists 14, 0. split; [reflexivity|lia]. }
  split; [exact Hc|].
  exact (proj2 (sessions_are_listed_day_by_day Sample.kathmandu now
                  (schedule Sample.algebra) generated (or_intror eq_refl) Hslots Hc)
               (mkSlot "14:00" "15:00") eq_refl).
Defined.

(** A weekly rule with no weekday selected passes the schema and has no
    occurrence. *)
Lemma validated_rule_errors_witness :
  let payload :=
    mkPayload (Some (Instant (Sample.nov3 0 0)))
              (Some (Instant (Sample.localClock 2026 10 30 0 0)))
              WEEKLY [Sample.nineToTen] [] [] 1 [] in
  Schema.recurrenceRuleSchema payload = true /\
  Generator.generateAllClassSessions Sample.kathmandu
    (Sample.localClock 2026 10 1 8 0) payload = Throw NoFutureSessions /\
  (NoFutureSessions = CustomPatternNeedsBothDates \/
   NoFutureSessions = StartAfterEnd \/
   NoFutureSessions = NoValidCustomSessions \/
   NoFutureSessions = InvalidSeriesStartDate None \/
   NoFutureSessions = NoFutureSessions).
Proof.
  intros payload.
  assert (Hschema : Schema.recurrenceRuleSchema payload = true) by reflexivity.
  assert (Hthrow : Generator.generateAllClassSessions Sample.kathmandu
                     (Sample.localClock 2026 10 1 8 0) payload
                   = Throw NoFutureSessions) by (vm_compute; reflexivity).
  split; [exact Hschema|]. split; [exact Hthrow|].
  exact (validated_rule_errors Sample.kathmandu _ payload _ Hschema Hthrow).
Defined.

Lemma generated_sessions_are_well_formed_witness :
  let second := mkSession None (Sample.localClock 2026 10 11 14 0)
                               (Sample.localClock 2026 10 11 15 0) in
  exists sessions,
    Generator.generateAllClassSessions Sample.kathmandu
      (Sample.localClock 2026 10 1 8 0) (schedule Sample.algebra) = Ok sessions /\
    In second sessions /\
    session_id second = None /\
    sessionStartDateTime second + 30 * Calendar.msPerMinute
    <= sessionEndDateTime second.
Proof.
  intros second.
  assert (Hgen : exists sessions,
             Generator.generateAllClassSessions Sample.kathmandu
               (Sample.localClock 2026 10 1 8 0) (schedule Sample.algebra)
             = Ok sessions /\ In second sessions).
  { eexists. split; [vm_compute; reflexivity|]. right. left. reflexivity. }
  destruct Hgen as (sessions & Hgen & Hin).
  exists sessions. split; [exact Hgen|]. split; [exact Hin|].
  destruct (generated_sessions_are_well_formed Sample.kathmandu _ _ sessions second
              Hgen Hin) as (Hid & Hlen & _).
  split; [exact Hid|exact Hlen].
Defined.

(** Lab 1 with Dr. Rai on 3 November from 11:00 to 12:00: nothing
    stored is in the way. *)
Lemma no_conflict_iff_clear_witness :
  let requested := [mkSession None (Sample.nov3 11 0) (Sample.nov3 12 0)] in
  requested <> [] /\
  DualQuery.findDetailedSchedulingConflict Sample.store requested
    Sample.lab1 Sample.drRai None = Ok None /\
  forall existing,
    In existing (preGeneratedClassSessions Sample.physics) ->
    ~ (sessionStartDateTime existing < Sample.nov3 12 0 /\
       Sample.nov3 11 0 < sessionEndDateTime existing).
Proof.
  intros requested.
  assert (Hne : requested <> []) by discriminate.
  assert (Hfree : DualQuery.findDetailedSchedulingConflict Sample.store requested
                    Sample.lab1 Sample.drRai None = Ok None)
    by (vm_compute; reflexivity).
  split; [exact Hne|]. split; [exact Hfree|].
  intros existing Hin.
  apply (proj1 (no_conflict_iff_clear Sample.store requested Sample.lab1
                  Sample.drRai None Hne) Hfree Sample.physics
           ltac:(left; reflexivity) eq_refl ltac:(left; reflexivity)
           existing (mkSession None (Sample.nov3 11 0) (Sample.nov3 12 0)) Hin).
  left. reflexivity.
Defined.

(** Lab 1 with Dr. Rai on 3 November from 11:00 to 12:00: both finders
    report nothing.  For a request of no session neither does: both
    have matched "Physics 101". *)
Lemma finder_variants_agree_on_silence_witness :
  let requested := [mkSession None (Sample.nov3 11 0) (Sample.nov3 12 0)] in
  SingleQuery.findDetailedSchedulingConflict Sample.store requested
    Sample.lab1 Sample.drRai None = Ok None /\
  DualQuery.findDetailedSchedulingConflict Sample.store requested
    Sample.lab1 Sample.drRai None = Ok None /\
  SingleQuery.findDetailedSchedulingConflict Sample.store []
    Sample.lab1 Sample.drRai None <> Ok None /\
  DualQuery.findDetailedSchedulingConflict Sample.store []
    Sample.lab1 Sample.drRai None <> Ok None.
Proof.
  intros requested.
  assert (Hdual : DualQuery.findDetailedSchedulingConflict Sample.store requested
                    Sample.lab1 Sample.drRai None = Ok None)
    by (vm_compute; reflexivity).
  assert (Hempty : DualQuery.findDetailedSchedulingConflict Sample.store []
                     Sample.lab1 Sample.drRai None <> Ok None)
    by (vm_compute; discriminate).
  split.
  { exact (proj2 (finder_variants_agree_on_silence Sample.store requested
                    Sample.lab1 Sample.drRai None) Hdual). }
  split; [exact Hdual|]. split; [|exact Hempty].
  intros Hsingle. apply Hempty.
  exact (proj1 (finder_variants_agree_on_silence Sample.store []
                  Sample.lab1 Sample.drRai None) Hsingle).
Defined.

(** In the sample store every instructor and every room resolves: on
    the contested request neither finder fails; on a request of no
    session for Lab 1 and Dr. Sen both fail, and for a room and an
    instructor that no series has both report nothing. *)
Lemma finder_fails_only_on_an_empty_request_witness :
  (SingleQuery.findDetailedSchedulingConflict Sample.store Sample.contestedRequest
     Sample.lab1 Sample.drSen None <> Throw TypeError /\
   DualQuery.findDetailedSchedulingConflict Sample.store Sample.contestedRequest
     Sample.lab1 Sample.drSen None <> Throw TypeError) /\
  (SingleQuery.findDetailedSchedulingConflict Sample.store []
     Sample.lab1 Sample.drSen None = Throw TypeError /\
   DualQuery.findDetailedSchedulingConflict Sample.store []
     Sample.lab1 Sample.drSen None = Throw TypeError) /\
  (SingleQuery.findDetailedSchedulingConflict Sample.store [] 98%N 99%N None
   = Ok None /\
   DualQuery.findDetailedSchedulingConflict Sample.store [] 98%N 99%N None
   = Ok None).
Proof.
  assert (Hresolved : forall doc,
    In doc (classSchedules Sample.store) ->
    Store.lookupName (instructors Sample.store) (assignedInstructor doc) <> None /\
    Store.lookupName (physicalRooms Sample.store) (assignedRoom doc) <> None).
  { intros doc Hin. cbn [Sample.store classSchedules In] in Hin.
    destruct Hin as [<-|[<-|[<-|[]]]]; split; vm_compute; discriminate. }
  split.
  { apply (proj1 (finder_fails_only_on_an_empty_request Sample.store
                    Sample.contestedRequest Sample.lab1 Sample.drSen None Hresolved)).
    discriminate. }
  split.
  { apply (proj1 (proj2 (finder_fails_only_on_an_empty_request Sample.store
                           [] Sample.lab1 Sample.drSen None Hresolved)) eq_refl).
    exists Sample.physics.
    split; [left; reflexivity|]. split; [reflexivity|].
    split; [right; reflexivity|discriminate]. }
  apply (proj2 (proj2 (finder_fails_only_on_an_empty_request Sample.store
                         [] 98%N 99%N None Hresolved)) eq_refl).
  intros doc Hin _ Hres. cbn [Sample.store classSchedules In] in Hin.
  destruct Hin as [<-|[<-|[<-|[]]]]; destruct Hres as [E|E]; discriminate E.
Defined.

(** "Geometry" with Dr. Rai in Lab 1 on 3 November from 11:00 to 12:00,
    requested on the 1st. *)
Lemma created_series_is_free_of_conflicts_witness :
  let body :=
    mkBody "Geometry" Sample.drRai Sample.lab1
      (Sample.rule SINGLE_INSTANCE (Sample.nov3 0 0) None [mkSlot "11:00" "12:00"] [])
  in
  exists newClass db',
    Handlers.createClassSeries Sample.kathmandu (Sample.localClock 2026 10 1 8 0)
      Sample.store body = (SeriesCreated newClass, db') /\
    doc_id newClass = 200%N /\
    classSchedules db' = classSchedules Sample.store ++ [newClass] /\
    preGeneratedClassSessions newClass <> [].
Proof.
  intros body.
  assert (Hout : exists newClass db',
             Handlers.createClassSeries Sample.kathmandu
               (Sample.localClock 2026 10 1 8 0) Sample.store body
             = (SeriesCreated newClass, db')).
  { eexists. eexists. vm_compute. reflexivity. }
  destruct Hout as (newClass & db' & Hout).
  exists newClass, db'. split; [exact Hout|].
  destruct (created_series_is_free_of_conflicts Sample.kathmandu _ Sample.store db'
              body newClass Hout) as (Hdocs & Hid & _ & _ & _ & _ & Hsome & _).
  split; [exact Hid|]. split; [exact Hdocs|exact Hsome].
Defined.

(** A detach into Lab 2 at the time of "Chemistry" is refused with a
    conflict and writes nothing.  When the title of the parent was
    stored empty, the same series cannot be saved: a detach to a free
    time is answered with an error, and the class created for the
    detached session stays in the store. *)
Lemma refused_requests_write_nothing_witness :
  let contested := mkInstanceBody (Some (Sample.nov3 9 0)) (Some (Sample.nov3 10 0))
                     "moved" None None None in
  let free := mkInstanceBody (Some (Sample.localClock 2026 10 11 16 0))
                (Some (Sample.localClock 2026 10 11 17 0))
                "moved" (Some "Algebra lab"%string) None None in
  let untitled :=
    mkDb [mkClass 105%N EmptyString Sample.drSen Sample.lab2 (schedule Sample.algebra)
            (preGeneratedClassSessions Sample.algebra) []]
         (instructors Sample.store) (physicalRooms Sample.store) 200%N in
  snd (Controller.updateSingleInstance Sample.kathmandu Sample.store 105%N 107%N
         contested) = Sample.store /\
  exists newClass,
    Controller.updateSingleInstance Sample.kathmandu untitled 105%N 107%N free
    = (UpdateError ValidationFailed,
       mkDb (classSchedules untitled ++ [newClass]) (instructors untitled)
            (physicalRooms untitled) 202%N) /\
    doc_id newClass = 200%N /\
    preGeneratedClassSessions newClass
    = [mkSession (Some 201%N) (Sample.localClock 2026 10 11 16 0)
                 (Sample.localClock 2026 10 11 17 0)].
Proof.
  intros contested free untitled.
  destruct (refused_requests_write_nothing Sample.kathmandu 0 Sample.store)
    as (_ & _ & _ & Hsample).
  destruct (refused_requests_write_nothing Sample.kathmandu 0 untitled)
    as (_ & _ & _ & Huntitled).
  split.
  - apply (proj1 (Hsample 105%N 107%N contested
                    ltac:(intros series; vm_compute; discriminate)
                    ltac:(intros newClass parent; vm_compute; discriminate))).
    intros series Hfind. vm_compute in Hfind. injection Hfind as <-. reflexivity.
  - destruct (proj2 (Huntitled 105%N 107%N free
                       ltac:(intros series; vm_compute; discriminate)
                       ltac:(intros newClass parent; vm_compute; discriminate))
                ltac:(vm_compute; discriminate))
      as (series & session & newClass & Hfind & _ & Hsession & _ & Hout & Hid & Hsess).
    exists newClass. split; [exact Hout|]. split; [exact Hid|].
    rewrite Hsess. reflexivity.
Defined.

(** The second Wednesday of "Algebra" is cancelled without a reason. *)
Lemma cancel_removes_and_remembers_witness :
  exists db' parent',
    Handlers.cancelSingleInstance Sample.store 105%N 107%N None
    = (SessionCancelled 107%N, db') /\
    Store.findById db' 105%N = Some parent' /\
    Controller.sessionById (preGeneratedClassSessions parent') 107%N = None /\
    exceptions parent'
    = [mkException (Sample.localClock 2026 10 11 14 0) cancelled
         "Cancelled by user" None None].
Proof.
  assert (Hout : exists db',
             Handlers.cancelSingleInstance Sample.store 105%N 107%N None
             = (SessionCancelled 107%N, db')).
  { eexists. vm_compute. reflexivity. }
  destruct Hout as (db' & Hout).
  destruct (cancel_removes_and_remembers Sample.store db' 105%N 107%N 107%N None Hout)
    as (_ & series & session & parent' & Hs & Hsess & Hp & _ & _ & _ & _ & _ & Hgone
        & Hex & _).
  exists db', parent'. split; [exact Hout|]. split; [exact Hp|].
  split; [exact Hgone|].
  rewrite Hex.
  assert (Es : Sample.algebra = series) by (injection Hs as <-; reflexivity).
  subst series.
  assert (Esess : mkSession (Some 107%N) (Sample.localClock 2026 10 11 14 0)
                            (Sample.localClock 2026 10 11 15 0) = session)
    by (injection Hsess as <-; reflexivity).
  subst session. reflexivity.
Defined.

Lemma delete_removes_the_series_witness :
  Booking.uniqueIds Sample.store /\
  Store.findById (snd (Handlers.deleteEntireClassSeries Sample.store 103%N)) 103%N
  = None /\
  Store.findById (snd (Handlers.deleteEntireClassSeries Sample.store 103%N)) 105%N
  = Some Sample.algebra.
Proof.
  assert (Hunique : Booking.uniqueIds Sample.store).
  { unfold Booking.uniqueIds. cbn [Sample.store classSchedules map].
    repeat constructor; cbn; intuition discriminate. }
  split; [exact Hunique|].
  destruct (delete_removes_the_series Sample.store 103%N Hunique)
    as (_ & Hgone & Hothers & _).
  split; [exact Hgone|].
  rewrite (Hothers 105%N) by discriminate. reflexivity.
Defined.

(** "Physics 101" with its session of 09:00 both moved to 11:00 and
    cancelled: the bulk update stores the session at 11:00, and none
    at 09:00. *)
Lemma bulk_update_respects_cancellations_witness :
  let body :=
    mkBody "Physics 101" Sample.drRai Sample.lab1
      (Sample.rule SINGLE_INSTANCE (Sample.nov3 0 0) None [Sample.nineToTen] []) in
  exists updated db',
    Controller.updateEntireClassSeries Sample.kathmandu
      (Sample.localClock 2026 10 1 8 0) Sample.storeWithExceptions 101%N body
    = (SeriesUpdated (Some updated), db') /\
    exceptions updated = [Sample.moved; Sample.dropped] /\
    forall stored,
      In stored (preGeneratedClassSessions updated) ->
      Sample.nov3 9 0 <> sessionStartDateTime stored.
Proof.
  intros body.
  assert (Hout : exists updated db',
             Controller.updateEntireClassSeries Sample.kathmandu
               (Sample.localClock 2026 10 1 8 0) Sample.storeWithExceptions 101%N body
             = (SeriesUpdated (Some updated), db')).
  { eexists. eexists. vm_compute. reflexivity. }
  destruct Hout as (updated & db' & Hout).
  exists updated, db'. split; [exact Hout|].
  destruct (bulk_update_respects_cancellations Sample.kathmandu _ _ db' 101%N body
              updated Hout) as (series & Hfind & Hex & Havoid).
  assert (Es : exceptions series = [Sample.moved; Sample.dropped]).
  { vm_compute in Hfind. injection Hfind as <-. reflexivity. }
  split; [congruence|].
  intros stored Hin.
  apply (Havoid stored Sample.dropped Hin); [|reflexivity].
  rewrite Es. right. left. reflexivity.
Defined.

(** No two series of the sample store that share an instructor or a
    room have overlapping sessions. *)
Lemma sample_store_is_conflictFree : Booking.conflictFree Sample.store.
Proof.
  intros a b Ha Hb Hne Hres (s & t & Hs & Ht & Hov).
  cbn [Sample.store classSchedules In] in Ha, Hb.
  destruct Ha as [<-|[<-|[<-|[]]]]; destruct Hb as [<-|[<-|[<-|[]]]];
    try (apply Hne; reflexivity);
    try (destruct Hres as [E|E]; vm_compute in E; discriminate);
    cbn [Sample.chemistry Sample.algebra preGeneratedClassSessions In] in Hs, Ht;
    repeat match goal with
           | H : _ \/ _ |- _ => destruct H as [<-|H]
           | H : False |- _ => destruct H
           end;
    vm_compute in Hov; discriminate.
Qed.

(** "Geometry" is created in the sample store; the store stays free of
    double bookings. *)
Lemma checked_writes_keep_the_store_free_of_double_bookings_witness :
  let body :=
    mkBody "Geometry" Sample.drRai Sample.lab1
      (Sample.rule SINGLE_INSTANCE (Sample.nov3 0 0) None [mkSlot "11:00" "12:00"] [])
  in
  Booking.conflictFree Sample.store /\
  Booking.conflictFree
    (snd (Handlers.createClassSeries Sample.kathmandu
            (Sample.localClock 2026 10 1 8 0) Sample.store body)).
Proof.
  intros body. split; [exact sample_store_is_conflictFree|].
  exact (proj1 (checked_writes_keep_the_store_free_of_double_bookings
                  Sample.kathmandu (Sample.localClock 2026 10 1 8 0) Sample.store
                  sample_store_is_conflictFree) body).
Defined.

(** The second Wednesday of "Algebra" is cancelled; a bulk update with
    the rule unchanged stores the first Wednesday only. *)
Lemma removed_session_is_not_recreated_witness :
  let body := mkBody "Algebra" Sample.drSen Sample.lab2 (schedule Sample.algebra) in
  exists db1 updated db2,
    Handlers.cancelSingleInstance Sample.store 105%N 107%N None
    = (SessionCancelled 107%N, db1) /\
    Controller.updateEntireClassSeries Sample.kathmandu
      (Sample.localClock 2026 10 1 8 0) db1 105%N body
    = (SeriesUpdated (Some updated), db2) /\
    forall stored,
      In stored (preGeneratedClassSessions updated) ->
      sessionStartDateTime stored <> Sample.localClock 2026 10 11 14 0.
Proof.
  intros body.
  assert (Hcancel : exists db1,
             Handlers.cancelSingleInstance Sample.store 105%N 107%N None
             = (SessionCancelled 107%N, db1)).
  { eexists. vm_compute. reflexivity. }
  destruct Hcancel as (db1 & Hcancel).
  assert (Hupdate : exists updated db2,
             Controller.updateEntireClassSeries Sample.kathmandu
               (Sample.localClock 2026 10 1 8 0)
               (snd (Handlers.cancelSingleInstance Sample.store 105%N 107%N None))
               105%N body
             = (SeriesUpdated (Some updated), db2)).
  { eexists. eexists. vm_compute. reflexivity. }
  rewrite Hcancel in Hupdate. cbn [snd] in Hupdate.
  destruct Hupdate as (updated & db2 & Hupdate).
  exists db1, updated, db2. split; [exact Hcancel|]. split; [exact Hupdate|].
  exact (removed_session_is_not_recreated Sample.kathmandu
           (Sample.localClock 2026 10 1 8 0) Sample.store db1 db2 105%N 107%N
           Sample.algebra
           (mkSession (Some 107%N) (Sample.localClock 2026 10 11 14 0)
                      (Sample.localClock 2026 10 11 15 0))
           body updated eq_refl eq_refl
           (or_introl (ex_intro _ None (ex_intro _ 107%N Hcancel))) Hupdate).
Defined.


(** "Algebra" is updated with a title that has blanks around it and a
    rule that gives no end date: the title is stored trimmed, the end
    date stays the one that was stored, and the one session that the
    rule of the request generates gets a new identifier. *)
Lemma bulk_update_sessions_come_from_the_rule_witness :
  let body :=
    mkBody "  Algebra II " Sample.drSen Sample.lab2
      (mkPayload (Some (Instant (Sample.localClock 2026 10 4 0 0))) None
                 WEEKLY [mkSlot "14:00" "15:00"] [3] [] 1 []) in
  exists updated db',
    Controller.updateEntireClassSeries Sample.kathmandu
      (Sample.localClock 2026 10 1 8 0) Sample.store 105%N body
    = (SeriesUpdated (Some updated), db') /\
    doc_id updated = 105%N /\
    classTitle updated = "Algebra II"%string /\
    seriesEndDate (schedule updated)
    = Some (Instant (Sample.localClock 2026 10 12 0 0)) /\
    preGeneratedClassSessions updated
    = [mkSession (Some 200%N) (Sample.localClock 2026 10 4 14 0)
                 (Sample.localClock 2026 10 4 15 0)] /\
    forall stored,
      In stored (preGeneratedClassSessions updated) ->
      exists sid, session_id stored = Some sid /\ (200 <= sid)%N.
Proof.
  intros body.
  assert (Hout : exists updated db',
             Controller.updateEntireClassSeries Sample.kathmandu
               (Sample.localClock 2026 10 1 8 0) Sample.store 105%N body
             = (SeriesUpdated (Some updated), db') /\
             preGeneratedClassSessions updated
             = [mkSession (Some 200%N) (Sample.localClock 2026 10 4 14 0)
                          (Sample.localClock 2026 10 4 15 0)]).
  { eexists. eexists. vm_compute. split; reflexivity. }
  destruct Hout as (updated & db' & Hout & Hstored).
  exists updated, db'. split; [exact Hout|].
  destruct (bulk_update_sessions_come_from_the_rule Sample.kathmandu _ _ db' 105%N
              body updated Hout)
    as (series & generated & Hfind & _ & Hid & Htitle & _ & _ & _ & Hend & _ & _ & _
        & _ & _ & _ & Hsessions).
  split; [exact Hid|]. split; [rewrite Htitle; reflexivity|].
  split.
  { rewrite Hend. vm_compute in Hfind. injection Hfind as <-. reflexivity. }
  split; [exact Hstored|].
  intros stored Hin. exact (proj1 (Hsessions stored Hin)).
Defined.

(** Two dates chosen by hand and no start date: the expansion succeeds
    and nothing is in the way, yet the series is not stored. *)
Lemma series_without_start_date_is_not_created_witness :
  let body :=
    mkBody "Revision" Sample.drRai Sample.lab1
      (mkPayload None None CUSTOM [Sample.nineToTen] [] [] 1
         [Instant (Sample.localClock 2026 10 5 0 0);
          Instant (Sample.localClock 2026 10 9 0 0)]) in
  let now := Sample.localClock 2026 10 1 8 0 in
  Schema.classScheduleSchema body = true /\
  (exists sessions,
      Generator.generateAllClassSessions Sample.kathmandu now (body_schedule body)
      = Ok sessions) /\
  Handlers.createClassSeries Sample.kathmandu now Sample.store body
  = (ValidationError DocumentRejected, Sample.store) /\
  snd (Handlers.createClassSeries Sample.kathmandu now Sample.store body)
  = Sample.store.
Proof.
  intros body now.
  split; [reflexivity|].
  split; [eexists; vm_compute; reflexivity|].
  split; [vm_compute; reflexivity|].
  exact (proj2 (series_without_start_date_is_not_created Sample.kathmandu now
                  Sample.store body eq_refl)).
Defined.

(** Two dates chosen by hand: the boundaries of the rule play no part. *)
Lemma manual_mode_reads_dates_and_slots_only_witness :
  let dates := [Instant (Sample.localClock 2026 10 5 0 0);
                Instant (Sample.localClock 2026 10 9 0 0)] in
  let p := mkPayload None None CUSTOM [Sample.nineToTen] [] [] 1 dates in
  let q := mkPayload (Some (Instant (Sample.nov3 0 0))) (Some InvalidDate) CUSTOM
             [Sample.nineToTen] [1; 3] [] 0 dates in
  manuallyChosenDates p <> [] /\ dailyTimeSlots p <> [] /\
  Generator.generateAllClassSessions Sample.kathmandu
    (Sample.localClock 2026 10 1 8 0) q
  = Generator.generateAllClassSessions Sample.kathmandu
      (Sample.localClock 2026 10 1 8 0) p.
Proof.
  intros dates p q.
  assert (Hdates : manuallyChosenDates p <> []) by discriminate.
  assert (Hslots : dailyTimeSlots p <> []) by discriminate.
  split; [exact Hdates|]. split; [exact Hslots|].
  exact (proj1 (manual_mode_reads_dates_and_slots_only Sample.kathmandu
                  (Sample.localClock 2026 10 1 8 0) p q
                  eq_refl eq_refl Hdates eq_refl Hslots eq_refl)).
Defined.

(* ================================================================== *)
(** ** The two versions of the bulk update                              *)
(* ================================================================== *)

Section TwoVersions.
Import Calendar Store Booking Controller.
Variable tz : Z.

Lemma assignSessionIds_all (sessions : list ClassSession) :
  forall next session,
    In session sessions ->
    exists stored,
      In stored (fst (assignSessionIds next sessions)) /\
      sessionStartDateTime stored = sessionStartDateTime session /\
      sessionEndDateTime stored = sessionEndDateTime session.
Proof.
  induction sessions as [|[sid s e] rest IH]; intros next session; [intros []|].
  cbn [assignSessionIds session_id sessionStartDateTime sessionEndDateTime].
  destruct sid as [id|].
  - destruct (assignSessionIds next rest) as [rest' next'] eqn:E.
    cbn [fst]. intros [<-|Hin].
    + eexists. split; [left; reflexivity|]. auto.
    + specialize (IH next session Hin). rewrite E in IH.
      destruct IH as (stored & Hs & Ht). exists stored. split; [now right|exact Ht].
  - destruct (assignSessionIds (N.succ next) rest) as [rest' next'] eqn:E.
    cbn [fst]. intros [<-|Hin].
    + eexists. split; [left; reflexivity|]. auto.
    + specialize (IH (N.succ next) session Hin). rewrite E in IH.
      destruct IH as (stored & Hs & Ht). exists stored. split; [now right|exact Ht].
Qed.

(** Without exceptions the reconciliation changes nothing. *)
Lemma reconcileSessions_nil (sessions : list ClassSession) :
  reconcileSessions [] sessions = Ok sessions.
Proof.
  unfold reconcileSessions.
  assert (Hmap : forall l, mapManualEdits [] l = Some l).
  { induction l as [|s rest IH]; cbn [mapManualEdits]; [reflexivity|].
    rewrite IH. reflexivity. }
  assert (Hfilter : forall l, filter (notCancelled []) l = l).
  { induction l as [|s rest IH]; cbn [filter]; [reflexivity|].
    rewrite IH. reflexivity. }
  rewrite Hmap, Hfilter. reflexivity.
Qed.

(** X27. The first version of the bulk update stores what the rule
    generates and nothing else: the exceptions of the series are kept
    but not consulted, so every generated session is stored with its
    generated times, also one whose start is the anchor of a
    cancellation or of a modification. *)
Theorem first_version_update_forgets_exceptions (now : Z) (db db' : Database)
    (classIdToUpdate : ObjectId) (body : ClassBody) (updated : ClassDoc) :
  FirstVersion.updateClassSeries tz now db classIdToUpdate body
  = (ClassUpdated updated, db') ->
  exists existing generated,
    findById db classIdToUpdate = Some existing /\
    Generator.generateAllClassSessions tz now (body_schedule body) = Ok generated /\
    exceptions updated = exceptions existing /\
    (forall session,
        In session generated ->
        exists stored,
          In stored (preGeneratedClassSessions updated) /\
          sessionStartDateTime stored = sessionStartDateTime session /\
          sessionEndDateTime stored = sessionEndDateTime session) /\
    (forall stored,
        In stored (preGeneratedClassSessions updated) ->
        exists session,
          In session generated /\
          sessionStartDateTime stored = sessionStartDateTime session /\
          sessionEndDateTime stored = sessionEndDateTime session).
Proof.
  unfold FirstVersion.updateClassSeries.
  destruct (Generator.generateAllClassSessions tz now (body_schedule body))
    as [generated|e] eqn:Hgen; [|discriminate].
  destruct (SingleQuery.findDetailedSchedulingConflict _ _ _ _ _) as [[c|]|e];
    try discriminate.
  destruct (castsToDate _ && castsToDate _); [|discriminate].
  destruct (findById db classIdToUpdate) as [existing|] eqn:Hfind; [|discriminate].
  destruct (assignSessionIds (nextObjectId db) generated) as [stored next] eqn:E.
  intros H. injection H as <- <-.
  exists existing, generated.
  cbn [exceptions preGeneratedClassSessions].
  split; [reflexivity|]. split; [reflexivity|]. split; [reflexivity|].
  split.
  - intros session Hin.
    pose proof (assignSessionIds_all generated (nextObjectId db) session Hin) as H.
    rewrite E in H. exact H.
  - intros s Hin.
    pose proof (assignSessionIds_In generated (nextObjectId db) s) as H.
    rewrite E in H. exact (H Hin).
Qed.

(** X28. On a series without exceptions the two versions of the bulk
    update do the same: for every request they leave the same store
    behind, and one answers with the updated document exactly when the
    other does, with the same document. *)
Theorem versions_agree_without_exceptions (now : Z) (db : Database) (id : ObjectId)
    (body : ClassBody) (series : ClassDoc) :
  findById db id = Some series ->
  exceptions series = [] ->
  snd (FirstVersion.updateClassSeries tz now db id body)
  = snd (updateEntireClassSeries tz now db id body) /\
  forall updated,
    fst (FirstVersion.updateClassSeries tz now db id body) = ClassUpdated updated
    <-> fst (updateEntireClassSeries tz now db id body)
        = SeriesUpdated (Some updated).
Proof.
  intros Hfind Hnone.
  unfold FirstVersion.updateClassSeries, updateEntireClassSeries.
  rewrite Hfind, Hnone.
  destruct (Generator.generateAllClassSessions tz now (body_schedule body))
    as [generated|e] eqn:Hgen.
  2:{ split; [reflexivity|]. intros updated. split; discriminate. }
  rewrite reconcileSessions_nil.
  pose proof (finders_silent_together db generated (body_assignedRoom body)
                (body_assignedInstructor body) (Some id)) as [Hsingle Hdual].
  destruct (SingleQuery.findDetailedSchedulingConflict db generated
              (body_assignedRoom body) (body_assignedInstructor body) (Some id))
    as [[c1|]|e1];
    destruct (DualQuery.findDetailedSchedulingConflict db generated
                (body_assignedRoom body) (body_assignedInstructor body) (Some id))
      as [[c2|]|e2];
    try (split; [reflexivity|intros updated; split; discriminate]);
    try (exfalso;
         first [ discriminate (Hsingle eq_refl) | discriminate (Hdual eq_refl) ]).
  destruct (castsToDate _ && castsToDate _);
    [|split; [reflexivity|intros updated; split; discriminate]].
  destruct (assignSessionIds (nextObjectId db) generated) as [stored next].
  cbn [fst snd]. split; [reflexivity|].
  intros updated. split; intros H; injection H as <-; reflexivity.
Qed.

End TwoVersions.

(** "Physics 101" with its session of 09:00 cancelled and moved: the
    first version stores the session at 09:00 again. *)
Lemma first_version_update_forgets_exceptions_witness :
  let body :=
    mkBody "Physics 101" Sample.drRai Sample.lab1
      (Sample.rule SINGLE_INSTANCE (Sample.nov3 0 0) None [Sample.nineToTen] []) in
  exists updated db',
    FirstVersion.updateClassSeries Sample.kathmandu
      (Sample.localClock 2026 10 1 8 0) Sample.storeWithExceptions 101%N body
    = (ClassUpdated updated, db') /\
    exceptions updated = [Sample.moved; Sample.dropped] /\
    exists stored,
      In stored (preGeneratedClassSessions updated) /\
      sessionStartDateTime stored = Sample.nov3 9 0.
Proof.
  intros body.
  assert (Hout : exists updated db',
             FirstVersion.updateClassSeries Sample.kathmandu
               (Sample.localClock 2026 10 1 8 0) Sample.storeWithExceptions 101%N body
             = (ClassUpdated updated, db')).
  { eexists. eexists. vm_compute. reflexivity. }
  destruct Hout as (updated & db' & Hout).
  exists updated, db'. split; [exact Hout|].
  destruct (first_version_update_forgets_exceptions Sample.kathmandu _ _ db' 101%N
              body updated Hout)
    as (existing & generated & Hfind & Hgen & Hex & Hall & _).
  assert (Ee : exceptions existing = [Sample.moved; Sample.dropped]).
  { injection Hfind as <-. reflexivity. }
  split; [congruence|].
  assert (Eg : [mkSession None (Sample.nov3 9 0) (Sample.nov3 10 0)] = generated).
  { assert (Hcomputed :
              Generator.generateAllClassSessions Sample.kathmandu
                (Sample.localClock 2026 10 1 8 0) (body_schedule body)
              = Ok [mkSession None (Sample.nov3 9 0) (Sample.nov3 10 0)])
      by (vm_compute; reflexivity).
    rewrite Hcomputed in Hgen. injection Hgen as <-. reflexivity. }
  destruct (Hall (mkSession None (Sample.nov3 9 0) (Sample.nov3 10 0)))
    as (stored & Hin & Hstart & _); [rewrite <- Eg; left; reflexivity|].
  exists stored. split; [exact Hin|exact Hstart].
Defined.

(** "Algebra" has no exception: both versions store the same. *)
Lemma versions_agree_without_exceptions_witness :
  let body := mkBody "Algebra II" Sample.drSen Sample.lab2 (schedule Sample.algebra) in
  let now := Sample.localClock 2026 10 1 8 0 in
  exceptions Sample.algebra = [] /\
  snd (FirstVersion.updateClassSeries Sample.kathmandu now Sample.store 105%N body)
  = snd (Controller.updateEntireClassSeries Sample.kathmandu now Sample.store
           105%N body).
Proof.
  intros body now. split; [reflexivity|].
  exact (proj1 (versions_agree_without_exceptions Sample.kathmandu now Sample.store
                  105%N body Sample.algebra eq_refl eq_refl)).
Defined.

Section EmptiedClass.
Import Calendar Store Booking Controller Handlers.
Variable tz : Z.

(** X29. Cancelling the only session of a one-time class leaves the
    class in the store with no session.  A later update of an instance
    of that class that gives a new start or a new end then fails on
    the missing first session and writes nothing. *)
Theorem emptied_class_cannot_be_rescheduled (db db1 : Database)
    (seriesId sessionId cancelledId anySessionId : ObjectId)
    (reason : option string) (series : ClassDoc) (session : ClassSession)
    (body : InstanceBody) :
  findById db seriesId = Some series ->
  recurrenceType (schedule series) = SINGLE_INSTANCE ->
  preGeneratedClassSessions series = [session] ->
  session_id session = Some sessionId ->
  cancelSingleInstance db seriesId sessionId reason
  = (SessionCancelled cancelledId, db1) ->
  req_newStart body <> None \/ req_newEnd body <> None ->
  (exists emptied,
      findById db1 seriesId = Some emptied /\
      preGeneratedClassSessions emptied = []) /\
  updateSingleInstance tz db1 seriesId anySessionId body
  = (UpdateError TypeError, db1).
Proof.
  intros Hfind Hkind Hsessions Hsid Hcancel Hgiven.
  destruct (findById_id db seriesId series Hfind) as [Hid _].
  apply cancel_result in Hcancel as (series' & session' & Hfind' & _ & _ & ->).
  rewrite Hfind in Hfind'. injection Hfind' as <-.
  assert (Hpull : pull (preGeneratedClassSessions series) sessionId = []).
  { rewrite Hsessions. unfold pull. cbn [filter]. unfold hasId. rewrite Hsid.
    rewrite N.eqb_refl. reflexivity. }
  rewrite Hpull.
  match goal with
  | |- context [replaceDoc ?d db] => set (emptied := d)
  end.
  assert (Hsaved : findById (replaceDoc emptied db) seriesId = Some emptied).
  { rewrite <- Hid. apply (findById_replaceDoc db emptied series).
    unfold emptied. cbn [doc_id]. rewrite Hid. exact Hfind. }
  split; [exists emptied; split; [exact Hsaved|reflexivity]|].
  unfold updateSingleInstance. rewrite Hsaved.
  unfold emptied at 1. cbn [schedule]. rewrite Hkind. cbn [Generator.isNone].
  unfold emptied at 1. cbn [preGeneratedClassSessions].
  destruct (req_newStart body) as [start|]; [reflexivity|].
  destruct (req_newEnd body) as [finish|]; [reflexivity|].
  destruct Hgiven as [H|H]; contradiction.
Qed.

End EmptiedClass.

(** The session of "Physics 101" is cancelled; moving it to 11:00
    afterwards fails. *)
Lemma emptied_class_cannot_be_rescheduled_witness :
  let body := mkInstanceBody (Some (Sample.nov3 11 0)) (Some (Sample.nov3 12 0))
                "later" None None None in
  exists db1,
    Handlers.cancelSingleInstance Sample.store 101%N 102%N None
    = (SessionCancelled 102%N, db1) /\
    Controller.updateSingleInstance Sample.kathmandu db1 101%N 102%N body
    = (UpdateError TypeError, db1).
Proof.
  intros body.
  assert (Hcancel : exists db1,
             Handlers.cancelSingleInstance Sample.store 101%N 102%N None
             = (SessionCancelled 102%N, db1)).
  { eexists. vm_compute. reflexivity. }
  destruct Hcancel as (db1 & Hcancel).
  exists db1. split; [exact Hcancel|].
  refine (proj2 (emptied_class_cannot_be_rescheduled Sample.kathmandu Sample.store
                   db1 101%N 102%N 102%N 102%N None Sample.physics
                   (mkSession (Some 102%N) (Sample.nov3 9 0) (Sample.nov3 10 0))
                   body eq_refl eq_refl eq_refl eq_refl Hcancel _)).
  left. discriminate.
Defined.

(* ================================================================== *)
(** ** Worked scenarios                                                 *)
(* ================================================================== *)

(** A one-time class tomorrow from 09:00 to 10:00 expands to exactly one
    session, and an empty store has no conflict with it. *)
Example single_class_tomorrow :
  let now := Sample.localClock 2026 10 2 8 0 in
  let session := mkSession None (Sample.nov3 9 0) (Sample.nov3 10 0) in
  Generator.generateAllClassSessions Sample.kathmandu now
    (Sample.rule SINGLE_INSTANCE (Sample.nov3 0 0) None [Sample.nineToTen] [])
  = Ok [session] /\
  DualQuery.findDetailedSchedulingConflict (mkDb [] [] [] 1%N) [session]
    Sample.lab1 Sample.drRai None = Ok None /\
  SingleQuery.findDetailedSchedulingConflict (mkDb [] [] [] 1%N) [session]
    Sample.lab1 Sample.drRai None = Ok None.
Proof. vm_compute. repeat split. Qed.

(** Mondays and Wednesdays, every week, from Monday 2 November 2026 for
    thirteen more days: two Mondays and two Wednesdays. *)
Example weekly_mondays_and_wednesdays :
  Generator.generateAllClassSessions Sample.kathmandu (Sample.localClock 2026 10 1 8 0)
    (mkPayload (Some (Instant (Sample.localClock 2026 10 2 0 0)))
               (Some (Instant (Sample.localClock 2026 10 15 0 0)))
               WEEKLY [Sample.nineToTen] [1; 3] [] 1 [])
  = Ok [mkSession None (Sample.localClock 2026 10 2 9 0) (Sample.localClock 2026 10 2 10 0);
        mkSession None (Sample.localClock 2026 10 4 9 0) (Sample.localClock 2026 10 4 10 0);
        mkSession None (Sample.localClock 2026 10 9 9 0) (Sample.localClock 2026 10 9 10 0);
        mkSession None (Sample.localClock 2026 10 11 9 0)
                       (Sample.localClock 2026 10 11 10 0)].
Proof. vm_compute. reflexivity. Qed.

(** "Physics 101" holds Lab 1 on 3 November from 09:00 to 10:00; a second
    class asks for Lab 1 with another instructor from 09:30 to 10:30, and a
    third from 10:00 to 11:00.  The first request is reported as a room
    conflict with that session, the back-to-back one is not. *)
Example room_conflict_and_back_to_back :
  SingleQuery.findDetailedSchedulingConflict Sample.store
    [mkSession None (Sample.nov3 9 30) (Sample.nov3 10 30)] Sample.lab1 77%N None
  = Ok (Some (mkConflict FieldAssignedRoom
                (RoomAlreadyReserved "Lab 1" "Physics 101"
                   (Sample.nov3 9 0) (Sample.nov3 10 0)))) /\
  DualQuery.findDetailedSchedulingConflict Sample.store
    [mkSession None (Sample.nov3 9 30) (Sample.nov3 10 30)] Sample.lab1 77%N None
  = Ok (Some (mkConflict FieldAssignedRoom
                (ConflictDetected (RoomAlone "Lab 1")
                   (Sample.nov3 9 0) (Sample.nov3 10 0)))) /\
  DualQuery.findDetailedSchedulingConflict Sample.store
    [mkSession None (Sample.nov3 10 0) (Sample.nov3 11 0)] Sample.lab1 77%N None
  = Ok None.
Proof. vm_compute. repeat split. Qed.

(** The last days of the months of a leap year and of a common year. *)
Example february_lengths :
  Calendar.daysInMonth 2028 1 = 29 /\ Calendar.daysInMonth 2027 1 = 28 /\
  Calendar.daysInMonth 2100 1 = 28 /\ Calendar.daysInMonth 2000 1 = 29 /\
  JsTime.isLastDayOfMonth Sample.kathmandu (Sample.localClock 2028 1 29 13 0) = true /\
  JsTime.isLastDayOfMonth Sample.kathmandu (Sample.localClock 2028 1 28 13 0) = false /\
  JsTime.getDay Sample.kathmandu (Sample.localClock 2026 10 2 9 0) = 1.
Proof. vm_compute. repeat split. Qed.
